(** * ng-charts bar chart: shallow embedding of the three bar-chart components

    Sources embedded here:
    - [src/app/barchart/barchart.component.ts]   (module [App])
    - [src/lib/barChart/barChart.component.ts]   (module [Lib])
    - [src/unnamed/part_000], the earlier revision of the app component
      (module [Legacy]).

    The components are Angular classes whose life-cycle hooks mutate the fields
    of [this] and a d3 selection.  The fields become a record [Component], the
    hooks become computations in a small state-and-exception monad, and the d3
    calls the hooks make (d3.max, d3.scaleBand, d3.scaleLinear, the data join,
    attr and transition) are modelled in modules [D3] and [Dom] after d3
    version 4 (d3-array, d3-scale, d3-selection and d3-transition 1.x).

    Numbers: in the hooks a JavaScript number is modelled as an exact rational
    or NaN ([JS.number]); infinities and floating-point rounding are not
    modelled there, so the sizes a hook stores are exact differences and the
    properties of the hooks are about the sizes as stored.  Module [Double]
    evaluates the two size expressions in double precision, for the one
    property that rounding decides: whether adding the margins back gives the
    width and the height again.
    Time: a transition is modelled by what is scheduled (easing, duration,
    targets), not by the frames it goes through.

    [ngOnDestroy] assigns null to every field, the inputs included; it is
    modelled on a record whose fields are all nullable ([Nullable.Instance]),
    on which the hooks are the hooks of [Component] behind the two reads
    that a null input makes throw. *)

From Stdlib Require Import ZArith QArith Qround Lqa Ascii String List Lia SpecFloat.
From stdpp Require Import gmap strings list.
Import ListNotations.

Open Scope string_scope.
Open Scope list_scope.

(** ** JavaScript values *)
Module JS.

(** A number: finite (exact rational) or NaN. *)
Inductive number : Type :=
  | Fin (q : Q)
  | NaN.

Definition lift2 (f : Q -> Q -> Q) (a b : number) : number :=
  match a, b with
  | Fin p, Fin q => Fin (f p q)
  | _, _ => NaN
  end.

Definition add : number -> number -> number := lift2 Qplus.
Definition sub : number -> number -> number := lift2 Qminus.
Definition mul : number -> number -> number := lift2 Qmult.

(** [a / b].  No modelled path divides by zero (d3 guards every divisor), so
    the quotient by zero, an infinity in JavaScript, is left as NaN. *)
Definition div (a b : number) : number :=
  match a, b with
  | Fin p, Fin q => if Qeq_bool q 0 then NaN else Fin (p / q)
  | _, _ => NaN
  end.

(** [Math.floor] and [Math.round] (round half up). *)
Definition floor (a : number) : number :=
  match a with
  | Fin q => Fin (inject_Z (Qfloor q))
  | NaN => NaN
  end.

Definition round (a : number) : number :=
  match a with
  | Fin q => Fin (inject_Z (Qfloor (q + (1 # 2))))
  | NaN => NaN
  end.

(** [a < b] and [a >= b] on numbers; every comparison with NaN is false. *)
Definition lt (a b : number) : bool :=
  match a, b with
  | Fin p, Fin q => match Qcompare p q with Lt => true | _ => false end
  | _, _ => false
  end.

Definition ge (a b : number) : bool :=
  match a, b with
  | Fin p, Fin q => match Qcompare p q with Lt => false | _ => true end
  | _, _ => false
  end.

(** Truthiness of a number: neither 0 nor NaN. *)
Definition truthy (a : number) : bool :=
  match a with
  | Fin q => negb (Qeq_bool q 0)
  | NaN => false
  end.

(** The same number up to the representation of the rational. *)
Definition same (a b : number) : Prop :=
  match a, b with
  | Fin p, Fin q => p == q
  | NaN, NaN => True
  | _, _ => False
  end.

(** The value of a field of a data record: a number, a string, or
    [undefined] when the record has no such field. *)
Inductive value : Type :=
  | VUndefined
  | VNumber (q : Q)
  | VString (s : string).

(** The two conversions between numbers and strings that the language
    performs implicitly ([x + ""] and [+x]).  The decimal syntax of numbers
    is not part of the model, so they are an interface. *)
Class Coercions : Type := {
  numberToString : Q -> string;
  stringToNumber : string -> number
}.

Section WithCoercions.
Context `{Coercions}.

(** [v + ""] *)
Definition toString (v : value) : string :=
  match v with
  | VUndefined => "undefined"
  | VNumber q => numberToString q
  | VString s => s
  end.

(** [+v] *)
Definition toNumber (v : value) : number :=
  match v with
  | VUndefined => NaN
  | VNumber q => Fin q
  | VString s => stringToNumber s
  end.

(** [a > b] and [a >= b]: two strings compare in dictionary order, any
    other pair compares as numbers. *)
Definition gt (a b : value) : bool :=
  match a, b with
  | VString s, VString t => String.ltb t s
  | _, _ => lt (toNumber b) (toNumber a)
  end.

Definition geq (a b : value) : bool :=
  match a, b with
  | VString s, VString t => String.leb t s
  | _, _ => ge (toNumber a) (toNumber b)
  end.

(** A number inside a template literal. *)
Definition numberString (n : number) : string :=
  match n with
  | Fin q => numberToString q
  | NaN => "NaN"
  end.

(** A template literal [`${q}`] of a number that may still be undefined. *)
Definition template (o : option Q) : string :=
  match o with
  | Some q => numberToString q
  | None => "undefined"
  end.
End WithCoercions.

(** [v != null] *)
Definition notNull (v : value) : bool :=
  match v with
  | VUndefined => false
  | _ => true
  end.

(** A numeric field of [this] read in an arithmetic position: a field not
    yet assigned is [undefined], which arithmetic turns into NaN. *)
Definition ofField (o : option Q) : number :=
  match o with
  | Some q => Fin q
  | None => NaN
  end.

(** A data record, [{}] in the sources: a finite map from field names to
    values.  [get d k] is [d[k]]. *)
Abbreviation record := (gmap string value).

Definition get (d : record) (k : string) : value :=
  default VUndefined (d !! k).

End JS.

Export JS.

(** ** Double precision

    The numbers of the language are IEEE 754 binary64 values.  [SpecFloat]
    computes their operations: 53 bits of precision, exponents below 1024,
    rounding to the nearest value, ties to even. *)
Module Double.

Definition double : Type := spec_float.

Definition prec : Z := 53.
Definition emax : Z := 1024.

Definition add (a b : double) : double := SFadd prec emax a b.
Definition sub (a b : double) : double := SFsub prec emax a b.
Definition div (a b : double) : double := SFdiv prec emax a b.

(** A whole number below 2^53 as a double. *)
Definition of_Z (z : Z) : double := binary_normalize prec emax z 0 false.

(** The double a decimal literal denotes: the one nearest to its value, which
    is the quotient, rounded once, of two whole numbers below 2^53. *)
Definition literal (q : Q) : double := div (of_Z (Qnum q)) (of_Z (Z.pos (Qden q))).

(** [this.width - this.margins.left - this.margins.right], the right-hand
    side of the assignment to [this.chartWidth] in [ngOnInit] and
    [ngOnChanges] of the three components; the subtractions associate to the
    left. *)
Definition chartWidth (width left right : double) : double :=
  sub (sub width left) right.

(** [this.height - this.margins.top - this.margins.bottom], the right-hand
    side of the assignment to [this.chartHeight]. *)
Definition chartHeight (height top bottom : double) : double :=
  sub (sub height top) bottom.

End Double.

(** ** The d3 calls made by the components (d3 version 4) *)
Module D3.

Section WithCoercions.
Context `{Coercions}.

(** *** d3-array: [d3.max(array)]

    The first loop finds the first entry [b] with [b != null && b >= b]; the
    second keeps the largest of the remaining comparable entries.  The result
    is [undefined] when no entry is comparable. *)
Fixpoint max_rest (a : value) (array : list value) : value :=
  match array with
  | [] => a
  | b :: rest => max_rest (if notNull b && gt b a then b else a) rest
  end.

Fixpoint max (array : list value) : value :=
  match array with
  | [] => VUndefined
  | b :: rest => if notNull b && geq b b then max_rest b rest else max rest
  end.

(** *** d3-scale: ordinal domain

    [scale.domain(_)] of an ordinal scale: the entries are keyed by their
    string form in [index]; an entry whose key is already present is dropped,
    a new one is pushed and its position (from 1) recorded. *)
Fixpoint ordinal_domain (index : gmap string nat) (domain : list value)
    (input : list value) : gmap string nat * list value :=
  match input with
  | [] => (index, domain)
  | d :: rest =>
      let key := toString d in
      match index !! key with
      | Some _ => ordinal_domain index domain rest
      | None =>
          ordinal_domain (<[key := S (length domain)]> index) (domain ++ [d]) rest
      end
  end.

(** *** d3-scale: [d3.scaleBand()]

    The paddings keep their default 0 and [align] its default 0.5: the
    components never set them. *)
Record ScaleBand : Type := {
  band_index : gmap string nat;
  band_domain : list value;
  band_range : number * number;
  band_round : bool
}.

Definition scaleBand : ScaleBand :=
  {| band_index := ∅; band_domain := []; band_range := (Fin 0, Fin 1);
     band_round := false |}.

(** [band.domain(_)] *)
Definition band_set_domain (input : list value) (s : ScaleBand) : ScaleBand :=
  let '(index, domain) := ordinal_domain ∅ [] input in
  {| band_index := index; band_domain := domain; band_range := band_range s;
     band_round := band_round s |}.

(** [band.rangeRound([r0, r1])]: both bounds are coerced to numbers. *)
Definition band_rangeRound (r : number * number) (s : ScaleBand) : ScaleBand :=
  {| band_index := band_index s; band_domain := band_domain s; band_range := r;
     band_round := true |}.

(** The quantities computed by [rescale()] of band.js. *)
Definition band_n (s : ScaleBand) : number :=
  Fin (inject_Z (Z.of_nat (length (band_domain s)))).

Definition band_reverse (s : ScaleBand) : bool :=
  lt (snd (band_range s)) (fst (band_range s)).

Definition band_start0 (s : ScaleBand) : number :=
  if band_reverse s then snd (band_range s) else fst (band_range s).

Definition band_stop (s : ScaleBand) : number :=
  if band_reverse s then fst (band_range s) else snd (band_range s).

(** [step = (stop - start) / Math.max(1, n); if (round) step = Math.floor(step)] *)
Definition band_step (s : ScaleBand) : number :=
  let n := Fin (inject_Z (Z.max 1 (Z.of_nat (length (band_domain s))))) in
  let step := div (sub (band_stop s) (band_start0 s)) n in
  if band_round s then floor step else step.

(** [start += (stop - start - step * n) * align; if (round) start = Math.round(start)] *)
Definition band_start (s : ScaleBand) : number :=
  let start :=
    add (band_start0 s)
        (mul (sub (sub (band_stop s) (band_start0 s)) (mul (band_step s) (band_n s)))
             (Fin (1 # 2))) in
  if band_round s then round start else start.

(** [bandwidth = step * (1 - paddingInner); if (round) bandwidth = Math.round(bandwidth)] *)
Definition bandwidth (s : ScaleBand) : number :=
  let bw := mul (band_step s) (Fin 1) in
  if band_round s then round bw else bw.

(** [values = sequence(n).map(i => start + step * i)], reversed when the
    range is decreasing. *)
Definition band_values (s : ScaleBand) : list number :=
  let values :=
    map (fun i : nat => add (band_start s) (mul (band_step s) (Fin (inject_Z (Z.of_nat i)))))
        (seq 0 (length (band_domain s))) in
  if band_reverse s then rev values else values.

(** [band(d)]: the left edge of the band of [d], [undefined] ([None]) for a
    value outside the domain. *)
Definition band_call (s : ScaleBand) (d : value) : option number :=
  match band_index s !! toString d with
  | None => None
  | Some i =>
      let values := band_values s in
      values !! ((i - 1) mod length values)%nat
  end.

(** *** d3-scale: [d3.scaleLinear()] with a two-point domain and range *)
Record ScaleLinear : Type := {
  lin_domain : number * number;
  lin_range : number * number;
  lin_round : bool
}.

Definition scaleLinear : ScaleLinear :=
  {| lin_domain := (Fin 0, Fin 1); lin_range := (Fin 0, Fin 1); lin_round := false |}.

(** [linear.domain([d0, d1])]: both bounds are coerced with [+x]. *)
Definition lin_set_domain (d : value * value) (s : ScaleLinear) : ScaleLinear :=
  {| lin_domain := (toNumber (fst d), toNumber (snd d)); lin_range := lin_range s;
     lin_round := lin_round s |}.

(** [linear.rangeRound([r0, r1])]: sets the range and the rounding interpolator. *)
Definition lin_rangeRound (r : number * number) (s : ScaleLinear) : ScaleLinear :=
  {| lin_domain := lin_domain s; lin_range := r; lin_round := true |}.

(** [deinterpolateLinear(a, b)]:
    [(b -= a) ? x => (x - a) / b : constant(b)] *)
Definition deinterpolateLinear (a b : number) (x : number) : number :=
  let b' := sub b a in
  if truthy b' then div (sub x a) b' else b'.

(** [interpolateNumber(a, b)] and [interpolateRound(a, b)] *)
Definition interpolateNumber (a b : number) (t : number) : number :=
  add a (mul (sub b a) t).

Definition interpolateRound (a b : number) (t : number) : number :=
  round (add a (mul (sub b a) t)).

(** [bimap]: a decreasing domain is flipped together with the range. *)
Definition bimap (domain range : number * number)
    (reinterpolate : number -> number -> number -> number) (x : number) : number :=
  let '(d0, d1) := domain in
  let '(r0, r1) := range in
  if lt d1 d0
  then reinterpolate r1 r0 (deinterpolateLinear d1 d0 x)
  else reinterpolate r0 r1 (deinterpolateLinear d0 d1 x).

(** [linear(x)] *)
Definition lin_call (s : ScaleLinear) (x : value) : number :=
  bimap (lin_domain s) (lin_range s)
        (if lin_round s then interpolateRound else interpolateNumber)
        (toNumber x).

End WithCoercions.

End D3.

Notation "x |> f" := (f x) (at level 68, left associativity, only parsing).

(** ** The drawing surface: nodes of the chart's [g] element and selections *)
Module Dom.

(** The value of an attribute of a node. *)
Inductive attr : Type :=
  | ANum (n : number)
  | AStr (s : string).

Inductive easing : Type :=
  | easeCubicInOut
  | easeLinear.

(** A transition scheduled on a node: easing, duration in milliseconds and
    the target value of every attribute it animates.  [transition.attr]
    evaluates its function argument when it is called, so the targets are
    those of the draw call that scheduled the transition.  The attributes of
    a node ([attrs] below) are those set by [selection.attr]; what the
    transition does to them as time passes is not modelled. *)
Record Transition : Type := {
  ease : easing;
  duration : Z;
  targets : gmap string attr
}.

Inductive Scale : Type :=
  | SBand (s : D3.ScaleBand)
  | SLinear (s : D3.ScaleLinear).

(** [d3.axisBottom(scale)] and [d3.axisLeft(scale)] *)
Inductive Axis : Type :=
  | axisBottom (scale : Scale)
  | axisLeft (scale : Scale).

(** The pair of labels handed to the tooltip service ([new Tooltip(x, y)]). *)
Record Tooltip : Type := {
  xLabel : string;
  yLabel : string
}.

Record Node : Type := {
  tag : string;
  attrs : gmap string attr;
  styles : gmap string string;
  text : option string;
  datum : option record;            (* [__data__], bound by the data join *)
  axis : option Axis;               (* ticks rendered by [selection.call(axis)] *)
  schedule : option Transition;     (* the transition scheduled on the node *)
  tooltip : option Tooltip          (* labels attached by the tooltip service *)
}.

(** A new node, as [append(name)] creates it, bound to the datum [d]. *)
Definition create (name : string) (d : option record) : Node :=
  {| tag := name; attrs := ∅; styles := ∅; text := None; datum := d;
     axis := None; schedule := None; tooltip := None |}.

Definition set_attrs (a : gmap string attr) (n : Node) : Node :=
  {| tag := tag n; attrs := a; styles := styles n; text := text n;
     datum := datum n; axis := axis n; schedule := schedule n;
     tooltip := tooltip n |}.

Definition set_styles (s : gmap string string) (n : Node) : Node :=
  {| tag := tag n; attrs := attrs n; styles := s; text := text n;
     datum := datum n; axis := axis n; schedule := schedule n;
     tooltip := tooltip n |}.

Definition set_text (t : option string) (n : Node) : Node :=
  {| tag := tag n; attrs := attrs n; styles := styles n; text := t;
     datum := datum n; axis := axis n; schedule := schedule n;
     tooltip := tooltip n |}.

Definition set_datum (d : option record) (n : Node) : Node :=
  {| tag := tag n; attrs := attrs n; styles := styles n; text := text n;
     datum := d; axis := axis n; schedule := schedule n;
     tooltip := tooltip n |}.

Definition set_axis (a : option Axis) (n : Node) : Node :=
  {| tag := tag n; attrs := attrs n; styles := styles n; text := text n;
     datum := datum n; axis := a; schedule := schedule n;
     tooltip := tooltip n |}.

Definition set_schedule (t : option Transition) (n : Node) : Node :=
  {| tag := tag n; attrs := attrs n; styles := styles n; text := text n;
     datum := datum n; axis := axis n; schedule := t;
     tooltip := tooltip n |}.

Definition set_tooltip (t : option Tooltip) (n : Node) : Node :=
  {| tag := tag n; attrs := attrs n; styles := styles n; text := text n;
     datum := datum n; axis := axis n; schedule := schedule n;
     tooltip := t |}.

(** [attr(name, value)] on one node: a null value removes the attribute,
    any other value (NaN included) is set.  [set_styles], [set_text] and
    [set_axis] above are [style], [text] and [call(axis)] on one node. *)
Definition attr1 (name : string) (v : option attr) (n : Node) : Node :=
  match v with
  | Some a => set_attrs (<[name := a]> (attrs n)) n
  | None => set_attrs (delete name (attrs n)) n
  end.

(** A selection is the list of its nodes, in document order.
    [selection.attr(name, value)] with a constant sets it on every node. *)
Definition attr_const (name : string) (v : option attr) (sel : list Node) : list Node :=
  map (attr1 name v) sel.

(** [selection.attr(name, d => ...)]: the function is applied to the datum of
    each node.  The selections it is used on come from [enter()], whose nodes
    all hold a datum. *)
Definition attr_fn (name : string) (f : record -> option attr) (sel : list Node) : list Node :=
  map (fun n => match datum n with
                | Some d => attr1 name (f d) n
                | None => n
                end) sel.

(** [selection.transition()]: a new transition on every node, with d3's
    defaults (cubic easing, 250 ms); it replaces the one scheduled before. *)
Definition transition (sel : list Node) : list Node :=
  map (set_schedule
         (Some {| ease := easeCubicInOut; duration := 250; targets := ∅ |})) sel.

Definition on_schedule (f : Transition -> Transition) (n : Node) : Node :=
  match schedule n with
  | Some t => set_schedule (Some (f t)) n
  | None => n
  end.

(** [transition.ease(e)], [transition.duration(ms)] *)
Definition t_ease (e : easing) (sel : list Node) : list Node :=
  map (on_schedule (fun t =>
         {| ease := e; duration := duration t; targets := targets t |})) sel.

Definition t_duration (ms : Z) (sel : list Node) : list Node :=
  map (on_schedule (fun t =>
         {| ease := ease t; duration := ms; targets := targets t |})) sel.

Definition t_target (name : string) (v : option attr) (t : Transition) : Transition :=
  {| ease := ease t; duration := duration t;
     targets := match v with
                | Some a => <[name := a]> (targets t)
                | None => delete name (targets t)
                end |}.

(** [transition.attr(name, value)] with a constant and with a function of
    the datum. *)
Definition t_attr_const (name : string) (v : option attr) (sel : list Node) : list Node :=
  map (on_schedule (t_target name v)) sel.

Definition t_attr_fn (name : string) (f : record -> option attr) (sel : list Node) : list Node :=
  map (fun n => match datum n with
                | Some d => on_schedule (t_target name (f d)) n
                | None => n
                end) sel.

(** The selector [.bar]: the nodes whose class is [bar].  Every class the
    components set is a single token. *)
Definition has_class (cls : string) (n : Node) : bool :=
  match attrs n !! "class" with
  | Some (AStr c) => String.eqb c cls
  | _ => false
  end.

(** [selectAll('.' + cls)]: the selected children, in document order. *)
Definition selectAll (cls : string) (children : list Node) : list Node :=
  List.filter (has_class cls) children.

(** [selectAll('.' + cls).data(dataSet)]: the join by index.  The i-th
    selected node is rebound to the i-th datum ([node.__data__ = data[i]]) and
    is otherwise left as it is; selected nodes beyond the data (the exit
    selection) are left untouched; the data beyond the selected nodes are
    returned: they are the data of the enter selection. *)
Fixpoint data_join (cls : string) (dataSet : list record) (children : list Node)
    : list Node * list record :=
  match children with
  | [] => ([], dataSet)
  | n :: rest =>
      if has_class cls n then
        match dataSet with
        | d :: dataSet' =>
            let '(rest', entering) := data_join cls dataSet' rest in
            (set_datum (Some d) n :: rest', entering)
        | [] => (n :: rest, [])
        end
      else
        let '(rest', entering) := data_join cls dataSet rest in
        (n :: rest', entering)
  end.

(** [enter().append(name)]: one new node per entering datum, bound to it;
    the new nodes are appended after the existing children, in data order. *)
Definition enter_append (name : string) (entering : list record) : list Node :=
  map (fun d => create name (Some d)) entering.

End Dom.

Export Dom.


(** ** The component state and the monad of the life-cycle hooks *)
Module Chart.

Record Margins : Type := {
  top : Q;
  right : Q;
  bottom : Q;
  left : Q
}.

(** The fields of [this].  The three classes declare the same fields;
    [tooltipLabels] belongs to the lib component only.  [data], the computed
    sizes, the chart and the scales are [None] while they are null or
    undefined.  [x] and [y] are the field names; an input that was not
    supplied reads the property named "undefined", so it is that string.

    The sizes and the margins are exact rationals: [chartWidth] and
    [chartHeight] hold the exact differences, where the classes hold the
    differences rounded to doubles ([Double.chartWidth],
    [Double.chartHeight]).  What is proved of the hooks is relative to the
    sizes as stored. *)
Record Component : Type := {
  width : Q;
  height : Q;
  margins : Margins;
  data : option (list record);
  x : string;
  y : string;
  chartHeight : option Q;
  chartWidth : option Q;
  chart : option (list Node);
  xScale : option D3.ScaleBand;
  yScale : option D3.ScaleLinear;
  xData : option (list value);
  yData : option (list value);
  tooltipLabels : option Tooltip
}.

Inductive Error : Type :=
  | mkError (message : string)      (* [new Error(message)] *)
  | TypeError (message : string)    (* raised by the runtime *)
  | DataError.                      (* raised by the data service of the lib *)

(** The outcome of a hook: it returns, or it throws; either way the fields
    are those assigned so far. *)
Inductive Result (A : Type) : Type :=
  | Ok (a : A) (this : Component)
  | Throw (e : Error) (this : Component).

Arguments Ok {A} a this.
Arguments Throw {A} e this.

Definition M (A : Type) : Type := Component -> Result A.

Definition ret {A : Type} (a : A) : M A := fun this => Ok a this.

Definition bind {A B : Type} (m : M A) (k : A -> M B) : M B :=
  fun this =>
    match m this with
    | Ok a this' => k a this'
    | Throw e this' => Throw e this'
    end.

Definition throw {A : Type} (e : Error) : M A := fun this => Throw e this.

Definition this_ : M Component := fun this => Ok this this.

Definition assign (f : Component -> Component) : M unit :=
  fun this => Ok tt (f this).

Definition set_chartWidth (v : option Q) (c : Component) : Component :=
  {| width := width c; height := height c; margins := margins c; data := data c;
     x := x c; y := y c; chartHeight := chartHeight c; chartWidth := v;
     chart := chart c; xScale := xScale c; yScale := yScale c;
     xData := xData c; yData := yData c; tooltipLabels := tooltipLabels c |}.

Definition set_chartHeight (v : option Q) (c : Component) : Component :=
  {| width := width c; height := height c; margins := margins c; data := data c;
     x := x c; y := y c; chartHeight := v; chartWidth := chartWidth c;
     chart := chart c; xScale := xScale c; yScale := yScale c;
     xData := xData c; yData := yData c; tooltipLabels := tooltipLabels c |}.

Definition set_chart (v : option (list Node)) (c : Component) : Component :=
  {| width := width c; height := height c; margins := margins c; data := data c;
     x := x c; y := y c; chartHeight := chartHeight c; chartWidth := chartWidth c;
     chart := v; xScale := xScale c; yScale := yScale c;
     xData := xData c; yData := yData c; tooltipLabels := tooltipLabels c |}.

Definition set_xScale (v : option D3.ScaleBand) (c : Component) : Component :=
  {| width := width c; height := height c; margins := margins c; data := data c;
     x := x c; y := y c; chartHeight := chartHeight c; chartWidth := chartWidth c;
     chart := chart c; xScale := v; yScale := yScale c;
     xData := xData c; yData := yData c; tooltipLabels := tooltipLabels c |}.

Definition set_yScale (v : option D3.ScaleLinear) (c : Component) : Component :=
  {| width := width c; height := height c; margins := margins c; data := data c;
     x := x c; y := y c; chartHeight := chartHeight c; chartWidth := chartWidth c;
     chart := chart c; xScale := xScale c; yScale := v;
     xData := xData c; yData := yData c; tooltipLabels := tooltipLabels c |}.

Definition set_xData (v : option (list value)) (c : Component) : Component :=
  {| width := width c; height := height c; margins := margins c; data := data c;
     x := x c; y := y c; chartHeight := chartHeight c; chartWidth := chartWidth c;
     chart := chart c; xScale := xScale c; yScale := yScale c;
     xData := v; yData := yData c; tooltipLabels := tooltipLabels c |}.

Definition set_yData (v : option (list value)) (c : Component) : Component :=
  {| width := width c; height := height c; margins := margins c; data := data c;
     x := x c; y := y c; chartHeight := chartHeight c; chartWidth := chartWidth c;
     chart := chart c; xScale := xScale c; yScale := yScale c;
     xData := xData c; yData := v; tooltipLabels := tooltipLabels c |}.

Definition set_tooltipLabels (v : option Tooltip) (c : Component) : Component :=
  {| width := width c; height := height c; margins := margins c; data := data c;
     x := x c; y := y c; chartHeight := chartHeight c; chartWidth := chartWidth c;
     chart := chart c; xScale := xScale c; yScale := yScale c;
     xData := xData c; yData := yData c; tooltipLabels := v |}.

(** [this.chart.append(...)]: the children of the chart, or the TypeError of
    reading a property of [undefined] while no chart has been made. *)
Definition the_chart : M (list Node) :=
  fun this =>
    match chart this with
    | Some children => Ok children this
    | None => Throw (TypeError "Cannot read property 'append' of undefined") this
    end.

(** [this.chart.append(name)...]: a new last child of the chart. *)
Definition append_child (n : Node) : M unit :=
  bind the_chart (fun children => assign (set_chart (Some (children ++ [n])))).

(** The host framework assigns the input [data] before it notifies the
    component of the change. *)
Definition set_data (v : option (list record)) (c : Component) : Component :=
  {| width := width c; height := height c; margins := margins c; data := v;
     x := x c; y := y c; chartHeight := chartHeight c; chartWidth := chartWidth c;
     chart := chart c; xScale := xScale c; yScale := yScale c;
     xData := xData c; yData := yData c; tooltipLabels := tooltipLabels c |}.

Section AxisNodes.
Context `{Coercions}.

(** The four nodes [makeAxis] appends; the three components build them with
    the same calls.

    [append('g').attr('class', 'x-axis')
       .attr('transform', `translate(0, ${this.chartHeight})`)
       .call(d3.axisBottom(scale))] *)
Definition x_axis_group (this : Component) (scale : Scale) : Node :=
  create "g" None
  |> attr1 "class" (Some (AStr "x-axis"))
  |> attr1 "transform"
       (Some (AStr ("translate(0, " +:+ template (chartHeight this) +:+ ")")))
  |> set_axis (Some (axisBottom scale)).

(** [append('text')
       .attr('transform', `translate(${this.chartWidth / 2},
                            ${this.chartHeight + this.margins.bottom - 5})`)
       .text(`${this.x}`)] *)
Definition x_axis_label (this : Component) : Node :=
  let movement :=
    numberString (div (ofField (chartWidth this)) (Fin 2))
    +:+ ", "
    +:+ numberString
          (sub (add (ofField (chartHeight this)) (Fin (bottom (margins this))))
               (Fin 5)) in
  create "text" None
  |> attr1 "transform" (Some (AStr ("translate(" +:+ movement +:+ ")")))
  |> set_text (Some (x this)).

(** [append('g').attr('class', 'y-axis').call(d3.axisLeft(scale))] *)
Definition y_axis_group (scale : Scale) : Node :=
  create "g" None
  |> attr1 "class" (Some (AStr "y-axis"))
  |> set_axis (Some (axisLeft scale)).

(** [append('text').attr('transform', 'rotate(-90)')
       .attr('y', `-${this.margins.left}`)
       .attr('x', `-${this.chartHeight / 2}`)
       .attr('dy', '1em').style('text-anchor', 'middle')
       .text(`${this.y}`)] *)
Definition y_axis_label (this : Component) : Node :=
  create "text" None
  |> attr1 "transform" (Some (AStr "rotate(-90)"))
  |> attr1 "y" (Some (AStr ("-" +:+ numberToString (left (margins this)))))
  |> attr1 "x"
       (Some (AStr ("-" +:+ numberString (div (ofField (chartHeight this)) (Fin 2)))))
  |> attr1 "dy" (Some (AStr "1em"))
  |> set_styles {["text-anchor" := "middle"]}
  |> set_text (Some (y this)).

End AxisNodes.

(** A hook that is a render invocation raised the missing-data error. *)
Definition raisesMissingData {A : Type} (r : Result A) : Prop :=
  exists this, r = Throw (mkError "Missing Data!") this.

Definition returns {A : Type} (r : Result A) : Prop :=
  exists a this, r = Ok a this.

(** What a hook left in the component when it returned; [None] when it threw. *)
Definition observe {B : Type} (f : Component -> B) (r : Result unit) : option B :=
  match r with
  | Ok _ this => Some (f this)
  | Throw _ _ => None
  end.

(** The bar shapes held by the chart, in document order: its [rect] nodes. *)
Definition is_rect (n : Node) : bool := String.eqb (tag n) "rect".

Definition bars (c : Component) : list Node :=
  match chart c with
  | Some children => List.filter is_rect children
  | None => []
  end.

(** Modelled from the spec: [ChartService.makeChartCanvas(container, width,
    height, margins)] of [shared/chart.service], which is not among the
    sources.  The spec treats it as the provider of the drawing surface; the
    model returns a new surface with nothing drawn on it. *)
Definition makeChartCanvas (width height : Q) (margins : Margins) : list Node := [].

End Chart.

Export Chart.

Declare Scope chart_scope.
Delimit Scope chart_scope with chart.
Notation "v <- m ;; k" := (bind m (fun v => k))
  (at level 100, m at next level, right associativity) : chart_scope.
Notation "m ;; k" := (bind m (fun _ : unit => k))
  (at level 100, right associativity) : chart_scope.

(** ** [src/app/barchart/barchart.component.ts] *)
Module App.

Section WithCoercions.
Context `{Coercions}.
Local Open Scope chart_scope.

(** [getData(data, dataElement)]: [data.map((d) => d[dataElement])] *)
Definition getData (data : list record) (dataElement : string) : list value :=
  map (fun d => get d dataElement) data.

(** [makeAxis(axis, scale)] *)
Definition makeAxis (axis : string) (scale : Scale) : M unit :=
  if String.eqb axis "x" then
    this <- this_ ;;
    append_child (x_axis_group this scale) ;;
    append_child (x_axis_label this)
  else if String.eqb axis "y" then
    this <- this_ ;;
    append_child (y_axis_group scale) ;;
    append_child (y_axis_label this)
  else ret tt.

(** The bars appended by [draw]: the chain from [append('rect')] to the last
    [attr] of the transition, applied to the enter selection. *)
Definition enter_bars (this : Component) (xScale : D3.ScaleBand)
    (yScale : D3.ScaleLinear) (entering : list record) : list Node :=
  enter_append "rect" entering
  |> attr_const "class" (Some (AStr "bar"))
  |> attr_const "width" (Some (ANum (D3.bandwidth xScale)))
  |> attr_fn "x" (fun d => ANum <$> D3.band_call xScale (get d (x this)))
  |> attr_const "y" (Some (ANum (D3.lin_call yScale (VNumber 0))))
  |> attr_const "height"
       (Some (ANum (sub (ofField (chartHeight this)) (D3.lin_call yScale (VNumber 0)))))
  |> transition
  |> t_ease easeLinear
  |> t_duration 880
  |> t_attr_fn "y" (fun d => Some (ANum (D3.lin_call yScale (get d (y this)))))
  |> t_attr_fn "height"
       (fun d => Some (ANum (sub (ofField (chartHeight this))
                                 (D3.lin_call yScale (get d (y this)))))).

(** [draw(dataSet)] *)
Definition draw (dataSet : list record) : M unit :=
  this <- this_ ;;
  let xData := getData dataSet (x this) in
  assign (set_xData (Some xData)) ;;
  let yData := getData dataSet (y this) in
  assign (set_yData (Some yData)) ;;
  let xScale :=
    D3.scaleBand
    |> D3.band_set_domain xData
    |> D3.band_rangeRound (Fin 0, ofField (chartWidth this)) in
  assign (set_xScale (Some xScale)) ;;
  let yScale :=
    D3.scaleLinear
    |> D3.lin_set_domain (VNumber 0, D3.max yData)
    |> D3.lin_rangeRound (ofField (chartHeight this), Fin 0) in
  assign (set_yScale (Some yScale)) ;;
  makeAxis "x" (SBand xScale) ;;
  makeAxis "y" (SLinear yScale) ;;
  children <- the_chart ;;
  let '(children', entering) := data_join "bar" dataSet children in
  assign (set_chart (Some (children' ++ enter_bars this xScale yScale entering))).

(** [ngOnInit()] *)
Definition ngOnInit : M unit :=
  this <- this_ ;;
  match data this with
  | None => throw (mkError "Missing Data!")
  | Some _ =>
      assign (set_chartWidth
                (Some (width this - left (margins this) - right (margins this))%Q)) ;;
      assign (set_chartHeight
                (Some (height this - top (margins this) - bottom (margins this))%Q)) ;;
      assign (set_chart
                (Some (makeChartCanvas (width this) (height this) (margins this)))) ;;
      this <- this_ ;;
      match data this with
      | Some dataSet => draw dataSet
      | None => ret tt
      end
  end.

(** [ngOnChanges()] *)
Definition ngOnChanges : M unit :=
  this <- this_ ;;
  assign (set_chartWidth
            (Some (width this - left (margins this) - right (margins this))%Q)) ;;
  assign (set_chartHeight
            (Some (height this - top (margins this) - bottom (margins this))%Q)) ;;
  this <- this_ ;;
  match chart this, data this with
  | Some _, Some dataSet => draw dataSet
  | _, _ => ret tt
  end.

End WithCoercions.

End App.

(** ** [src/lib/barChart/barChart.component.ts] and its injected services *)

(** The lib component gets its series and its scales from the injected
    [DataService] and hands its bars to the injected [ToolTipService]; neither
    [shared/data.service] nor [shared/tooltip.service] is among the sources. *)
Module DataService.

Section WithCoercions.
Context `{Coercions}.

(** Modelled from the spec: [DataService.getData(data, dataElement)], the
    field extractor of section 4.2: one value per record, in order, with
    [undefined] for a missing field. *)
Definition getData (data : list record) (dataElement : string) : list value :=
  map (fun d => get d dataElement) data.

(** Modelled from the spec: [DataService.makeScale('categorical', data, size)],
    the band scale of section 4.3: the distinct values in first-occurrence
    order over the range [0, size], no padding, rounded edges. *)
Definition makeScale_categorical (data : list value) (size : number) : D3.ScaleBand :=
  D3.scaleBand |> D3.band_set_domain data |> D3.band_rangeRound (Fin 0, size).

(** Modelled from the spec: the linear scale of section 4.3, with the domain
    [0, maximum] onto the range [size, 0]. *)
Definition linear (maximum : value) (size : number) : D3.ScaleLinear :=
  D3.scaleLinear
  |> D3.lin_set_domain (VNumber 0, maximum)
  |> D3.lin_rangeRound (size, Fin 0).

(** Modelled from the spec: [DataService.makeScale('linear', data, size, flag)].
    The domain is [0, max(data)].  When the series yields no maximum - [max] is
    undefined, as it is for the empty data set - the service "must fail with a
    DataError" (sections 4.3 and 7) rather than build a scale with a NaN
    bound: the call throws and returns no scale.  The component passes [false]
    for the fourth argument, of which the spec says nothing. *)
Definition makeScale_linear (data : list value) (size : number) (flag : bool)
    : M D3.ScaleLinear :=
  match D3.max data with
  | VUndefined => throw DataError
  | maximum => ret (linear maximum size)
  end.

End WithCoercions.

End DataService.

Module ToolTipService.

(** Modelled from the spec: [ToolTipService.addTooltip(selection, labels,
    container)].  The spec gives the service the created bars and the label
    pair and nothing more; the model records the labels on each bar and leaves
    its geometry alone. *)
Definition addTooltip (sel : list Node) (labels : option Tooltip) : list Node :=
  map (set_tooltip labels) sel.

End ToolTipService.

Module Lib.

Section WithCoercions.
Context `{Coercions}.
Local Open Scope chart_scope.

(** [makeAxis(axis, scale)] *)
Definition makeAxis (axis : string) (scale : Scale) : M unit :=
  if String.eqb axis "x" then
    this <- this_ ;;
    append_child (x_axis_group this scale) ;;
    append_child (x_axis_label this)
  else if String.eqb axis "y" then
    this <- this_ ;;
    append_child (y_axis_group scale) ;;
    append_child (y_axis_label this)
  else ret tt.

(** The bars appended by [draw]: [svg] is the enter selection with its
    baseline attributes; the tooltip is attached to it before the transition
    is scheduled. *)
Definition enter_bars (this : Component) (xScale : D3.ScaleBand)
    (yScale : D3.ScaleLinear) (entering : list record) : list Node :=
  let svg :=
    enter_append "rect" entering
    |> attr_const "class" (Some (AStr "bar"))
    |> attr_const "width" (Some (ANum (D3.bandwidth xScale)))
    |> attr_fn "x" (fun d => ANum <$> D3.band_call xScale (get d (x this)))
    |> attr_const "y" (Some (ANum (D3.lin_call yScale (VNumber 0))))
    |> attr_const "height"
         (Some (ANum (sub (ofField (chartHeight this))
                          (D3.lin_call yScale (VNumber 0))))) in
  let svg := ToolTipService.addTooltip svg (tooltipLabels this) in
  svg
  |> transition
  |> t_ease easeLinear
  |> t_duration 880
  |> t_attr_fn "y" (fun d => Some (ANum (D3.lin_call yScale (get d (y this)))))
  |> t_attr_fn "height"
       (fun d => Some (ANum (sub (ofField (chartHeight this))
                                 (D3.lin_call yScale (get d (y this)))))).

(** [draw(dataSet)].  The call of [makeScale] for the linear scale is the one
    statement that can throw: the series and [xScale] are assigned by then,
    [yScale] and the chart are not touched. *)
Definition draw (dataSet : list record) : M unit :=
  this <- this_ ;;
  let xData := DataService.getData dataSet (x this) in
  assign (set_xData (Some xData)) ;;
  let yData := DataService.getData dataSet (y this) in
  assign (set_yData (Some yData)) ;;
  let xScale := DataService.makeScale_categorical xData (ofField (chartWidth this)) in
  assign (set_xScale (Some xScale)) ;;
  yScale <- DataService.makeScale_linear yData (ofField (chartHeight this)) false ;;
  assign (set_yScale (Some yScale)) ;;
  makeAxis "x" (SBand xScale) ;;
  makeAxis "y" (SLinear yScale) ;;
  children <- the_chart ;;
  let '(children', entering) := data_join "bar" dataSet children in
  assign (set_chart (Some (children' ++ enter_bars this xScale yScale entering))).

(** [ngOnInit()] *)
Definition ngOnInit : M unit :=
  this <- this_ ;;
  match data this with
  | None => throw (mkError "Missing Data!")
  | Some _ =>
      assign (set_chartWidth
                (Some (width this - left (margins this) - right (margins this))%Q)) ;;
      assign (set_chartHeight
                (Some (height this - top (margins this) - bottom (margins this))%Q)) ;;
      assign (set_tooltipLabels (Some {| xLabel := x this; yLabel := y this |})) ;;
      assign (set_chart
                (Some (makeChartCanvas (width this) (height this) (margins this)))) ;;
      this <- this_ ;;
      match data this with
      | Some dataSet => draw dataSet
      | None => ret tt
      end
  end.

(** [ngOnChanges()] *)
Definition ngOnChanges : M unit :=
  this <- this_ ;;
  assign (set_chartWidth
            (Some (width this - left (margins this) - right (margins this))%Q)) ;;
  assign (set_chartHeight
            (Some (height this - top (margins this) - bottom (margins this))%Q)) ;;
  assign (set_tooltipLabels (Some {| xLabel := x this; yLabel := y this |})) ;;
  this <- this_ ;;
  match chart this, data this with
  | Some _, Some dataSet => draw dataSet
  | _, _ => ret tt
  end.

End WithCoercions.

End Lib.

(** ** [unnamed/part_000]: the earlier revision of the app component *)
Module Legacy.

Section WithCoercions.
Context `{Coercions}.
Local Open Scope chart_scope.

(** [getData(dataElement)]: [this.data.map((d) => d[dataElement])] *)
Definition getData (dataElement : string) : M (list value) :=
  this <- this_ ;;
  match data this with
  | Some data => ret (map (fun d => get d dataElement) data)
  | None => throw (TypeError "Cannot read property 'map' of null")
  end.

(** [makeAxis(axis, scale)] *)
Definition makeAxis (axis : string) (scale : Scale) : M unit :=
  if String.eqb axis "x" then
    this <- this_ ;;
    append_child (x_axis_group this scale) ;;
    append_child (x_axis_label this)
  else if String.eqb axis "y" then
    this <- this_ ;;
    append_child (y_axis_group scale) ;;
    append_child (y_axis_label this)
  else ret tt.

(** The bars appended by [draw]: height 0 and y at the bottom of the chart
    are set at once; class, width, x, y and height are targets of the
    transition. *)
Definition enter_bars (this : Component) (xScale : D3.ScaleBand)
    (yScale : D3.ScaleLinear) (entering : list record) : list Node :=
  enter_append "rect" entering
  |> attr_const "height" (Some (ANum (Fin 0)))
  |> attr_const "y" (ANum <$> (Fin <$> chartHeight this))
  |> transition
  |> t_ease easeLinear
  |> t_duration 1200
  |> t_attr_const "class" (Some (AStr "bar"))
  |> t_attr_const "width" (Some (ANum (D3.bandwidth xScale)))
  |> t_attr_fn "x" (fun d => ANum <$> D3.band_call xScale (get d (x this)))
  |> t_attr_fn "y" (fun d => Some (ANum (D3.lin_call yScale (get d (y this)))))
  |> t_attr_fn "height"
       (fun d => Some (ANum (sub (ofField (chartHeight this))
                                 (D3.lin_call yScale (get d (y this)))))).

(** [draw()] *)
Definition draw : M unit :=
  this <- this_ ;;
  xData <- getData (x this) ;;
  assign (set_xData (Some xData)) ;;
  yData <- getData (y this) ;;
  assign (set_yData (Some yData)) ;;
  let xScale :=
    D3.scaleBand
    |> D3.band_set_domain xData
    |> D3.band_rangeRound (Fin 0, ofField (chartWidth this)) in
  assign (set_xScale (Some xScale)) ;;
  let yScale :=
    D3.scaleLinear
    |> D3.lin_set_domain (VNumber 0, D3.max yData)
    |> D3.lin_rangeRound (ofField (chartHeight this), Fin 0) in
  assign (set_yScale (Some yScale)) ;;
  makeAxis "x" (SBand xScale) ;;
  makeAxis "y" (SLinear yScale) ;;
  children <- the_chart ;;
  match data this with
  | Some dataSet =>
      let '(children', entering) := data_join "bar" dataSet children in
      assign (set_chart (Some (children' ++ enter_bars this xScale yScale entering)))
  | None => throw (TypeError "Cannot read property 'length' of null")
  end.

(** [ngOnInit()] *)
Definition ngOnInit : M unit :=
  this <- this_ ;;
  match data this with
  | None => throw (mkError "Missing Data!")
  | Some _ =>
      assign (set_chartWidth
                (Some (width this - left (margins this) - right (margins this))%Q)) ;;
      assign (set_chartHeight
                (Some (height this - top (margins this) - bottom (margins this))%Q)) ;;
      assign (set_chart
                (Some (makeChartCanvas (width this) (height this) (margins this)))) ;;
      draw
  end.

(** [ngOnChanges()] *)
Definition ngOnChanges : M unit :=
  this <- this_ ;;
  assign (set_chartWidth
            (Some (width this - left (margins this) - right (margins this))%Q)) ;;
  assign (set_chartHeight
            (Some (height this - top (margins this) - bottom (margins this))%Q)) ;;
  ret tt.

End WithCoercions.

End Legacy.

(** ** A sample instance of the conversions, used to run the components

    Printing is exact on numbers with a short terminating decimal expansion
    (whole numbers, halves, ...) and reading on decimal integer literals;
    the examples in this file use no other number or string. *)
Module Sample.

Definition digit (n : Z) : string :=
  String (Ascii.ascii_of_N (48 + Z.to_N n)) EmptyString.

Fixpoint digits (fuel : nat) (n : Z) (acc : string) : string :=
  match fuel with
  | O => acc
  | S fuel' =>
      let acc' := digit (n mod 10) +:+ acc in
      if (n / 10 =? 0)%Z then acc' else digits fuel' (n / 10) acc'
  end.

Fixpoint fraction (fuel : nat) (r d : Z) : string :=
  match fuel with
  | O => ""
  | S fuel' =>
      if (r =? 0)%Z then ""
      else digit (r * 10 / d) +:+ fraction fuel' (r * 10 mod d) d
  end.

Definition decimal (q : Q) : string :=
  let n := Z.abs (Qnum q) in
  let d := Z.pos (Qden q) in
  let whole := digits 400 (n / d) "" in
  let frac := fraction 17 (n mod d) d in
  (if (Qnum q <? 0)%Z then "-" else "")
  +:+ whole +:+ (if String.eqb frac "" then "" else "." +:+ frac).

Fixpoint read_digits (s : string) (acc : Z) : option Z :=
  match s with
  | EmptyString => Some acc
  | String a rest =>
      let c := Z.of_N (Ascii.N_of_ascii a) in
      if ((48 <=? c) && (c <=? 57))%Z
      then read_digits rest (acc * 10 + (c - 48))
      else None
  end.

Definition read (s : string) : number :=
  match s with
  | EmptyString => Fin 0
  | String "-"%char (String a rest) =>
      match read_digits (String a rest) 0 with
      | Some z => Fin (inject_Z (- z))
      | None => NaN
      end
  | _ =>
      match read_digits s 0 with
      | Some z => Fin (inject_Z z)
      | None => NaN
      end
  end.

#[export] Instance coercions : Coercions :=
  {| numberToString := decimal; stringToNumber := read |}.

(** The records of the end-to-end scenario of the spec. *)
Definition rec (cat : string) (val : Q) : record :=
  {[ "cat" := VString cat; "val" := VNumber val ]}.

Definition component (w h m : Q) (d : option (list record)) : Component :=
  {| width := w; height := h;
     margins := {| top := m; right := m; bottom := m; left := m |};
     data := d; x := "cat"; y := "val";
     chartHeight := None; chartWidth := None; chart := None;
     xScale := None; yScale := None; xData := None; yData := None;
     tooltipLabels := None |}.

Definition abc : list record := [rec "A" 10; rec "B" 20; rec "C" 5].

(** The re-render scenario of the spec: the value of "A" changes. *)
Definition changed : list record := [rec "A" 30; rec "B" 20; rec "C" 5].

(** A data set shorter than the one drawn before. *)
Definition shrunk : list record := [rec "A" 30].

(** Y values [-5, 10, 3]; all Y values 0; a record without the Y field. *)
Definition mixed : list record := [rec "A" (-5); rec "B" 10; rec "C" 3].

Definition zeros : list record := [rec "A" 0; rec "B" 0].

Definition no_val : list record := [ {[ "cat" := VString "A" ]} ].

(** The y and the height a bar is animated to. *)
Definition target_y (n : Node) : option attr :=
  match schedule n with
  | Some t => targets t !! "y"
  | None => None
  end.

Definition target_height (n : Node) : option attr :=
  match schedule n with
  | Some t => targets t !! "height"
  | None => None
  end.

(** What is observed of a bar: the attributes set on it and the targets of
    its transition. *)
Definition geometry (n : Node) : list (option attr) * list (option attr) :=
  ([attrs n !! "x"; attrs n !! "width"; attrs n !! "y"; attrs n !! "height"],
   match schedule n with
   | Some t => [targets t !! "y"; targets t !! "height"]
   | None => []
   end).

End Sample.

(** ** Definitions used to state the properties *)
Module Spec.

Section WithCoercions.
Context `{Coercions}.

(** "The distinct X values in first-occurrence order" (spec, section 4.3),
    written after the words of the spec: a value is kept where it first
    occurs and every later value with the same key is dropped.  It is compared
    below with the domain d3 computes ([D3.ordinal_domain]). *)
Fixpoint distinct (values : list value) : list value :=
  match values with
  | [] => []
  | v :: rest => v :: filter (fun u => toString u <> toString v) (distinct rest)
  end.

(** The largest of a non-empty list of numbers. *)
Definition is_maximum (m : Q) (values : list Q) : Prop :=
  In m values /\ Forall (fun q => q <= m)%Q values.

(** A linear scale with rounded output, as [rangeRound] leaves it. *)
Definition rounded (domain range : number * number) : D3.ScaleLinear :=
  {| D3.lin_domain := domain; D3.lin_range := range; D3.lin_round := true |}.

(** The invariant of the loop of [scale.domain(_)]: the keys of the domain
    are pairwise different, the index sends the key of the i-th entry to
    i + 1 and knows no other key. *)
Definition indexed (index : gmap string nat) (domain : list value) : Prop :=
  NoDup (toString <$> domain)
  /\ (forall i d, domain !! i = Some d -> index !! toString d = Some (S i))
  /\ (forall k, k ∉ toString <$> domain -> index !! k = None).

(** The node a data join leaves in place of an existing one: the same
    node, or the same node bound to another datum. *)
Definition rebound (old new : Node) : Prop :=
  new = old \/ exists d, new = set_datum (Some d) old.

(** The baseline of a bar: the [y] and [height] that [attr] set on it at once,
    outside any transition. *)
Definition baseline (n : Node) (yv hv : number) : Prop :=
  attrs n !! "y" = Some (ANum yv) /\ attrs n !! "height" = Some (ANum hv).

(** The transition scheduled on a bar: its easing, its duration and the
    values it animates [y] and [height] to. *)
Definition animates (n : Node) (e : easing) (ms : Z) (yv hv : number) : Prop :=
  exists t, schedule n = Some t /\ ease t = e /\ duration t = ms
            /\ targets t !! "y" = Some (ANum yv)
            /\ targets t !! "height" = Some (ANum hv).

(** The state after the two size assignments of a hook. *)
Definition sized (this : Component) : Component :=
  set_chartHeight
    (Some (height this - top (margins this) - bottom (margins this))%Q)
    (set_chartWidth
       (Some (width this - left (margins this) - right (margins this))%Q) this).

(** The four axis nodes one [draw] appends, in order. *)
Definition axes (this : Component) (xScale : D3.ScaleBand) (yScale : D3.ScaleLinear)
    : list Node :=
  [x_axis_group this (SBand xScale); x_axis_label this;
   y_axis_group (SLinear yScale); y_axis_label this].

(** The two scales the app component builds for a data set. *)
Definition app_xScale (this : Component) (dataSet : list record) : D3.ScaleBand :=
  D3.scaleBand
  |> D3.band_set_domain (App.getData dataSet (x this))
  |> D3.band_rangeRound (Fin 0, ofField (chartWidth this)).

Definition app_yScale (this : Component) (dataSet : list record) : D3.ScaleLinear :=
  D3.scaleLinear
  |> D3.lin_set_domain (VNumber 0, D3.max (App.getData dataSet (y this)))
  |> D3.lin_rangeRound (ofField (chartHeight this), Fin 0).

(** The fields of the app component after [draw(dataSet)] on a chart whose
    children are [children]. *)
Definition app_drawn (dataSet : list record) (children : list Node)
    (this : Component) : Component :=
  let xs := app_xScale this dataSet in
  let ys := app_yScale this dataSet in
  let '(children', entering) :=
    data_join "bar" dataSet (children ++ axes this xs ys) in
  set_chart (Some (children' ++ App.enter_bars this xs ys entering))
    (set_yScale (Some ys)
       (set_xScale (Some xs)
          (set_yData (Some (App.getData dataSet (y this)))
             (set_xData (Some (App.getData dataSet (x this))) this)))).

(** One bar of the app component, for the record [d]: the node the chain of
    [enter_bars] builds.  [attrs] holds what [attr] set at once, [schedule]
    the transition and its targets. *)
Definition app_bar (this : Component) (xs : D3.ScaleBand) (ys : D3.ScaleLinear)
    (d : record) : Node :=
  create "rect" (Some d)
  |> attr1 "class" (Some (AStr "bar"))
  |> attr1 "width" (Some (ANum (D3.bandwidth xs)))
  |> attr1 "x" (ANum <$> D3.band_call xs (get d (x this)))
  |> attr1 "y" (Some (ANum (D3.lin_call ys (VNumber 0))))
  |> attr1 "height"
       (Some (ANum (sub (ofField (chartHeight this)) (D3.lin_call ys (VNumber 0)))))
  |> set_schedule
       (Some {| ease := easeLinear; duration := 880;
                targets :=
                  <["height" := ANum (sub (ofField (chartHeight this))
                                          (D3.lin_call ys (get d (y this))))]>
                    (<["y" := ANum (D3.lin_call ys (get d (y this)))]> ∅) |}).

(** The fields of the app component after a first render of [dataSet]: the
    sizes, the series, the scales, and a chart holding the four axis nodes
    followed by one bar per record. *)
Definition app_rendered (dataSet : list record) (this : Component) : Component :=
  let s := sized this in
  let xs := app_xScale s dataSet in
  let ys := app_yScale s dataSet in
  set_chart (Some (axes s xs ys ++ map (app_bar s xs ys) dataSet))
    (set_yScale (Some ys)
       (set_xScale (Some xs)
          (set_yData (Some (App.getData dataSet (y this)))
             (set_xData (Some (App.getData dataSet (x this))) s)))).

(** The same for the lib component: the labels of the tooltip are assigned
    before anything is drawn and attached to every bar. *)
Definition labelled (this : Component) : Component :=
  set_tooltipLabels (Some {| xLabel := x this; yLabel := y this |}) (sized this).

Definition lib_xScale (this : Component) (dataSet : list record) : D3.ScaleBand :=
  DataService.makeScale_categorical (DataService.getData dataSet (x this))
    (ofField (chartWidth this)).

(** The linear scale the data service returns when the Y series has a
    maximum. *)
Definition lib_yScale (this : Component) (dataSet : list record) : D3.ScaleLinear :=
  DataService.linear (D3.max (DataService.getData dataSet (y this)))
    (ofField (chartHeight this)).

(** The Y series of the data set has a maximum: [d3.max] finds an entry that
    is comparable with itself. *)
Definition has_maximum (this : Component) (dataSet : list record) : Prop :=
  D3.max (DataService.getData dataSet (y this)) <> VUndefined.

Definition lib_drawn (dataSet : list record) (children : list Node)
    (this : Component) : Component :=
  let xs := lib_xScale this dataSet in
  let ys := lib_yScale this dataSet in
  let '(children', entering) :=
    data_join "bar" dataSet (children ++ axes this xs ys) in
  set_chart (Some (children' ++ Lib.enter_bars this xs ys entering))
    (set_yScale (Some ys)
       (set_xScale (Some xs)
          (set_yData (Some (DataService.getData dataSet (y this)))
             (set_xData (Some (DataService.getData dataSet (x this))) this)))).

(** The fields of the lib component when the data service refuses the Y
    series: the two series and the band scale are assigned, nothing else. *)
Definition lib_refused (dataSet : list record) (this : Component) : Component :=
  set_xScale (Some (lib_xScale this dataSet))
    (set_yData (Some (DataService.getData dataSet (y this)))
       (set_xData (Some (DataService.getData dataSet (x this))) this)).

(** The outcome of [draw(dataSet)] of the lib component on a chart whose
    children are [children]. *)
Definition lib_draws (dataSet : list record) (children : list Node)
    (this : Component) : Result unit :=
  match D3.max (DataService.getData dataSet (y this)) with
  | VUndefined => Throw DataError (lib_refused dataSet this)
  | _ => Ok tt (lib_drawn dataSet children this)
  end.

Definition lib_bar (this : Component) (xs : D3.ScaleBand) (ys : D3.ScaleLinear)
    (d : record) : Node :=
  app_bar this xs ys d |> set_tooltip (tooltipLabels this).

Definition lib_rendered (dataSet : list record) (this : Component) : Component :=
  let s := labelled this in
  let xs := lib_xScale s dataSet in
  let ys := lib_yScale s dataSet in
  set_chart (Some (axes s xs ys ++ map (lib_bar s xs ys) dataSet))
    (set_yScale (Some ys)
       (set_xScale (Some xs)
          (set_yData (Some (DataService.getData dataSet (y this)))
             (set_xData (Some (DataService.getData dataSet (x this))) s)))).

(** The same for the earlier revision: height 0 and y at the bottom of the
    chart are attributes, everything else is a target of the transition. *)
Definition legacy_bar (this : Component) (xs : D3.ScaleBand) (ys : D3.ScaleLinear)
    (d : record) : Node :=
  create "rect" (Some d)
  |> attr1 "height" (Some (ANum (Fin 0)))
  |> attr1 "y" (ANum <$> (Fin <$> chartHeight this))
  |> set_schedule
       (Some (t_target "height"
                (Some (ANum (sub (ofField (chartHeight this))
                                 (D3.lin_call ys (get d (y this))))))
                (t_target "y" (Some (ANum (D3.lin_call ys (get d (y this)))))
                   (t_target "x" (ANum <$> D3.band_call xs (get d (x this)))
                      {| ease := easeLinear; duration := 1200;
                         targets :=
                           <["width" := ANum (D3.bandwidth xs)]>
                             (<["class" := AStr "bar"]> ∅) |})))).

Definition legacy_rendered (dataSet : list record) (this : Component) : Component :=
  let s := sized this in
  let xs := app_xScale s dataSet in
  let ys := app_yScale s dataSet in
  set_chart (Some (axes s xs ys ++ map (legacy_bar s xs ys) dataSet))
    (set_yScale (Some ys)
       (set_xScale (Some xs)
          (set_yData (Some (App.getData dataSet (y this)))
             (set_xData (Some (App.getData dataSet (x this))) s)))).

(** A render, a change of the input [data], and the change notification. *)
Definition app_rerender (newData : option (list record)) : M unit :=
  bind App.ngOnInit
    (fun _ => bind (assign (set_data newData)) (fun _ => App.ngOnChanges)).

Definition lib_rerender (newData : option (list record)) : M unit :=
  bind Lib.ngOnInit
    (fun _ => bind (assign (set_data newData)) (fun _ => Lib.ngOnChanges)).

End WithCoercions.

End Spec.

Export Spec.

(** ** Further definitions used to state properties of the hooks *)
Module Behaviour.

(** The inputs of a component: the fields bound by the host. *)
Definition inputs (c : Component)
    : Q * Q * Margins * option (list record) * string * string :=
  (width c, height c, margins c, data c, x c, y c).

(** The fields a hook leaves behind, whether it returned or threw. *)
Definition final {A : Type} (r : Result A) : Component :=
  match r with
  | Ok _ this => this
  | Throw _ this => this
  end.

(** [k] calls of a hook in a row. *)
Fixpoint repeated (k : nat) (hook : M unit) : M unit :=
  match k with
  | O => ret tt
  | S k' => bind hook (fun _ => repeated k' hook)
  end.

(** The records that hold a value for the field [key]. *)
Definition having (key : string) (dataSet : list record) : list record :=
  List.filter (fun d => notNull (get d key)) dataSet.

(** The attributes of a node once its transition has run: those the
    transition animates hold their target value, the others the value
    [attr] set. *)
Definition settled (n : Node) : gmap string attr :=
  match schedule n with
  | Some t => targets t ∪ attrs n
  | None => attrs n
  end.

Section WithCoercions.
Context `{Coercions}.

(** A render, a change of the input [data], and the change notification, in
    the earlier revision. *)
Definition legacy_rerender (newData : option (list record)) : M unit :=
  bind Legacy.ngOnInit
    (fun _ => bind (assign (set_data newData)) (fun _ => Legacy.ngOnChanges)).

End WithCoercions.

End Behaviour.

Export Behaviour.

(** ** The component once its fields may hold null *)
Module Nullable.

(** [this] with every field nullable; [None] is null.  [ngOnDestroy] is the
    one place where the classes assign null to their inputs. *)
Record Instance : Type := {
  width : option Q;
  height : option Q;
  margins : option Margins;
  data : option (list record);
  x : option string;
  y : option string;
  chartHeight : option Q;
  chartWidth : option Q;
  chart : option (list Node);
  xScale : option D3.ScaleBand;
  yScale : option D3.ScaleLinear;
  xData : option (list value);
  yData : option (list value);
  tooltipLabels : option Tooltip
}.


(** What a hook reads of an instance whose margins are [m]: a null [width]
    or [height] counts as 0 in a subtraction, a null field name reads the
    property named "null" and prints as "null". *)
Definition component (this : Instance) (m : Margins) : Component :=
  {| Chart.width := default 0%Q (width this);
     Chart.height := default 0%Q (height this);
     Chart.margins := m; Chart.data := data this;
     Chart.x := default "null" (x this); Chart.y := default "null" (y this);
     Chart.chartHeight := chartHeight this; Chart.chartWidth := chartWidth this;
     Chart.chart := chart this; Chart.xScale := xScale this;
     Chart.yScale := yScale this; Chart.xData := xData this;
     Chart.yData := yData this; Chart.tooltipLabels := tooltipLabels this |}.

(** The fields the hooks assign, stored in the instance; the hooks assign
    no input. *)
Definition store (c : Component) (this : Instance) : Instance :=
  {| width := width this; height := height this; margins := margins this;
     data := data this; x := x this; y := y this;
     chartHeight := Chart.chartHeight c; chartWidth := Chart.chartWidth c;
     chart := Chart.chart c; xScale := Chart.xScale c; yScale := Chart.yScale c;
     xData := Chart.xData c; yData := Chart.yData c;
     tooltipLabels := Chart.tooltipLabels c |}.

Inductive Outcome : Type :=
  | Returned (this : Instance)
  | Thrown (e : Error) (this : Instance).


(** The statements of a hook from
    [this.chartWidth = this.width - this.margins.left - this.margins.right]
    on: reading [this.margins.left] throws when [margins] is null. *)
Definition run (hook : M unit) (this : Instance) : Outcome :=
  match margins this with
  | None => Thrown (TypeError "Cannot read property 'left' of null") this
  | Some m =>
      match hook (component this m) with
      | Ok _ c => Returned (store c this)
      | Throw e c => Thrown e (store c this)
      end
  end.

End Nullable.

(** [src/app/barchart/barchart.component.ts] on an instance. *)
Module AppInstance.
Import Nullable.

(** [ngOnDestroy()]: the thirteen fields of the class are assigned null.
    [tooltipLabels] is no field of this class: the instance keeps what it
    holds there. *)
Definition ngOnDestroy (this : Instance) : Instance :=
  {| width := None; height := None; margins := None; data := None;
     x := None; y := None; chartHeight := None; chartWidth := None;
     chart := None; xScale := None; yScale := None; xData := None;
     yData := None; tooltipLabels := tooltipLabels this |}.

Section WithCoercions.
Context `{Coercions}.

(** [ngOnInit()]: the check of [data] comes before any other read. *)
Definition ngOnInit (this : Instance) : Outcome :=
  match data this with
  | None => Thrown (mkError "Missing Data!") this
  | Some _ => run App.ngOnInit this
  end.

(** [ngOnChanges()] *)
Definition ngOnChanges (this : Instance) : Outcome := run App.ngOnChanges this.

End WithCoercions.

End AppInstance.

(** [src/lib/barChart/barChart.component.ts] on an instance. *)
Module LibInstance.
Import Nullable.

(** [ngOnDestroy()]: the same thirteen assignments; [tooltipLabels] is not
    among them. *)
Definition ngOnDestroy (this : Instance) : Instance :=
  {| width := None; height := None; margins := None; data := None;
     x := None; y := None; chartHeight := None; chartWidth := None;
     chart := None; xScale := None; yScale := None; xData := None;
     yData := None; tooltipLabels := tooltipLabels this |}.

Section WithCoercions.
Context `{Coercions}.

(** [ngOnInit()] *)
Definition ngOnInit (this : Instance) : Outcome :=
  match data this with
  | None => Thrown (mkError "Missing Data!") this
  | Some _ => run Lib.ngOnInit this
  end.

(** [ngOnChanges()] *)
Definition ngOnChanges (this : Instance) : Outcome := run Lib.ngOnChanges this.

End WithCoercions.

End LibInstance.

(** ** Properties *)

(** *** Arithmetic of the number model *)

Lemma Qfloor_half (z : Z) : Qfloor (inject_Z z + (1 # 2)) = z.
Proof.
  unfold Qfloor, Qplus, inject_Z; simpl.
  change (Z.pos (1 * 2)) with 2%Z.
  symmetry. apply (Z.div_unique _ _ _ 1%Z); lia.
Qed.

Lemma round_whole (q : Q) (z : Z) :
  (q == inject_Z z)%Q -> round (Fin q) = Fin (inject_Z z).
Proof.
  intros Hq. unfold round. f_equal. f_equal.
  rewrite <- (Qfloor_half z). apply Qfloor_comp. rewrite Hq. reflexivity.
Qed.

Lemma round_same (p q : Q) : (p == q)%Q -> round (Fin p) = round (Fin q).
Proof.
  intros Hpq. unfold round. do 2 f_equal. apply Qfloor_comp. rewrite Hpq. reflexivity.
Qed.

Lemma truthy_Fin (q : Q) : truthy (Fin q) = true <-> ~ (q == 0)%Q.
Proof.
  unfold truthy. rewrite negb_true_iff. split.
  - intros Hb Hq. apply Qeq_bool_iff in Hq. congruence.
  - intros Hq. destruct (Qeq_bool q 0) eqn:E; [|reflexivity].
    apply Qeq_bool_iff in E. contradiction.
Qed.

(** *** The monad and the drawing steps shared by the components *)

Lemma set_chart_twice (u v : option (list Node)) (this : Component) :
  set_chart u (set_chart v this) = set_chart u this.
Proof. reflexivity. Qed.

Lemma append_child_ok (n : Node) (this : Component) (children : list Node) :
  chart this = Some children ->
  append_child n this = Ok tt (set_chart (Some (children ++ [n])) this).
Proof.
  intros Hc. unfold append_child, bind, the_chart, assign. rewrite Hc. reflexivity.
Qed.

(** The join passes over nodes that are no bars. *)
Lemma data_join_app (cls : string) (tail : list Node) :
  Forall (fun n => has_class cls n = false) tail ->
  forall (children : list Node) (dataSet : list record),
    data_join cls dataSet (children ++ tail) =
    (fst (data_join cls dataSet children) ++ tail, snd (data_join cls dataSet children)).
Proof.
  intros Htail. induction children as [|n rest IH]; intros dataSet.
  - cbn [app data_join fst snd]. induction Htail as [|t tail Ht _ IHt].
    + reflexivity.
    + cbn [data_join]. rewrite Ht, IHt. reflexivity.
  - cbn [app data_join]. destruct (has_class cls n).
    + destruct dataSet as [|d dataSet'].
      * cbn [fst snd]. specialize (IH []).
        assert (Hnil : forall l, data_join cls [] l = (l, [])).
        { clear. induction l as [|m l IHl]; [reflexivity|].
          cbn [data_join]. destruct (has_class cls m); [reflexivity|].
          rewrite IHl. reflexivity. }
        rewrite Hnil in IH. cbn [fst snd] in IH. reflexivity.
      * rewrite IH. destruct (data_join cls dataSet' rest). reflexivity.
    + rewrite IH. destruct (data_join cls dataSet rest). reflexivity.
Qed.

Ltac fields :=
  cbv beta iota zeta delta
    [set_chart set_chartWidth set_chartHeight set_xScale set_yScale set_xData
     set_yData set_tooltipLabels set_data
     Chart.width Chart.height margins data Chart.x Chart.y chartHeight chartWidth
     chart xScale yScale xData yData tooltipLabels
     top right bottom left
     x_axis_group x_axis_label y_axis_group y_axis_label axes sized].

Lemma data_join_no_bars (cls : string) (children : list Node)
    (dataSet : list record) :
  Forall (fun n => has_class cls n = false) children ->
  data_join cls dataSet children = (children, dataSet).
Proof.
  intros Hno. apply (data_join_app cls children Hno [] dataSet).
Qed.

Lemma data_join_rebound (cls : string) (children : list Node) :
  forall dataSet : list record,
    Forall2 rebound children (fst (data_join cls dataSet children)).
Proof.
  assert (Hsame : forall l : list Node, Forall2 rebound l l).
  { induction l as [|m l IHl]; constructor; [left; reflexivity|exact IHl]. }
  induction children as [|n rest IH]; intros dataSet; [constructor|].
  cbn [data_join]. destruct (has_class cls n).
  - destruct dataSet as [|d dataSet'].
    + apply Hsame.
    + specialize (IH dataSet'). destruct (data_join cls dataSet' rest) as [rest' e].
      constructor; [right; exists d; reflexivity|exact IH].
  - specialize (IH dataSet). destruct (data_join cls dataSet rest) as [rest' e].
    constructor; [left; reflexivity|exact IH].
Qed.

(** The enter selection: the data beyond the bars already in the chart. *)
Lemma data_join_entering (cls : string) (children : list Node) :
  forall dataSet : list record,
    snd (data_join cls dataSet children) =
    skipn (length (selectAll cls children)) dataSet.
Proof.
  unfold selectAll.
  induction children as [|n rest IH]; intros dataSet; [reflexivity|].
  cbn [data_join List.filter]. destruct (has_class cls n).
  - destruct dataSet as [|d dataSet'].
    + cbn [snd]. destruct (length (n :: List.filter (has_class cls) rest)); reflexivity.
    + specialize (IH dataSet'). destruct (data_join cls dataSet' rest) as [rest' e].
      exact IH.
  - specialize (IH dataSet). destruct (data_join cls dataSet rest) as [rest' e].
    exact IH.
Qed.

Lemma rebound_has_class (cls : string) (old new : Node) :
  rebound old new -> has_class cls new = has_class cls old.
Proof. intros [->|[d ->]]; reflexivity. Qed.

Lemma selectAll_rebound (cls : string) (children kept : list Node) :
  Forall2 rebound children kept ->
  length (selectAll cls kept) = length (selectAll cls children).
Proof.
  unfold selectAll. induction 1 as [|old new children kept Hr _ IH]; [reflexivity|].
  cbn [List.filter]. rewrite (rebound_has_class cls old new Hr).
  destruct (has_class cls old); cbn [length]; rewrite IH; reflexivity.
Qed.

Lemma attrs_attr1 (name : string) (a : attr) (n : Node) :
  attrs (attr1 name (Some a) n) = <[name := a]> (attrs n).
Proof. reflexivity. Qed.

Lemma targets_t_target (name : string) (a : attr) (t : Transition) :
  targets (t_target name (Some a) t) = <[name := a]> (targets t).
Proof. reflexivity. Qed.

Ltac nodes :=
  cbv beta iota zeta delta
    [on_schedule set_schedule set_tooltip set_datum attr1 set_attrs create t_target
     datum schedule tag attrs styles text axis tooltip ease duration targets
     fmap option_fmap option_map].

Section Drawing.
Context `{Coercions}.

Lemma axes_no_bar (this : Component) (xs : D3.ScaleBand) (ys : D3.ScaleLinear) :
  Forall (fun n => has_class "bar" n = false) (axes this xs ys).
Proof.
  unfold axes, x_axis_group, x_axis_label, y_axis_group, y_axis_label.
  repeat constructor.
Qed.

Lemma axes_no_rect (this : Component) (xs : D3.ScaleBand) (ys : D3.ScaleLinear) :
  List.filter is_rect (axes this xs ys) = [].
Proof. reflexivity. Qed.

Lemma app_makeAxis_x (this : Component) (children : list Node) (s : Scale) :
  chart this = Some children ->
  App.makeAxis "x" s this =
  Ok tt (set_chart (Some (children ++ [x_axis_group this s; x_axis_label this])) this).
Proof.
  intros Hc. unfold App.makeAxis. cbn [String.eqb Ascii.eqb Bool.eqb].
  unfold bind at 1. unfold this_. unfold bind.
  rewrite (append_child_ok _ _ _ Hc).
  rewrite (append_child_ok _ _ (children ++ [x_axis_group this s])) by reflexivity.
  rewrite set_chart_twice, <- app_assoc. reflexivity.
Qed.

Lemma app_makeAxis_y (this : Component) (children : list Node) (s : Scale) :
  chart this = Some children ->
  App.makeAxis "y" s this =
  Ok tt (set_chart (Some (children ++ [y_axis_group s; y_axis_label this])) this).
Proof.
  intros Hc. unfold App.makeAxis. cbn [String.eqb Ascii.eqb Bool.eqb].
  unfold bind at 1. unfold this_. unfold bind.
  rewrite (append_child_ok _ _ _ Hc).
  rewrite (append_child_ok _ _ (children ++ [y_axis_group s])) by reflexivity.
  rewrite set_chart_twice, <- app_assoc. reflexivity.
Qed.

Lemma app_draw_ok (dataSet : list record) (this : Component) (children : list Node) :
  chart this = Some children ->
  App.draw dataSet this = Ok tt (app_drawn dataSet children this).
Proof.
  intros Hc. unfold App.draw.
  cbv beta iota zeta delta [bind this_ assign].
  erewrite app_makeAxis_x by exact Hc.
  erewrite app_makeAxis_y by reflexivity.
  unfold the_chart. cbn [chart set_chart].
  unfold app_drawn, app_xScale, app_yScale.
  rewrite <- app_assoc. cbn [app].
  destruct this. fields.
  destruct (data_join _ _ _) as [children' entering].
  reflexivity.
Qed.

Lemma app_enter_bars_map (this : Component) (xs : D3.ScaleBand)
    (ys : D3.ScaleLinear) (entering : list record) :
  App.enter_bars this xs ys entering = map (app_bar this xs ys) entering.
Proof.
  unfold App.enter_bars, enter_append, attr_const, attr_fn, transition, t_ease,
    t_duration, t_attr_fn.
  rewrite !map_map. apply map_ext. intros d. unfold app_bar. nodes.
  destruct (D3.band_call xs (get d (x this))); exact eq_refl.
Qed.

Lemma app_ngOnInit_ok (this : Component) (dataSet : list record) :
  data this = Some dataSet ->
  App.ngOnInit this = Ok tt (app_rendered dataSet this).
Proof.
  intros Hd. unfold App.ngOnInit.
  cbv beta iota zeta delta [bind this_ assign]. rewrite Hd.
  cbn [data set_chart set_chartHeight set_chartWidth]. rewrite Hd.
  erewrite app_draw_ok by reflexivity.
  unfold app_drawn, makeChartCanvas.
  rewrite (data_join_app "bar" _ (axes_no_bar _ _ _) [] dataSet).
  cbn [data_join fst snd app]. rewrite app_enter_bars_map.
  unfold app_rendered, app_xScale, app_yScale.
  destruct this. fields. reflexivity.
Qed.

(** [draw] of the lib component throws the DataError of the service when the
    Y series has no maximum, and draws otherwise. *)
Lemma lib_draw_eq (dataSet : list record) (this : Component) (children : list Node) :
  chart this = Some children ->
  Lib.draw dataSet this = lib_draws dataSet children this.
Proof.
  intros Hc. unfold Lib.draw, lib_draws, DataService.makeScale_linear.
  change Lib.makeAxis with App.makeAxis.
  cbv beta iota zeta delta [bind this_ assign].
  assert (Hdrawn : forall maximum : value,
            D3.max (DataService.getData dataSet (y this)) = maximum ->
            bind (ret (DataService.linear maximum (ofField (chartHeight this))))
              (fun yScale =>
                 bind (assign (set_yScale (Some yScale)))
                   (fun _ =>
                      bind (App.makeAxis "x"
                              (SBand (DataService.makeScale_categorical
                                        (DataService.getData dataSet (x this))
                                        (ofField (chartWidth this)))))
                        (fun _ =>
                           bind (App.makeAxis "y" (SLinear yScale))
                             (fun _ =>
                                bind the_chart
                                  (fun children =>
                                     let '(children', entering) :=
                                       data_join "bar" dataSet children in
                                     assign
                                       (set_chart
                                          (Some (children'
                                                 ++ Lib.enter_bars this
                                                      (DataService.makeScale_categorical
                                                         (DataService.getData dataSet (x this))
                                                         (ofField (chartWidth this)))
                                                      yScale entering))))))))
              (set_xScale
                 (Some (DataService.makeScale_categorical
                          (DataService.getData dataSet (x this))
                          (ofField (chartWidth this))))
                 (set_yData (Some (DataService.getData dataSet (y this)))
                    (set_xData (Some (DataService.getData dataSet (x this))) this)))
            = Ok tt (lib_drawn dataSet children this)).
  { intros maximum Hmax.
    cbv beta iota zeta delta [bind ret assign].
    erewrite app_makeAxis_x by exact Hc.
    erewrite app_makeAxis_y by reflexivity.
    unfold the_chart. cbn [chart set_chart].
    unfold lib_drawn, lib_xScale, lib_yScale. rewrite Hmax.
    rewrite <- app_assoc. cbn [app].
    destruct this. fields.
    destruct (data_join _ _ _) as [children' entering].
    reflexivity. }
  destruct (D3.max (DataService.getData dataSet (y this))) as [|q|str] eqn:Hmax.
  - reflexivity.
  - apply Hdrawn. reflexivity.
  - apply Hdrawn. reflexivity.
Qed.

Lemma lib_draw_ok (dataSet : list record) (this : Component) (children : list Node) :
  chart this = Some children ->
  has_maximum this dataSet ->
  Lib.draw dataSet this = Ok tt (lib_drawn dataSet children this).
Proof.
  intros Hc Hmax. rewrite (lib_draw_eq dataSet this children Hc).
  unfold lib_draws. unfold has_maximum in Hmax.
  destruct (D3.max (DataService.getData dataSet (y this)));
    [contradiction|reflexivity|reflexivity].
Qed.

Lemma lib_enter_bars_map (this : Component) (xs : D3.ScaleBand)
    (ys : D3.ScaleLinear) (entering : list record) :
  Lib.enter_bars this xs ys entering = map (lib_bar this xs ys) entering.
Proof.
  unfold Lib.enter_bars, ToolTipService.addTooltip, enter_append, attr_const,
    attr_fn, transition, t_ease, t_duration, t_attr_fn.
  rewrite !map_map. apply map_ext. intros d. unfold lib_bar, app_bar. nodes.
  destruct (D3.band_call xs (get d (x this))); exact eq_refl.
Qed.

(** The initial render of the lib component: the sizes, the labels and an
    empty chart are assigned, then [draw] runs. *)
Lemma lib_ngOnInit_eq (this : Component) (dataSet : list record) :
  data this = Some dataSet ->
  Lib.ngOnInit this = lib_draws dataSet [] (set_chart (Some []) (labelled this)).
Proof.
  intros Hd. unfold Lib.ngOnInit.
  cbv beta iota zeta delta [bind this_ assign]. rewrite Hd.
  cbn [data set_chart set_chartHeight set_chartWidth set_tooltipLabels]. rewrite Hd.
  erewrite lib_draw_eq by reflexivity. reflexivity.
Qed.

Lemma lib_ngOnInit_ok (this : Component) (dataSet : list record) :
  data this = Some dataSet ->
  has_maximum this dataSet ->
  Lib.ngOnInit this = Ok tt (lib_rendered dataSet this).
Proof.
  intros Hd Hmax. unfold Lib.ngOnInit.
  cbv beta iota zeta delta [bind this_ assign]. rewrite Hd.
  cbn [data set_chart set_chartHeight set_chartWidth set_tooltipLabels]. rewrite Hd.
  erewrite lib_draw_ok by (reflexivity || exact Hmax).
  unfold lib_drawn, makeChartCanvas.
  rewrite (data_join_app "bar" _ (axes_no_bar _ _ _) [] dataSet).
  cbn [data_join fst snd app]. rewrite lib_enter_bars_map.
  unfold lib_rendered, lib_xScale, lib_yScale, labelled.
  destruct this. fields. reflexivity.
Qed.

(** [ngOnChanges] of the lib component draws only when a chart exists and the
    data set is not null; it returns unless the data service throws. *)
Lemma lib_ngOnChanges_eq (this : Component) :
  Lib.ngOnChanges this =
  match chart this, data this with
  | Some children, Some dataSet => lib_draws dataSet children (labelled this)
  | _, _ => Ok tt (labelled this)
  end.
Proof.
  unfold Lib.ngOnChanges.
  cbv beta iota zeta delta [bind this_ assign].
  cbn [data chart set_chartHeight set_chartWidth set_tooltipLabels].
  destruct (chart this) as [children|] eqn:Hc; [|reflexivity].
  destruct (data this) as [dataSet|] eqn:Hd; [|reflexivity].
  erewrite lib_draw_eq by (cbn [chart set_chartHeight set_chartWidth set_tooltipLabels];
                           exact Hc).
  reflexivity.
Qed.

Lemma app_ngOnChanges_ok (this : Component) :
  App.ngOnChanges this =
  Ok tt (match chart this, data this with
         | Some children, Some dataSet => app_drawn dataSet children (sized this)
         | _, _ => sized this
         end).
Proof.
  unfold App.ngOnChanges.
  cbv beta iota zeta delta [bind this_ assign].
  cbn [data chart set_chartHeight set_chartWidth].
  destruct (chart this) as [children|] eqn:Hc; [|reflexivity].
  destruct (data this) as [dataSet|] eqn:Hd; [|reflexivity].
  erewrite app_draw_ok by (cbn [chart set_chartHeight set_chartWidth]; exact Hc).
  reflexivity.
Qed.

Lemma legacy_enter_bars_map (this : Component) (xs : D3.ScaleBand)
    (ys : D3.ScaleLinear) (entering : list record) :
  Legacy.enter_bars this xs ys entering = map (legacy_bar this xs ys) entering.
Proof.
  unfold Legacy.enter_bars, enter_append, attr_const, attr_fn, transition, t_ease,
    t_duration, t_attr_fn, t_attr_const.
  rewrite !map_map. apply map_ext. intros d. unfold legacy_bar. nodes.
  destruct (chartHeight this); exact eq_refl.
Qed.

Lemma legacy_ngOnInit_ok (this : Component) (dataSet : list record) :
  data this = Some dataSet ->
  Legacy.ngOnInit this = Ok tt (legacy_rendered dataSet this).
Proof.
  intros Hd. destruct this. cbn [data] in Hd. subst.
  unfold Legacy.ngOnInit, Legacy.draw, Legacy.getData.
  change Legacy.makeAxis with App.makeAxis.
  cbv beta iota zeta delta [bind this_ assign ret]. fields.
  erewrite app_makeAxis_x by reflexivity.
  erewrite app_makeAxis_y by reflexivity.
  unfold the_chart. fields. unfold makeChartCanvas. cbn [app].
  match goal with
  | |- context [data_join "bar" dataSet ?l] =>
      rewrite (data_join_no_bars "bar" l dataSet) by (repeat constructor)
  end.
  cbn [app]. unfold assign. rewrite legacy_enter_bars_map.
  unfold legacy_rendered, app_xScale, app_yScale.
  fields. reflexivity.
Qed.

End Drawing.

(** *** d3.max and the linear scale *)

Section LinearScale.
Context `{Coercions}.

Lemma max_rest_numbers (qs : list Q) :
  forall a : Q,
    exists m, D3.max_rest (VNumber a) (map VNumber qs) = VNumber m
              /\ is_maximum m (a :: qs).
Proof.
  induction qs as [|b qs IH]; intros a.
  - exists a. split; [reflexivity|]. split; [left; reflexivity|].
    constructor; [apply Qle_refl|constructor].
  - cbn [map D3.max_rest notNull andb gt toNumber lt].
    destruct (Qcompare a b) eqn:E.
    + destruct (IH a) as (m & Hm & Hin & Hle). exists m. split; [exact Hm|].
      apply Qeq_alt in E. inversion Hle as [|? ? Ha Hqs]; subst.
      split.
      * destruct Hin as [->|Hin]; [left; reflexivity|right; right; exact Hin].
      * constructor; [exact Ha|]. constructor; [|exact Hqs].
        rewrite <- E. exact Ha.
    + destruct (IH b) as (m & Hm & Hin & Hle). exists m. split; [exact Hm|].
      apply Qlt_alt in E. inversion Hle as [|? ? Hb Hqs]; subst.
      split.
      * right. exact Hin.
      * constructor; [|exact Hle].
        apply Qlt_le_weak. eapply Qlt_le_trans; [exact E|exact Hb].
    + destruct (IH a) as (m & Hm & Hin & Hle). exists m. split; [exact Hm|].
      apply Qgt_alt in E. inversion Hle as [|? ? Ha Hqs]; subst.
      split.
      * destruct Hin as [->|Hin]; [left; reflexivity|right; right; exact Hin].
      * constructor; [exact Ha|]. constructor; [|exact Hqs].
        apply Qlt_le_weak. eapply Qlt_le_trans; [exact E|exact Ha].
Qed.

(** On a non-empty series of numbers [d3.max] is the largest of them. *)
Lemma max_numbers (qs : list Q) :
  qs <> [] ->
  exists m, D3.max (map VNumber qs) = VNumber m /\ is_maximum m qs.
Proof.
  destruct qs as [|a qs]; [congruence|]. intros _.
  cbn [map D3.max notNull andb geq toNumber ge].
  assert (E : Qcompare a a = Eq) by (apply Qeq_alt; reflexivity).
  rewrite E. apply max_rest_numbers.
Qed.

Lemma app_yScale_eq (this : Component) (dataSet : list record) :
  app_yScale this dataSet =
  rounded (Fin 0, toNumber (D3.max (App.getData dataSet (y this))))
          (ofField (chartHeight this), Fin 0).
Proof. reflexivity. Qed.

(** The rounding scale from [0, m] onto [ch, 0] sends 0 to [ch] rounded,
    whatever [m] is; with [m] not zero it sends [m] to 0, whatever the sign
    of [m]. *)
Lemma lin_call_zero (ch m : Q) :
  D3.lin_call (rounded (Fin 0, Fin m) (Fin ch, Fin 0)) (VNumber 0) = round (Fin ch).
Proof.
  unfold D3.lin_call, rounded, D3.bimap, D3.lin_domain, D3.lin_range, D3.lin_round,
    toNumber, lt.
  destruct (Qcompare m 0) eqn:E.
  - apply Qeq_alt in E.
    unfold D3.interpolateRound, D3.deinterpolateLinear, sub, lift2.
    assert (Ht : truthy (Fin (m - 0)) = false).
    { destruct (truthy (Fin (m - 0))) eqn:Ht; [|reflexivity].
      apply truthy_Fin in Ht. exfalso. apply Ht. lra. }
    rewrite Ht. unfold mul, add, lift2. apply round_same. rewrite E. ring.
  - apply Qlt_alt in E.
    unfold D3.interpolateRound, D3.deinterpolateLinear, sub, lift2.
    assert (Ht : truthy (Fin (0 - m)) = true).
    { apply truthy_Fin. intros Hz. lra. }
    rewrite Ht. unfold truthy in Ht. apply negb_true_iff in Ht.
    unfold div. rewrite Ht. unfold mul, add, lift2.
    apply round_same. field. intros Hz. lra.
  - apply Qgt_alt in E.
    unfold D3.interpolateRound, D3.deinterpolateLinear, sub, lift2.
    assert (Ht : truthy (Fin (m - 0)) = true).
    { apply truthy_Fin. intros Hz. lra. }
    rewrite Ht. unfold truthy in Ht. apply negb_true_iff in Ht.
    unfold div. rewrite Ht. unfold mul, add, lift2.
    apply round_same. field. intros Hz. lra.
Qed.

Lemma lin_call_max (ch m : Q) :
  ~ (m == 0)%Q ->
  D3.lin_call (rounded (Fin 0, Fin m) (Fin ch, Fin 0)) (VNumber m) = Fin 0.
Proof.
  intros Hm.
  unfold D3.lin_call, rounded, D3.bimap, D3.lin_domain, D3.lin_range, D3.lin_round,
    toNumber, lt.
  destruct (Qcompare m 0) eqn:E.
  - apply Qeq_alt in E. contradiction.
  - unfold D3.interpolateRound, D3.deinterpolateLinear, sub, lift2.
    assert (Ht : truthy (Fin (0 - m)) = true).
    { apply truthy_Fin. intros Hz. apply Hm. lra. }
    rewrite Ht. unfold truthy in Ht. apply negb_true_iff in Ht.
    unfold div. rewrite Ht. unfold mul, add, lift2.
    apply (round_whole _ 0). field. intros Hz. apply Hm. lra.
  - unfold D3.interpolateRound, D3.deinterpolateLinear, sub, lift2.
    assert (Ht : truthy (Fin (m - 0)) = true).
    { apply truthy_Fin. intros Hz. apply Hm. lra. }
    rewrite Ht. unfold truthy in Ht. apply negb_true_iff in Ht.
    unfold div. rewrite Ht. unfold mul, add, lift2.
    apply (round_whole _ 0). field. intros Hz. apply Hm. lra.
Qed.

(** With the upper bound NaN (no maximum) the scale sends everything to NaN. *)
Lemma lin_call_NaN (r0 r1 : number) (v : value) :
  D3.lin_call (rounded (Fin 0, NaN) (r0, r1)) v = NaN.
Proof.
  unfold D3.lin_call, rounded, D3.bimap, D3.lin_domain, D3.lin_range, D3.lin_round.
  cbn [lt]. unfold D3.interpolateRound, D3.deinterpolateLinear.
  cbn [sub lift2 truthy].
  destruct r0, r1; reflexivity.
Qed.

End LinearScale.

(** *** The ordinal domain and the band scale *)

Section BandScale.
Context `{Coercions}.

Lemma map_fmap {A B : Type} (f : A -> B) (l : list A) : map f l = f <$> l.
Proof. induction l as [|a l IH]; [reflexivity|]. cbn. rewrite IH. reflexivity. Qed.

Lemma indexed_empty : indexed ∅ [].
Proof.
  split; [constructor|]. split.
  - intros i d Hd. rewrite lookup_nil in Hd. discriminate.
  - intros k _. apply lookup_empty.
Qed.

Lemma indexed_known (index : gmap string nat) (domain : list value) (k : string) :
  indexed index domain -> (index !! k = None <-> k ∉ toString <$> domain).
Proof.
  intros (_ & Hpos & Hnone). split; [|apply Hnone].
  intros Hk Hin. apply list_elem_of_fmap in Hin as (d & -> & Hd).
  apply list_elem_of_lookup in Hd as (i & Hi).
  rewrite (Hpos i d Hi) in Hk. discriminate.
Qed.

Lemma indexed_push (index : gmap string nat) (domain : list value) (d : value) :
  indexed index domain ->
  index !! toString d = None ->
  indexed (<[toString d := S (length domain)]> index) (domain ++ [d]).
Proof.
  intros Hinv Hd. pose proof (proj1 (indexed_known _ _ _ Hinv) Hd) as Hfresh.
  destruct Hinv as (Hnd & Hpos & Hnone). split; [|split].
  - rewrite fmap_app. apply NoDup_app. split; [exact Hnd|]. split.
    + intros k Hk Hk'. cbn in Hk'. apply list_elem_of_singleton in Hk'. subst.
      contradiction.
    + cbn. apply NoDup_singleton.
  - intros i e He. apply lookup_app_Some in He as [He|[Hlen He]].
    + rewrite lookup_insert_ne; [apply Hpos; exact He|].
      intros Heq. apply Hfresh. rewrite Heq. apply list_elem_of_fmap.
      exists e. split; [reflexivity|]. apply list_elem_of_lookup. eauto.
    + apply list_lookup_singleton_Some in He as [Hi ->].
      rewrite lookup_insert_eq. f_equal. lia.
  - intros k Hk. rewrite fmap_app in Hk. apply not_elem_of_app in Hk as [Hk1 Hk2].
    rewrite lookup_insert_ne; [apply Hnone; exact Hk1|].
    intros Heq. subst k. apply Hk2. cbn. apply list_elem_of_singleton. reflexivity.
Qed.

Lemma ordinal_domain_indexed (input : list value) :
  forall (index : gmap string nat) (domain : list value),
    indexed index domain ->
    indexed (fst (D3.ordinal_domain index domain input))
            (snd (D3.ordinal_domain index domain input)).
Proof.
  induction input as [|d rest IH]; intros index domain Hinv; [exact Hinv|].
  cbn [D3.ordinal_domain]. destruct (index !! toString d) eqn:E.
  - apply IH. exact Hinv.
  - apply IH. apply indexed_push; assumption.
Qed.

(** The domain d3 computes is the list of distinct values of the spec. *)
Lemma ordinal_domain_distinct (input : list value) :
  forall (index : gmap string nat) (domain : list value),
    indexed index domain ->
    snd (D3.ordinal_domain index domain input) =
    domain ++ filter (fun u => toString u ∉ toString <$> domain) (distinct input).
Proof.
  induction input as [|d rest IH]; intros index domain Hinv.
  - cbn. rewrite app_nil_r. reflexivity.
  - cbn [D3.ordinal_domain distinct]. destruct (index !! toString d) eqn:E.
    + rewrite (IH _ _ Hinv). f_equal.
      assert (Hin : toString d ∈ toString <$> domain).
      { destruct (decide (toString d ∈ toString <$> domain)) as [Hin|Hout];
          [exact Hin|].
        apply (indexed_known _ _ _ Hinv) in Hout. congruence. }
      rewrite filter_cons_False by (intros Hout; apply Hout; exact Hin).
      rewrite list_filter_filter. apply list_filter_iff. intros u. split.
      * intros Hu. split; [exact Hu|]. intros Heq. apply Hu. rewrite Heq. exact Hin.
      * intros [Hu _]. exact Hu.
    + pose proof (proj1 (indexed_known _ _ _ Hinv) E) as Hfresh.
      rewrite (IH _ _ (indexed_push _ _ _ Hinv E)).
      rewrite filter_cons_True by exact Hfresh.
      rewrite <- app_assoc. cbn [app]. do 2 f_equal.
      rewrite list_filter_filter. apply list_filter_iff. intros u.
      rewrite fmap_app, not_elem_of_app. cbn. rewrite list_elem_of_singleton.
      reflexivity.
Qed.

Lemma distinct_ordinal_domain (input : list value) :
  snd (D3.ordinal_domain ∅ [] input) = distinct input.
Proof.
  rewrite (ordinal_domain_distinct input ∅ [] indexed_empty). cbn [app].
  induction (distinct input) as [|u l IH]; [reflexivity|].
  rewrite filter_cons_True; [rewrite IH; reflexivity|].
  cbn. apply not_elem_of_nil.
Qed.

Lemma app_xScale_eq (this : Component) (dataSet : list record) :
  app_xScale this dataSet =
  {| D3.band_index := fst (D3.ordinal_domain ∅ [] (App.getData dataSet (x this)));
     D3.band_domain := snd (D3.ordinal_domain ∅ [] (App.getData dataSet (x this)));
     D3.band_range := (Fin 0, ofField (chartWidth this));
     D3.band_round := true |}.
Proof.
  unfold app_xScale, D3.band_rangeRound, D3.band_set_domain.
  destruct (D3.ordinal_domain ∅ [] (App.getData dataSet (x this))). reflexivity.
Qed.

Lemma inject_Z_pos_nonzero (z : Z) : (0 < z)%Z -> Qeq_bool (inject_Z z) 0 = false.
Proof.
  intros Hz. destruct (Qeq_bool (inject_Z z) 0) eqn:E; [|reflexivity].
  apply Qeq_bool_iff in E. unfold Qeq in E. cbn in E. lia.
Qed.

(** The geometry [rescale()] computes for the range [0, cw] with [cw >= 0],
    rounding on, and a domain of [n] entries: the step and the bandwidth are
    the whole number [floor (cw / max(1, n))], and [n] bands fit in [cw]. *)
Lemma band_geometry (xs : D3.ScaleBand) (cw : Q) :
  D3.band_range xs = (Fin 0, Fin cw) ->
  D3.band_round xs = true ->
  (0 <= cw)%Q ->
  let n := Z.of_nat (length (D3.band_domain xs)) in
  let z := Qfloor (cw / inject_Z (Z.max 1 n)) in
  D3.band_reverse xs = false
  /\ D3.band_step xs = Fin (inject_Z z)
  /\ D3.bandwidth xs = Fin (inject_Z z)
  /\ (inject_Z n * inject_Z z <= cw)%Q.
Proof.
  intros Hrange Hround Hcw n z.
  assert (Hrev : D3.band_reverse xs = false).
  { unfold D3.band_reverse. rewrite Hrange. cbn [fst snd lt].
    destruct (Qcompare cw 0) eqn:E; try reflexivity.
    apply Qlt_alt in E. lra. }
  assert (Hstep : D3.band_step xs = Fin (inject_Z z)).
  { unfold D3.band_step, D3.band_stop, D3.band_start0. rewrite Hrev, Hround, Hrange.
    cbn [fst snd sub lift2 div]. fold n.
    rewrite inject_Z_pos_nonzero by lia. cbn [floor]. do 2 f_equal.
    apply Qfloor_comp. field.
    intros Hz. assert (E : Qeq_bool (inject_Z (Z.max 1 n)) 0 = true)
      by (apply Qeq_bool_iff; exact Hz).
    rewrite inject_Z_pos_nonzero in E by lia. discriminate. }
  split; [exact Hrev|]. split; [exact Hstep|]. split.
  - unfold D3.bandwidth. rewrite Hstep, Hround. cbn [mul lift2].
    apply round_whole. ring.
  - assert (Hfl : (inject_Z z <= cw / inject_Z (Z.max 1 n))%Q) by apply Qfloor_le.
    destruct (Z.eq_dec n 0%Z) as [Hn|Hn].
    + rewrite Hn. assert (E0 : (inject_Z 0 * inject_Z z == 0)%Q) by ring.
      rewrite E0. exact Hcw.
    + assert (Hmax : Z.max 1 n = n) by lia. rewrite Hmax in Hfl.
      assert (Hpos : (0 < inject_Z n)%Q).
      { unfold Qlt. cbn. lia. }
      apply (Qmult_le_l _ _ (inject_Z n) Hpos) in Hfl.
      eapply Qle_trans; [exact Hfl|].
      apply Qle_lteq. right. field. intros Hz. rewrite Hz in Hpos.
      apply (Qlt_irrefl 0). exact Hpos.
Qed.

(** The start of the first band: the room the bands leave, halved and
    rounded, which is between 0 and that room. *)
Lemma band_start_geometry (xs : D3.ScaleBand) (cw : Q) :
  D3.band_range xs = (Fin 0, Fin cw) ->
  D3.band_round xs = true ->
  (0 <= cw)%Q ->
  let n := Z.of_nat (length (D3.band_domain xs)) in
  let z := Qfloor (cw / inject_Z (Z.max 1 n)) in
  exists s : Z,
    D3.band_start xs = Fin (inject_Z s)
    /\ (0 <= s)%Z /\ (0 <= z)%Z
    /\ (inject_Z s + inject_Z n * inject_Z z <= cw)%Q.
Proof.
  intros Hrange Hround Hcw n z.
  destruct (band_geometry xs cw Hrange Hround Hcw) as (Hrev & Hstep & Hbw & Hsum).
  fold n in Hsum, Hstep. fold z in Hsum, Hstep.
  set (r := (cw - inject_Z n * inject_Z z)%Q).
  assert (Hr : (0 <= r)%Q) by (unfold r; lra).
  exists (Qfloor (r * (1 # 2) + (1 # 2))).
  split; [|split; [|split]].
  - unfold D3.band_start, D3.band_stop, D3.band_start0, D3.band_n.
    rewrite Hrev, Hround, Hrange, Hstep. fold n.
    cbn [fst snd sub mul add lift2 round]. do 2 f_equal.
    apply Qfloor_comp. unfold r. ring.
  - change 0%Z with (Qfloor 0). apply Qfloor_resp_le. lra.
  - change 0%Z with (Qfloor 0). apply Qfloor_resp_le.
    assert (Hpos : (0 < inject_Z (Z.max 1 n))%Q).
    { change 0%Q with (inject_Z 0). rewrite <- Zlt_Qlt. lia. }
    apply Qle_shift_div_l; [exact Hpos|]. lra.
  - pose proof (Qfloor_le (r * (1 # 2) + (1 # 2))) as Hfl.
    destruct (Qlt_le_dec r 1) as [Hlt|Hge].
    + assert (Hz0 : (Qfloor (r * (1 # 2) + (1 # 2)) <= 0)%Z).
      { assert (Hlt1 : (inject_Z (Qfloor (r * (1 # 2) + (1 # 2))) < inject_Z 1)%Q).
        { eapply Qle_lt_trans; [exact Hfl|]. change (inject_Z 1) with 1%Q. lra. }
        rewrite <- Zlt_Qlt in Hlt1. lia. }
      assert (Hle0 : (inject_Z (Qfloor (r * (1 # 2) + (1 # 2))) <= inject_Z 0)%Q)
        by (rewrite <- Zle_Qle; exact Hz0).
      change (inject_Z 0) with 0%Q in Hle0. unfold r in *. lra.
    + unfold r in *. lra.
Qed.

(** The first band starts at half of what the bands leave of the range,
    rounded: [start = round ((cw - n * step) / 2)]. *)
Lemma band_start_value (xs : D3.ScaleBand) (cw : Q) :
  D3.band_range xs = (Fin 0, Fin cw) ->
  D3.band_round xs = true ->
  (0 <= cw)%Q ->
  let n := Z.of_nat (length (D3.band_domain xs)) in
  let z := Qfloor (cw / inject_Z (Z.max 1 n)) in
  D3.band_start xs = round (Fin ((cw - inject_Z n * inject_Z z) / 2)).
Proof.
  intros Hrange Hround Hcw n z.
  destruct (band_geometry xs cw Hrange Hround Hcw) as (Hrev & Hstep & _ & _).
  fold n in Hstep. fold z in Hstep.
  unfold D3.band_start, D3.band_stop, D3.band_start0, D3.band_n.
  rewrite Hrev, Hround, Hrange, Hstep. fold n.
  cbn [fst snd sub mul add lift2 round]. do 2 f_equal.
  apply Qfloor_comp. field.
Qed.

(** The i-th entry of the domain is sent to the i-th band: [start + step * i]. *)
Lemma band_call_domain (xs : D3.ScaleBand) (i : nat) (d : value) :
  indexed (D3.band_index xs) (D3.band_domain xs) ->
  D3.band_reverse xs = false ->
  D3.band_domain xs !! i = Some d ->
  D3.band_call xs d =
  Some (add (D3.band_start xs)
            (mul (D3.band_step xs) (Fin (inject_Z (Z.of_nat i))))).
Proof.
  intros (_ & Hpos & _) Hrev Hd. unfold D3.band_call.
  rewrite (Hpos i d Hd).
  assert (Hi : (i < length (D3.band_domain xs))%nat).
  { apply lookup_lt_is_Some. eauto. }
  unfold D3.band_values. rewrite Hrev. rewrite length_map, length_seq.
  replace (S i - 1)%nat with i by lia.
  rewrite Nat.mod_small by exact Hi.
  rewrite map_fmap, list_lookup_fmap, lookup_seq_lt by exact Hi.
  reflexivity.
Qed.

End BandScale.

(** *** What a first render leaves in the component *)

Section Rendered.
Context `{Coercions}.

Lemma filter_rect_app_bars (this : Component) (xs : D3.ScaleBand)
    (ys : D3.ScaleLinear) (dataSet : list record) :
  List.filter is_rect (map (app_bar this xs ys) dataSet) =
  map (app_bar this xs ys) dataSet.
Proof.
  induction dataSet as [|d rest IH]; [reflexivity|].
  cbn [map List.filter]. rewrite IH.
  unfold app_bar at 1. unfold is_rect. nodes.
  destruct (D3.band_call xs (get d (x this))); exact eq_refl.
Qed.

Lemma filter_rect_lib_bars (this : Component) (xs : D3.ScaleBand)
    (ys : D3.ScaleLinear) (dataSet : list record) :
  List.filter is_rect (map (lib_bar this xs ys) dataSet) =
  map (lib_bar this xs ys) dataSet.
Proof.
  induction dataSet as [|d rest IH]; [reflexivity|].
  cbn [map List.filter]. rewrite IH.
  unfold lib_bar at 1, app_bar at 1. unfold is_rect. nodes.
  destruct (D3.band_call xs (get d (x this))); exact eq_refl.
Qed.

Lemma filter_rect_legacy_bars (this : Component) (xs : D3.ScaleBand)
    (ys : D3.ScaleLinear) (dataSet : list record) :
  List.filter is_rect (map (legacy_bar this xs ys) dataSet) =
  map (legacy_bar this xs ys) dataSet.
Proof.
  induction dataSet as [|d rest IH]; [reflexivity|].
  cbn [map List.filter]. rewrite IH.
  unfold legacy_bar at 1. unfold is_rect. nodes.
  destruct (chartHeight this); exact eq_refl.
Qed.

Lemma app_rendered_bars (dataSet : list record) (this : Component) :
  bars (app_rendered dataSet this) =
  map (app_bar (sized this) (app_xScale (sized this) dataSet)
                            (app_yScale (sized this) dataSet)) dataSet.
Proof.
  unfold bars, app_rendered. cbn [chart set_chart].
  rewrite List.filter_app, axes_no_rect, filter_rect_app_bars. reflexivity.
Qed.

Lemma lib_rendered_bars (dataSet : list record) (this : Component) :
  bars (lib_rendered dataSet this) =
  map (lib_bar (labelled this) (lib_xScale (labelled this) dataSet)
                               (lib_yScale (labelled this) dataSet)) dataSet.
Proof.
  unfold bars, lib_rendered. cbn [chart set_chart].
  rewrite List.filter_app, axes_no_rect, filter_rect_lib_bars. reflexivity.
Qed.

Lemma legacy_rendered_bars (dataSet : list record) (this : Component) :
  bars (legacy_rendered dataSet this) =
  map (legacy_bar (sized this) (app_xScale (sized this) dataSet)
                               (app_yScale (sized this) dataSet)) dataSet.
Proof.
  unfold bars, legacy_rendered. cbn [chart set_chart].
  rewrite List.filter_app, axes_no_rect, filter_rect_legacy_bars. reflexivity.
Qed.

Lemma Forall2_map_r {A B : Type} (P : A -> B -> Prop) (f : A -> B) (l : list A) :
  (forall a, In a l -> P a (f a)) -> Forall2 P l (map f l).
Proof.
  induction l as [|a l IH]; intros Hf; [constructor|].
  cbn [map]. constructor; [apply Hf; left; reflexivity|].
  apply IH. intros b Hb. apply Hf. right. exact Hb.
Qed.

Lemma app_bar_class (this : Component) (xs : D3.ScaleBand) (ys : D3.ScaleLinear)
    (d : record) :
  has_class "bar" (app_bar this xs ys d) = true.
Proof.
  unfold has_class, app_bar, set_schedule. cbn [attrs]. rewrite !attrs_attr1.
  rewrite !lookup_insert_ne by done.
  destruct (D3.band_call xs (get d (x this))); cbn [fmap option_fmap option_map].
  - rewrite attrs_attr1, lookup_insert_ne by done. rewrite attrs_attr1.
    rewrite lookup_insert_ne by done. rewrite attrs_attr1, lookup_insert_eq.
    reflexivity.
  - unfold attr1 at 1. unfold set_attrs. cbn [attrs].
    rewrite lookup_delete_ne by done. rewrite attrs_attr1.
    rewrite lookup_insert_ne by done. rewrite attrs_attr1, lookup_insert_eq.
    reflexivity.
Qed.

Lemma lib_bar_class (this : Component) (xs : D3.ScaleBand) (ys : D3.ScaleLinear)
    (d : record) :
  has_class "bar" (lib_bar this xs ys d) = true.
Proof. exact (app_bar_class this xs ys d). Qed.

Lemma selectAll_all (cls : string) (l : list Node) :
  Forall (fun n => has_class cls n = true) l -> selectAll cls l = l.
Proof.
  unfold selectAll. induction 1 as [|n l Hn _ IH]; [reflexivity|].
  cbn [List.filter]. rewrite Hn, IH. reflexivity.
Qed.

Lemma selectAll_none (cls : string) (l : list Node) :
  Forall (fun n => has_class cls n = false) l -> selectAll cls l = [].
Proof.
  unfold selectAll. induction 1 as [|n l Hn _ IH]; [reflexivity|].
  cbn [List.filter]. rewrite Hn, IH. reflexivity.
Qed.

(** What [draw] of the app component does to a chart that holds [children]:
    the nodes it held stay, at most rebound to other data; four axis nodes are
    appended; a bar is created for each record beyond the bars already there,
    and for no other record. *)
Lemma app_drawn_chart (dataSet : list record) (children : list Node)
    (this : Component) :
  chart (app_drawn dataSet children this) =
  Some (fst (data_join "bar" dataSet children)
        ++ axes this (app_xScale this dataSet) (app_yScale this dataSet)
        ++ map (app_bar this (app_xScale this dataSet) (app_yScale this dataSet))
               (skipn (length (selectAll "bar" children)) dataSet)).
Proof.
  unfold app_drawn.
  rewrite (data_join_app "bar" _ (axes_no_bar _ _ _) children dataSet).
  cbn [chart set_chart]. rewrite app_enter_bars_map, data_join_entering.
  rewrite <- app_assoc. reflexivity.
Qed.

Lemma lib_drawn_chart (dataSet : list record) (children : list Node)
    (this : Component) :
  chart (lib_drawn dataSet children this) =
  Some (fst (data_join "bar" dataSet children)
        ++ axes this (lib_xScale this dataSet) (lib_yScale this dataSet)
        ++ map (lib_bar this (lib_xScale this dataSet) (lib_yScale this dataSet))
               (skipn (length (selectAll "bar" children)) dataSet)).
Proof.
  unfold lib_drawn.
  rewrite (data_join_app "bar" _ (axes_no_bar _ _ _) children dataSet).
  cbn [chart set_chart]. rewrite lib_enter_bars_map, data_join_entering.
  rewrite <- app_assoc. reflexivity.
Qed.

(** A draw of the lib component never discards a bar: when the data service
    returns a scale, the bars of the chart after it are as many as the larger
    of the bars before it and the records of the data set, and the nodes that
    were there are still there. *)
Lemma lib_draw_keeps_bars (dataSet : list record) (children : list Node)
    (this : Component) :
  chart this = Some children ->
  has_maximum this dataSet ->
  exists this' kept created,
    Lib.draw dataSet this = Ok tt this'
    /\ chart this' =
       Some (kept ++ axes this (lib_xScale this dataSet) (lib_yScale this dataSet)
                  ++ created)
    /\ Forall2 rebound children kept
    /\ length created = (length dataSet - length (selectAll "bar" children))%nat
    /\ length (selectAll "bar"
                 (kept ++ axes this (lib_xScale this dataSet) (lib_yScale this dataSet)
                       ++ created))
       = Nat.max (length (selectAll "bar" children)) (length dataSet).
Proof.
  intros Hc Hmax.
  exists (lib_drawn dataSet children this), (fst (data_join "bar" dataSet children)),
    (map (lib_bar this (lib_xScale this dataSet) (lib_yScale this dataSet))
         (skipn (length (selectAll "bar" children)) dataSet)).
  split; [apply lib_draw_ok; assumption|]. split; [apply lib_drawn_chart|].
  pose proof (data_join_rebound "bar" children dataSet) as Hkept.
  split; [exact Hkept|]. split; [rewrite length_map, length_skipn; reflexivity|].
  unfold selectAll at 1. rewrite !List.filter_app, !length_app.
  fold (selectAll "bar" (fst (data_join "bar" dataSet children))).
  rewrite (selectAll_rebound "bar" _ _ Hkept).
  fold (selectAll "bar" (axes this (lib_xScale this dataSet) (lib_yScale this dataSet))).
  rewrite (selectAll_none "bar" _ (axes_no_bar _ _ _)).
  match goal with
  | |- context [List.filter (has_class "bar") ?l] =>
      fold (selectAll "bar" l); rewrite (selectAll_all "bar" l)
  end.
  - rewrite length_map, length_skipn. cbn [length]. lia.
  - induction (skipn (length (selectAll "bar" children)) dataSet) as [|d l IH];
      constructor; [apply lib_bar_class|exact IH].
Qed.

Lemma app_drawn_scales (dataSet : list record) (children : list Node)
    (this : Component) :
  xScale (app_drawn dataSet children this) = Some (app_xScale this dataSet)
  /\ yScale (app_drawn dataSet children this) = Some (app_yScale this dataSet).
Proof.
  unfold app_drawn. destruct (data_join _ _ _) as [children' entering].
  split; reflexivity.
Qed.

(** The change path of the app component builds the same scales as the
    initial render, whenever it draws. *)
Lemma app_ngOnChanges_scales (this : Component) (dataSet : list record) :
  data this = Some dataSet ->
  exists again,
    App.ngOnChanges this = Ok tt again
    /\ (is_Some (chart this) ->
        xScale again = Some (app_xScale (sized this) dataSet)
        /\ yScale again = Some (app_yScale (sized this) dataSet)).
Proof.
  intros Hd. rewrite app_ngOnChanges_ok, Hd.
  destruct (chart this) as [children|].
  - eexists. split; [reflexivity|]. intros _. apply app_drawn_scales.
  - eexists. split; [reflexivity|]. intros [c Hc]. discriminate.
Qed.

End Rendered.

(** *** The bars of a first render *)

Section Bars.
Context `{Coercions}.

Lemma app_bar_shape (this : Component) (xs : D3.ScaleBand) (ys : D3.ScaleLinear)
    (d : record) :
  tag (app_bar this xs ys d) = "rect" /\ datum (app_bar this xs ys d) = Some d.
Proof.
  unfold app_bar. nodes. destruct (D3.band_call xs (get d (x this))); split; reflexivity.
Qed.

Lemma app_bar_baseline (this : Component) (xs : D3.ScaleBand) (ys : D3.ScaleLinear)
    (d : record) :
  baseline (app_bar this xs ys d) (D3.lin_call ys (VNumber 0))
    (sub (ofField (chartHeight this)) (D3.lin_call ys (VNumber 0))).
Proof.
  unfold baseline, app_bar, set_schedule. cbn [attrs]. rewrite !attrs_attr1.
  split.
  - rewrite lookup_insert_ne by done. apply lookup_insert_eq.
  - apply lookup_insert_eq.
Qed.

Lemma app_bar_animates (this : Component) (xs : D3.ScaleBand) (ys : D3.ScaleLinear)
    (d : record) :
  animates (app_bar this xs ys d) easeLinear 880
    (D3.lin_call ys (get d (y this)))
    (sub (ofField (chartHeight this)) (D3.lin_call ys (get d (y this)))).
Proof.
  unfold animates, app_bar, set_schedule. cbn [schedule].
  eexists. split; [reflexivity|]. cbn [ease duration targets].
  split; [reflexivity|]. split; [reflexivity|]. split.
  - rewrite lookup_insert_ne by done. apply lookup_insert_eq.
  - apply lookup_insert_eq.
Qed.

Lemma legacy_bar_shape (this : Component) (xs : D3.ScaleBand) (ys : D3.ScaleLinear)
    (d : record) :
  tag (legacy_bar this xs ys d) = "rect" /\ datum (legacy_bar this xs ys d) = Some d.
Proof.
  unfold legacy_bar. nodes. destruct (chartHeight this); split; reflexivity.
Qed.

Lemma legacy_bar_baseline (this : Component) (xs : D3.ScaleBand)
    (ys : D3.ScaleLinear) (d : record) (ch : Q) :
  chartHeight this = Some ch ->
  baseline (legacy_bar this xs ys d) (Fin ch) (Fin 0).
Proof.
  intros Hch. unfold baseline, legacy_bar. rewrite Hch.
  unfold set_schedule. cbn [attrs fmap option_fmap option_map].
  rewrite !attrs_attr1.
  split.
  - apply lookup_insert_eq.
  - rewrite lookup_insert_ne by done. apply lookup_insert_eq.
Qed.

Lemma legacy_bar_animates (this : Component) (xs : D3.ScaleBand)
    (ys : D3.ScaleLinear) (d : record) :
  animates (legacy_bar this xs ys d) easeLinear 1200
    (D3.lin_call ys (get d (y this)))
    (sub (ofField (chartHeight this)) (D3.lin_call ys (get d (y this)))).
Proof.
  unfold animates, legacy_bar, set_schedule. cbn [schedule].
  eexists. split; [reflexivity|].
  split; [reflexivity|]. split; [reflexivity|]. rewrite !targets_t_target. split.
  - rewrite lookup_insert_ne by done. apply lookup_insert_eq.
  - apply lookup_insert_eq.
Qed.

End Bars.

(** *** The claims about the scales and the bars *)

Section ScaleAndBarClaims.
Context `{Coercions}.

(** Claim C2, as amended.  A data set that is present but yields no maximum
    for the Y series - the empty data set above all - raises no error: the
    initial render and the change path both return, the linear scale is built
    with the domain [0, NaN] and sends every value to NaN, both axes are
    drawn, and one bar per record (none for the empty data set) is appended
    after them. *)
Theorem C2_no_maximum_still_renders (this : Component) (dataSet : list record) :
  data this = Some dataSet ->
  D3.max (App.getData dataSet (y this)) = VUndefined ->
  exists first again xs ys,
    App.ngOnInit this = Ok tt first
    /\ App.ngOnChanges this = Ok tt again
    /\ xScale first = Some xs /\ yScale first = Some ys
    /\ (is_Some (chart this) -> yScale again = Some ys)
    /\ D3.lin_domain ys = (Fin 0, NaN)
    /\ (forall v, D3.lin_call ys v = NaN)
    /\ chart first = Some (axes (sized this) xs ys ++ bars first)
    /\ length (bars first) = length dataSet.
Proof.
  intros Hd Hmax.
  destruct (app_ngOnChanges_scales this dataSet Hd) as (again & Hagain & Hscales).
  exists (app_rendered dataSet this), again, (app_xScale (sized this) dataSet),
    (app_yScale (sized this) dataSet).
  split; [apply app_ngOnInit_ok; exact Hd|]. split; [exact Hagain|].
  split; [reflexivity|]. split; [reflexivity|].
  split; [intros Hc; exact (proj2 (Hscales Hc))|].
  assert (Hys : app_yScale (sized this) dataSet =
                rounded (Fin 0, NaN)
                        (Fin (height this - top (margins this) - bottom (margins this)),
                         Fin 0)).
  { rewrite app_yScale_eq. change (y (sized this)) with (y this).
    rewrite Hmax. reflexivity. }
  split; [rewrite Hys; reflexivity|].
  split; [intros v; rewrite Hys; apply lin_call_NaN|].
  rewrite app_rendered_bars. split; [reflexivity|]. apply length_map.
Qed.

(** Claim C3, as amended.  The linear scale a render builds - the initial
    render, and the change path whenever it draws - has the domain
    [0, +max(Y)] and the range [chartHeight, 0].  When the Y series is a
    non-empty list of numbers, max(Y) is its largest entry whatever its
    smallest one is, the scale sends 0 to chartHeight rounded to a whole
    number (chartHeight itself when it is whole), and it sends max(Y) to 0
    provided max(Y) is not 0. *)
Theorem C3_linear_scale (this : Component) (dataSet : list record) :
  data this = Some dataSet ->
  let ch := (height this - top (margins this) - bottom (margins this))%Q in
  exists first again ys,
    App.ngOnInit this = Ok tt first
    /\ App.ngOnChanges this = Ok tt again
    /\ yScale first = Some ys
    /\ (is_Some (chart this) -> yScale again = Some ys)
    /\ D3.lin_domain ys = (Fin 0, toNumber (D3.max (App.getData dataSet (y this))))
    /\ D3.lin_range ys = (Fin ch, Fin 0)
    /\ (forall qs : list Q,
          App.getData dataSet (y this) = map VNumber qs -> qs <> [] ->
          exists m,
            is_maximum m qs
            /\ D3.lin_domain ys = (Fin 0, Fin m)
            /\ D3.lin_call ys (VNumber 0) = round (Fin ch)
            /\ (forall z, (ch == inject_Z z)%Q ->
                          D3.lin_call ys (VNumber 0) = Fin (inject_Z z))
            /\ (~ (m == 0)%Q -> D3.lin_call ys (VNumber m) = Fin 0)).
Proof.
  intros Hd ch.
  destruct (app_ngOnChanges_scales this dataSet Hd) as (again & Hagain & Hscales).
  exists (app_rendered dataSet this), again, (app_yScale (sized this) dataSet).
  split; [apply app_ngOnInit_ok; exact Hd|]. split; [exact Hagain|].
  split; [reflexivity|].
  split; [intros Hc; exact (proj2 (Hscales Hc))|].
  split; [reflexivity|]. split; [reflexivity|].
  intros qs Hqs Hne. destruct (max_numbers qs Hne) as (m & Hm & Hmax).
  exists m. split; [exact Hmax|].
  assert (Hys : app_yScale (sized this) dataSet = rounded (Fin 0, Fin m) (Fin ch, Fin 0)).
  { rewrite app_yScale_eq. change (y (sized this)) with (y this).
    rewrite Hqs, Hm. reflexivity. }
  rewrite Hys. split; [reflexivity|]. split; [apply lin_call_zero|]. split.
  - intros z Hz. rewrite lin_call_zero. apply round_whole. exact Hz.
  - apply lin_call_max.
Qed.

(** Claim C4, as amended.  The band scale a render builds - the initial
    render, and the change path whenever it draws - has for domain the list of
    distinct X values in first-occurrence order, with no key twice; its range
    is [0, chartWidth] and its edges are rounded.  When chartWidth is not
    negative, the bandwidth is the whole number
    floor(chartWidth / max(1, n)) for the n entries of the domain - which is
    chartWidth / n when n divides chartWidth - the n bands together do not
    exceed chartWidth, and the i-th entry is sent to start + i * bandwidth,
    so the bands are equal and adjacent.  The first band starts at
    start = round((chartWidth - n * bandwidth) / 2), a whole number with
    0 <= start and start + n * bandwidth <= chartWidth: every band lies
    inside [0, chartWidth]. *)
Theorem C4_band_scale (this : Component) (dataSet : list record) :
  data this = Some dataSet ->
  let cw := (width this - left (margins this) - right (margins this))%Q in
  exists first again xs,
    App.ngOnInit this = Ok tt first
    /\ App.ngOnChanges this = Ok tt again
    /\ xScale first = Some xs
    /\ (is_Some (chart this) -> xScale again = Some xs)
    /\ D3.band_domain xs = distinct (App.getData dataSet (x this))
    /\ List.NoDup (map toString (D3.band_domain xs))
    /\ D3.band_range xs = (Fin 0, Fin cw)
    /\ D3.band_round xs = true
    /\ ((0 <= cw)%Q ->
        let n := Z.of_nat (length (D3.band_domain xs)) in
        let z := Qfloor (cw / inject_Z (Z.max 1 n)) in
        D3.bandwidth xs = Fin (inject_Z z)
        /\ (inject_Z n * inject_Z z <= cw)%Q
        /\ (forall k : Z, (0 < n)%Z -> (cw == inject_Z k * inject_Z n)%Q -> z = k)
        /\ (forall (i : nat) (d : value),
              D3.band_domain xs !! i = Some d ->
              D3.band_call xs d =
              Some (add (D3.band_start xs)
                        (mul (D3.bandwidth xs) (Fin (inject_Z (Z.of_nat i))))))
        /\ D3.band_start xs = round (Fin ((cw - inject_Z n * inject_Z z) / 2))
        /\ exists start : Z,
             D3.band_start xs = Fin (inject_Z start)
             /\ (0 <= start)%Z
             /\ (inject_Z start + inject_Z n * inject_Z z <= cw)%Q
             /\ (forall (i : nat) (d : value),
                   D3.band_domain xs !! i = Some d ->
                   exists p : Z,
                     D3.band_call xs d = Some (Fin (inject_Z p))
                     /\ p = (start + z * Z.of_nat i)%Z
                     /\ (0 <= p)%Z
                     /\ (inject_Z p + inject_Z z <= cw)%Q)).
Proof.
  intros Hd cw.
  destruct (app_ngOnChanges_scales this dataSet Hd) as (again & Hagain & Hscales).
  exists (app_rendered dataSet this), again, (app_xScale (sized this) dataSet).
  split; [apply app_ngOnInit_ok; exact Hd|]. split; [exact Hagain|].
  split; [reflexivity|].
  split; [intros Hc; exact (proj1 (Hscales Hc))|].
  clear Hscales.
  rewrite app_xScale_eq. change (x (sized this)) with (x this).
  set (xs := {| D3.band_index := _; D3.band_domain := _; D3.band_range := _;
                D3.band_round := _ |}).
  pose proof (ordinal_domain_indexed (App.getData dataSet (x this)) ∅ []
                indexed_empty) as Hinv.
  split; [apply distinct_ordinal_domain|].
  split; [rewrite map_fmap; apply NoDup_ListNoDup; exact (proj1 Hinv)|].
  split; [reflexivity|]. split; [reflexivity|].
  intros Hcw n z.
  destruct (band_geometry xs cw eq_refl eq_refl Hcw) as (Hrev & Hstep & Hbw & Hsum).
  split; [exact Hbw|]. split; [exact Hsum|]. split.
  - intros k Hn Hk. subst z. fold n.
    replace (Z.max 1 n) with n by lia.
    rewrite <- (Qfloor_Z k). apply Qfloor_comp. rewrite Hk. field.
    intros Hz. unfold Qeq in Hz. cbn in Hz. lia.
  - assert (Hcall : forall (i : nat) (d : value),
              D3.band_domain xs !! i = Some d ->
              D3.band_call xs d =
              Some (add (D3.band_start xs)
                        (mul (D3.bandwidth xs) (Fin (inject_Z (Z.of_nat i)))))).
    { intros i d Hi. rewrite Hbw, <- Hstep.
      apply band_call_domain; [exact Hinv|exact Hrev|exact Hi]. }
    split; [exact Hcall|].
    split; [exact (band_start_value xs cw eq_refl eq_refl Hcw)|].
    destruct (band_start_geometry xs cw eq_refl eq_refl Hcw)
      as (s & Hs & Hs0 & Hz0 & Hfit).
    fold n in Hfit, Hz0. fold z in Hfit, Hz0.
    exists s. split; [exact Hs|]. split; [exact Hs0|]. split; [exact Hfit|].
    intros i d Hi. exists (s + z * Z.of_nat i)%Z.
    assert (Hlt : (Z.of_nat i < n)%Z).
    { unfold n. apply inj_lt. apply lookup_lt_is_Some. eauto. }
    split; [|split; [reflexivity|split; [nia|]]].
    + rewrite (Hcall i d Hi), Hs, Hbw. cbn [add mul lift2]. do 2 f_equal.
      rewrite inject_Z_plus, inject_Z_mult. reflexivity.
    + eapply Qle_trans; [|exact Hfit].
      rewrite <- inject_Z_mult, <- !inject_Z_plus, <- Zle_Qle. nia.
Qed.

(** Claim C5, as amended.  On a first render exactly one bar is created for
    every record, bound to it, with y = linearScale(0) and
    height = chartHeight - linearScale(0) set at once as attributes, outside
    the transition.  These are chartHeight and 0 whenever the Y series has a
    numeric maximum and chartHeight is a whole number.  The earlier revision
    of the component sets y = chartHeight and height = 0 directly. *)
Theorem C5_baseline_on_first_render (this : Component) (dataSet : list record) :
  data this = Some dataSet ->
  let ch := (height this - top (margins this) - bottom (margins this))%Q in
  (exists this' ys,
     App.ngOnInit this = Ok tt this'
     /\ yScale this' = Some ys
     /\ Forall2 (fun d n =>
                   tag n = "rect" /\ datum n = Some d
                   /\ baseline n (D3.lin_call ys (VNumber 0))
                                 (sub (Fin ch) (D3.lin_call ys (VNumber 0))))
                dataSet (bars this')
     /\ (forall (m : Q) (z : Z),
           D3.max (App.getData dataSet (y this)) = VNumber m ->
           (ch == inject_Z z)%Q ->
           same (D3.lin_call ys (VNumber 0)) (Fin ch)
           /\ same (sub (Fin ch) (D3.lin_call ys (VNumber 0))) (Fin 0)))
  /\ (exists this',
        Legacy.ngOnInit this = Ok tt this'
        /\ Forall2 (fun d n =>
                      tag n = "rect" /\ datum n = Some d
                      /\ baseline n (Fin ch) (Fin 0))
                   dataSet (bars this')).
Proof.
  intros Hd ch. split.
  - exists (app_rendered dataSet this), (app_yScale (sized this) dataSet).
    split; [apply app_ngOnInit_ok; exact Hd|]. split; [reflexivity|]. split.
    + rewrite app_rendered_bars. apply Forall2_map_r. intros d _.
      destruct (app_bar_shape (sized this) (app_xScale (sized this) dataSet)
                  (app_yScale (sized this) dataSet) d) as [Ht Hdat].
      split; [exact Ht|]. split; [exact Hdat|]. apply app_bar_baseline.
    + intros m z Hm Hz.
      assert (Hys : D3.lin_call (app_yScale (sized this) dataSet) (VNumber 0)
                    = Fin (inject_Z z)).
      { rewrite app_yScale_eq. change (y (sized this)) with (y this).
        rewrite Hm. cbn [toNumber ofField chartHeight sized set_chartHeight].
        fold ch. rewrite lin_call_zero. apply round_whole. exact Hz. }
      rewrite Hys. cbn [same sub lift2]. split; [symmetry; exact Hz|]. lra.
  - exists (legacy_rendered dataSet this).
    split; [apply legacy_ngOnInit_ok; exact Hd|].
    rewrite legacy_rendered_bars. apply Forall2_map_r. intros d _.
    destruct (legacy_bar_shape (sized this) (app_xScale (sized this) dataSet)
                (app_yScale (sized this) dataSet) d) as [Ht Hdat].
    split; [exact Ht|]. split; [exact Hdat|].
    apply legacy_bar_baseline. reflexivity.
Qed.

(** On a first render every record gets a bar with one transition, of linear
    easing and a fixed duration (880 ms; 1200 ms in the earlier revision),
    that animates y to linearScale(record[yField]) and height to
    chartHeight - linearScale(record[yField]). *)
Lemma transition_on_first_render (this : Component) (dataSet : list record) :
  data this = Some dataSet ->
  let ch := (height this - top (margins this) - bottom (margins this))%Q in
  (exists this' ys,
     App.ngOnInit this = Ok tt this'
     /\ yScale this' = Some ys
     /\ Forall2 (fun d n =>
                   datum n = Some d
                   /\ animates n easeLinear 880
                        (D3.lin_call ys (get d (y this)))
                        (sub (Fin ch) (D3.lin_call ys (get d (y this)))))
                dataSet (bars this'))
  /\ (exists this' ys,
        Legacy.ngOnInit this = Ok tt this'
        /\ yScale this' = Some ys
        /\ Forall2 (fun d n =>
                      datum n = Some d
                      /\ animates n easeLinear 1200
                           (D3.lin_call ys (get d (y this)))
                           (sub (Fin ch) (D3.lin_call ys (get d (y this)))))
                   dataSet (bars this')).
Proof.
  intros Hd ch. split.
  - exists (app_rendered dataSet this), (app_yScale (sized this) dataSet).
    split; [apply app_ngOnInit_ok; exact Hd|]. split; [reflexivity|].
    rewrite app_rendered_bars. apply Forall2_map_r. intros d _.
    split; [apply app_bar_shape|].
    exact (app_bar_animates (sized this) _ _ d).
  - exists (legacy_rendered dataSet this), (app_yScale (sized this) dataSet).
    split; [apply legacy_ngOnInit_ok; exact Hd|]. split; [reflexivity|].
    rewrite legacy_rendered_bars. apply Forall2_map_r. intros d _.
    split; [apply legacy_bar_shape|].
    exact (legacy_bar_animates (sized this) _ _ d).
Qed.

End ScaleAndBarClaims.

(** *** The claims about the hooks *)

Section HookClaims.
Context `{Coercions}.

Lemma lib_drawn_sizes (dataSet : list record) (children : list Node)
    (this : Component) :
  chartWidth (lib_drawn dataSet children this) = chartWidth this
  /\ chartHeight (lib_drawn dataSet children this) = chartHeight this.
Proof.
  unfold lib_drawn. destruct (data_join _ _ _) as [children' entering].
  split; reflexivity.
Qed.

(** Claim C1, as amended.  On the initial render ([ngOnInit]) a null or absent
    data set raises the 'Missing Data!' error at once: the hook throws with
    every field as it was, so no size has been computed, no chart made and
    nothing drawn.  (The change path does not raise: claim C10.) *)
Theorem C1_missing_data_on_init (this : Component) :
  data this = None ->
  Lib.ngOnInit this = Throw (mkError "Missing Data!") this
  /\ App.ngOnInit this = Throw (mkError "Missing Data!") this
  /\ Legacy.ngOnInit this = Throw (mkError "Missing Data!") this
  /\ raisesMissingData (Lib.ngOnInit this).
Proof.
  intros Hd.
  assert (HL : Lib.ngOnInit this = Throw (mkError "Missing Data!") this).
  { unfold Lib.ngOnInit, bind, this_. rewrite Hd. reflexivity. }
  split; [exact HL|]. split; [|split].
  - unfold App.ngOnInit, bind, this_. rewrite Hd. reflexivity.
  - unfold Legacy.ngOnInit, bind, this_. rewrite Hd. reflexivity.
  - exists this. exact HL.
Qed.

Lemma lib_draws_sizes (dataSet : list record) (children : list Node)
    (this : Component) :
  chartWidth (final (lib_draws dataSet children this)) = chartWidth this
  /\ chartHeight (final (lib_draws dataSet children this)) = chartHeight this.
Proof.
  unfold lib_draws.
  destruct (D3.max (DataService.getData dataSet (y this)));
    [split; reflexivity|apply lib_drawn_sizes|apply lib_drawn_sizes].
Qed.




(** Claim C9, as amended.  The config is not validated: when the margins
    leave a plotting area that is not positive, the initial render raises no
    error.  chartWidth and chartHeight are the differences
    width - margins.left - margins.right and
    height - margins.top - margins.bottom, one of them not positive and
    neither clamped; the scales are built over the ranges [0, chartWidth] and
    [chartHeight, 0], and the chart holds the four axis nodes made with these
    sizes followed by one bar per record.  It is so in the app component for
    every data set, and in the lib component for every data set whose Y series
    has a maximum; in the lib component the sizes are stored even when the
    data service throws. *)
Theorem C9_no_config_validation (this : Component) (dataSet : list record) :
  data this = Some dataSet ->
  (width this <= left (margins this) + right (margins this)
   \/ height this <= top (margins this) + bottom (margins this))%Q ->
  let cw := (width this - left (margins this) - right (margins this))%Q in
  let ch := (height this - top (margins this) - bottom (margins this))%Q in
  (cw <= 0 \/ ch <= 0)%Q
  /\ (exists this' xs ys,
        App.ngOnInit this = Ok tt this'
        /\ chartWidth this' = Some cw /\ chartHeight this' = Some ch
        /\ xScale this' = Some xs /\ D3.band_range xs = (Fin 0, Fin cw)
        /\ yScale this' = Some ys /\ D3.lin_range ys = (Fin ch, Fin 0)
        /\ chart this' = Some (axes (sized this) xs ys ++ bars this')
        /\ length (bars this') = length dataSet)
  /\ (has_maximum this dataSet ->
      exists this' xs ys,
        Lib.ngOnInit this = Ok tt this'
        /\ chartWidth this' = Some cw /\ chartHeight this' = Some ch
        /\ xScale this' = Some xs /\ D3.band_range xs = (Fin 0, Fin cw)
        /\ yScale this' = Some ys /\ D3.lin_range ys = (Fin ch, Fin 0)
        /\ chart this' = Some (axes (labelled this) xs ys ++ bars this')
        /\ length (bars this') = length dataSet)
  /\ chartWidth (final (Lib.ngOnInit this)) = Some cw
  /\ chartHeight (final (Lib.ngOnInit this)) = Some ch.
Proof.
  intros Hd Harea cw ch. split; [|split; [|split; [|split]]].
  - unfold cw, ch. destruct Harea as [Hw|Hh]; [left|right]; lra.
  - exists (app_rendered dataSet this), (app_xScale (sized this) dataSet),
      (app_yScale (sized this) dataSet).
    split; [apply app_ngOnInit_ok; exact Hd|].
    split; [reflexivity|]. split; [reflexivity|].
    split; [reflexivity|]. split; [rewrite app_xScale_eq; reflexivity|].
    split; [reflexivity|]. split; [rewrite app_yScale_eq; reflexivity|].
    rewrite app_rendered_bars. split; [reflexivity|]. apply length_map.
  - intros Hmax.
    exists (lib_rendered dataSet this), (lib_xScale (labelled this) dataSet),
      (lib_yScale (labelled this) dataSet).
    split; [apply lib_ngOnInit_ok; assumption|].
    split; [reflexivity|]. split; [reflexivity|].
    split; [reflexivity|]. split.
    { unfold lib_xScale, DataService.makeScale_categorical.
      change (DataService.getData dataSet (x (labelled this)))
        with (App.getData dataSet (x (sized this))).
      change (chartWidth (labelled this)) with (chartWidth (sized this)).
      fold (app_xScale (sized this) dataSet). rewrite app_xScale_eq. reflexivity. }
    split; [reflexivity|]. split; [reflexivity|].
    rewrite lib_rendered_bars. split; [reflexivity|]. apply length_map.
  - rewrite (lib_ngOnInit_eq this dataSet Hd).
    rewrite (proj1 (lib_draws_sizes _ _ _)). reflexivity.
  - rewrite (lib_ngOnInit_eq this dataSet Hd).
    rewrite (proj2 (lib_draws_sizes _ _ _)). reflexivity.
Qed.

(** Claim C10.  On the change path a null data set raises no error: the hook
    returns with chartWidth and chartHeight recomputed and the chart as it
    was, nothing drawn - in the lib component, in the app component and in
    its earlier revision.  No state makes [ngOnChanges] raise the
    missing-data error: the check is made by [ngOnInit] only.  The hooks of
    the app component and of its earlier revision return in every state; the
    hook of the lib component returns in every state in which it does not
    draw, that is, without a chart or without a data set. *)
Theorem C10_null_data_on_change (this : Component) :
  data this = None ->
  let cw := (width this - left (margins this) - right (margins this))%Q in
  let ch := (height this - top (margins this) - bottom (margins this))%Q in
  (exists this',
     Lib.ngOnChanges this = Ok tt this'
     /\ chartWidth this' = Some cw /\ chartHeight this' = Some ch
     /\ chart this' = chart this)
  /\ (exists this',
        Legacy.ngOnChanges this = Ok tt this'
        /\ chartWidth this' = Some cw /\ chartHeight this' = Some ch
        /\ chart this' = chart this)
  /\ (exists this',
        App.ngOnChanges this = Ok tt this'
        /\ chartWidth this' = Some cw /\ chartHeight this' = Some ch
        /\ chart this' = chart this)
  /\ (forall any : Component, ~ raisesMissingData (Lib.ngOnChanges any))
  /\ (forall any : Component,
        chart any = None \/ data any = None -> returns (Lib.ngOnChanges any))
  /\ (forall any : Component,
        returns (Legacy.ngOnChanges any)
        /\ ~ raisesMissingData (Legacy.ngOnChanges any))
  /\ (forall any : Component,
        returns (App.ngOnChanges any)
        /\ ~ raisesMissingData (App.ngOnChanges any)).
Proof.
  intros Hd cw ch. split; [|split; [|split; [|split; [|split; [|split]]]]].
  - exists (labelled this). split.
    + rewrite lib_ngOnChanges_eq, Hd. destruct (chart this); reflexivity.
    + repeat split; reflexivity.
  - exists (sized this). repeat split; reflexivity.
  - exists (sized this). split.
    + rewrite app_ngOnChanges_ok, Hd. destruct (chart this); reflexivity.
    + repeat split; reflexivity.
  - intros any [c Hc]. rewrite lib_ngOnChanges_eq in Hc.
    destruct (chart any) as [children|]; [|discriminate].
    destruct (data any) as [dataSet|]; [|discriminate].
    unfold lib_draws in Hc.
    destruct (D3.max (DataService.getData dataSet (y (labelled any))));
      discriminate.
  - intros any Hnone. rewrite lib_ngOnChanges_eq.
    destruct Hnone as [Hc|Hn].
    + rewrite Hc. eexists _, _. reflexivity.
    + rewrite Hn. destruct (chart any); eexists _, _; reflexivity.
  - intros any. split.
    + exists tt, (sized any). reflexivity.
    + intros [c Hc]. discriminate.
  - intros any. rewrite app_ngOnChanges_ok. split.
    + eexists _, _. reflexivity.
    + intros [c Hc]. discriminate.
Qed.

End HookClaims.

(** *** [makeAxis] and [getData] *)

Section MakeAxis.
Context `{Coercions}.

Lemma eqb_neq_false (s t : string) : s <> t -> String.eqb s t = false.
Proof. intros Hne. apply String.eqb_neq. exact Hne. Qed.

(** Property X1.  [makeAxis] with an axis name other than 'x' and 'y' does
    nothing: it returns and every field is as it was, chart or no chart.
    [makeAxis] with 'x' or 'y' before the chart is made throws the TypeError
    of [this.chart.append] on undefined, with every field as it was.  The
    three components behave alike. *)
Theorem X1_makeAxis_guards (axis : string) (scale : Scale) (this : Component) :
  (axis <> "x" -> axis <> "y" ->
   App.makeAxis axis scale this = Ok tt this
   /\ Lib.makeAxis axis scale this = Ok tt this
   /\ Legacy.makeAxis axis scale this = Ok tt this)
  /\ (axis = "x" \/ axis = "y" -> chart this = None ->
      let e := TypeError "Cannot read property 'append' of undefined" in
      App.makeAxis axis scale this = Throw e this
      /\ Lib.makeAxis axis scale this = Throw e this
      /\ Legacy.makeAxis axis scale this = Throw e this).
Proof.
  split.
  - intros Hx Hy.
    assert (HA : App.makeAxis axis scale this = Ok tt this).
    { unfold App.makeAxis. rewrite (eqb_neq_false _ _ Hx), (eqb_neq_false _ _ Hy).
      reflexivity. }
    split; [exact HA|]. split; exact HA.
  - intros Hax Hc e.
    assert (HA : App.makeAxis axis scale this = Throw e this).
    { destruct Hax as [-> | ->]; unfold App.makeAxis;
        cbn [String.eqb Ascii.eqb Bool.eqb];
        unfold bind, this_, append_child, bind, the_chart; rewrite Hc; reflexivity. }
    split; [exact HA|]. split; exact HA.
Qed.

(** Property X2.  On a chart, [makeAxis] with 'x' or 'y' appends two nodes
    after the nodes the chart holds and changes none of these: a group of
    class x-axis or y-axis that carries the bottom or the left axis of the
    scale given, then a text node that shows the name of the X or of the Y
    field.  Neither node is matched by the selector [.bar] nor is a bar
    shape, so the bars of the chart are those it had.  The three components
    behave alike. *)
Theorem X2_makeAxis_appends (axis : string) (scale : Scale) (this : Component)
    (children : list Node) :
  chart this = Some children ->
  axis = "x" \/ axis = "y" ->
  exists group label,
    App.makeAxis axis scale this
    = Ok tt (set_chart (Some (children ++ [group; label])) this)
    /\ Lib.makeAxis axis scale this = App.makeAxis axis scale this
    /\ Legacy.makeAxis axis scale this = App.makeAxis axis scale this
    /\ tag group = "g"
    /\ attrs group !! "class" = Some (AStr (axis +:+ "-axis"))
    /\ Dom.axis group
       = Some (if String.eqb axis "x" then axisBottom scale else axisLeft scale)
    /\ tag label = "text"
    /\ text label = Some (if String.eqb axis "x" then x this else y this)
    /\ selectAll "bar" (children ++ [group; label]) = selectAll "bar" children
    /\ bars (set_chart (Some (children ++ [group; label])) this) = bars this.
Proof.
  intros Hc [-> | ->].
  - exists (x_axis_group this scale), (x_axis_label this).
    split; [apply app_makeAxis_x; exact Hc|].
    split; [reflexivity|]. split; [reflexivity|].
    split; [reflexivity|]. split; [reflexivity|]. split; [reflexivity|].
    split; [reflexivity|]. split; [reflexivity|]. split.
    + unfold selectAll. rewrite List.filter_app. cbn [List.filter].
      change (has_class "bar" (x_axis_group this scale)) with false.
      change (has_class "bar" (x_axis_label this)) with false.
      apply app_nil_r.
    + unfold bars. cbn [chart set_chart]. rewrite Hc, List.filter_app.
      apply app_nil_r.
  - exists (y_axis_group scale), (y_axis_label this).
    split; [apply app_makeAxis_y; exact Hc|].
    split; [reflexivity|]. split; [reflexivity|].
    split; [reflexivity|]. split; [reflexivity|]. split; [reflexivity|].
    split; [reflexivity|]. split; [reflexivity|]. split.
    + unfold selectAll. rewrite List.filter_app. cbn [List.filter].
      change (has_class "bar" (y_axis_group scale)) with false.
      change (has_class "bar" (y_axis_label this)) with false.
      apply app_nil_r.
    + unfold bars. cbn [chart set_chart]. rewrite Hc, List.filter_app.
      apply app_nil_r.
Qed.

(** Property X3.  [getData] gives one value per record, in the order of the
    records: the value of the field, or undefined for a record without the
    field; it throws nothing for a missing field.  The method of the earlier
    revision reads [this.data] and throws a TypeError when it is null; it
    assigns no field. *)
Theorem X3_getData_one_value_per_record (this : Component) (key : string) :
  match data this with
  | Some dataSet =>
      Legacy.getData key this = Ok (App.getData dataSet key) this
      /\ length (App.getData dataSet key) = length dataSet
      /\ forall (i : nat) (d : record),
           dataSet !! i = Some d ->
           App.getData dataSet key !! i = Some (default VUndefined (d !! key))
  | None =>
      Legacy.getData key this
      = Throw (TypeError "Cannot read property 'map' of null") this
  end.
Proof.
  destruct (data this) as [dataSet|] eqn:Hd.
  - split; [unfold Legacy.getData, bind, this_; rewrite Hd; reflexivity|].
    unfold App.getData. split; [apply length_map|].
    intros i d Hi. rewrite map_fmap, list_lookup_fmap, Hi. reflexivity.
  - unfold Legacy.getData, bind, this_. rewrite Hd. reflexivity.
Qed.

End MakeAxis.

(** *** The chart after a first render *)

Section Layout.
Context `{Coercions}.

(** Property X19.  What a first render leaves in the chart, in document
    order: the group of the x axis, moved down by chartHeight, and the label
    of the X field; the group of the y axis and the label of the Y field;
    then the bars, one per record in the order of the data set, so that the
    bars are painted over the axes.  The two axes are built from the very
    scales the component stores and places its bars with.  The earlier
    revision lays the chart out the same way. *)
Theorem X19_first_render_layout (this : Component) (dataSet : list record) :
  data this = Some dataSet ->
  let ch := (height this - top (margins this) - bottom (margins this))%Q in
  exists first old xs ys gx lx gy ly,
    App.ngOnInit this = Ok tt first
    /\ Legacy.ngOnInit this = Ok tt old
    /\ xScale first = Some xs /\ yScale first = Some ys
    /\ chart first = Some ([gx; lx; gy; ly] ++ bars first)
    /\ chart old = Some ([gx; lx; gy; ly] ++ bars old)
    /\ axis gx = Some (axisBottom (SBand xs))
    /\ attrs gx !! "transform"
       = Some (AStr ("translate(0, " +:+ numberToString ch +:+ ")"))
    /\ text lx = Some (x this)
    /\ axis gy = Some (axisLeft (SLinear ys))
    /\ text ly = Some (y this)
    /\ Forall2 (fun d n => datum n = Some d) dataSet (bars first)
    /\ Forall2 (fun d n => datum n = Some d) dataSet (bars old).
Proof.
  intros Hd ch.
  set (s := sized this). set (xs := app_xScale s dataSet).
  set (ys := app_yScale s dataSet).
  exists (app_rendered dataSet this), (legacy_rendered dataSet this), xs, ys,
    (x_axis_group s (SBand xs)), (x_axis_label s), (y_axis_group (SLinear ys)),
    (y_axis_label s).
  split; [apply app_ngOnInit_ok; exact Hd|].
  split; [apply legacy_ngOnInit_ok; exact Hd|].
  split; [reflexivity|]. split; [reflexivity|].
  rewrite app_rendered_bars, legacy_rendered_bars. fold s xs ys.
  split; [reflexivity|]. split; [reflexivity|].
  split; [reflexivity|]. split; [reflexivity|]. split; [reflexivity|].
  split; [reflexivity|]. split; [reflexivity|]. split.
  - apply Forall2_map_r. intros d _. apply app_bar_shape.
  - apply Forall2_map_r. intros d _. apply legacy_bar_shape.
Qed.

End Layout.

(** *** Where a first render puts the bars *)

Section BarPlacement.
Context `{Coercions}.

(** Every value of the input has its key in the list of distinct values. *)
Lemma distinct_covers (input : list value) (v : value) :
  v ∈ input -> toString v ∈ toString <$> distinct input.
Proof.
  induction input as [|u rest IH]; intros Hv.
  - apply elem_of_nil in Hv. contradiction.
  - cbn [distinct]. rewrite fmap_cons.
    destruct (decide (toString v = toString u)) as [E|E].
    + rewrite E. apply list_elem_of_here.
    + apply list_elem_of_further.
      apply elem_of_cons in Hv as [->|Hv]; [congruence|].
      apply IH in Hv. apply list_elem_of_fmap in Hv as (w & Hw & Hin).
      apply list_elem_of_fmap. exists w. split; [exact Hw|].
      apply list_elem_of_filter. split; [|exact Hin]. rewrite <- Hw. exact E.
Qed.

Lemma app_xScale_indexed (this : Component) (dataSet : list record) :
  indexed (D3.band_index (app_xScale this dataSet))
          (D3.band_domain (app_xScale this dataSet)).
Proof.
  rewrite app_xScale_eq. cbn [D3.band_index D3.band_domain].
  apply ordinal_domain_indexed. apply indexed_empty.
Qed.

Lemma app_xScale_domain (this : Component) (dataSet : list record) :
  D3.band_domain (app_xScale this dataSet) = distinct (App.getData dataSet (x this)).
Proof.
  rewrite app_xScale_eq. cbn [D3.band_domain]. apply distinct_ordinal_domain.
Qed.

(** The position in the domain of the category of a record of the data set. *)
Lemma app_xScale_position (this : Component) (dataSet : list record) (d : record) :
  d ∈ dataSet ->
  exists (i : nat) (c : value),
    D3.band_domain (app_xScale this dataSet) !! i = Some c
    /\ toString c = toString (get d (x this)).
Proof.
  intros Hd.
  assert (Hin : get d (x this) ∈ App.getData dataSet (x this)).
  { unfold App.getData. rewrite map_fmap. apply list_elem_of_fmap.
    exists d. split; [reflexivity|exact Hd]. }
  apply distinct_covers in Hin. rewrite <- app_xScale_domain in Hin.
  apply list_elem_of_fmap in Hin as (c & Hc & Hin).
  apply list_elem_of_lookup in Hin as (i & Hi).
  exists i, c. split; [exact Hi|]. symmetry. exact Hc.
Qed.

Lemma band_call_key (xs : D3.ScaleBand) (u v : value) :
  toString u = toString v -> D3.band_call xs u = D3.band_call xs v.
Proof. intros E. unfold D3.band_call. rewrite E. reflexivity. Qed.

Lemma app_bar_x (this : Component) (xs : D3.ScaleBand) (ys : D3.ScaleLinear)
    (d : record) :
  attrs (app_bar this xs ys d) !! "x" = ANum <$> D3.band_call xs (get d (x this)).
Proof.
  unfold app_bar, set_schedule. cbn [attrs]. rewrite !attrs_attr1.
  rewrite !lookup_insert_ne by done.
  destruct (D3.band_call xs (get d (x this))); cbn [fmap option_fmap option_map].
  - rewrite attrs_attr1. apply lookup_insert_eq.
  - unfold attr1 at 1. unfold set_attrs. cbn [attrs]. apply lookup_delete_eq.
Qed.

Lemma app_bar_width (this : Component) (xs : D3.ScaleBand) (ys : D3.ScaleLinear)
    (d : record) :
  attrs (app_bar this xs ys d) !! "width" = Some (ANum (D3.bandwidth xs)).
Proof.
  unfold app_bar, set_schedule. cbn [attrs]. rewrite !attrs_attr1.
  rewrite !lookup_insert_ne by done.
  destruct (D3.band_call xs (get d (x this))); cbn [fmap option_fmap option_map].
  - rewrite attrs_attr1, lookup_insert_ne by done. rewrite attrs_attr1.
    apply lookup_insert_eq.
  - unfold attr1 at 1. unfold set_attrs. cbn [attrs].
    rewrite lookup_delete_ne by done. rewrite attrs_attr1.
    apply lookup_insert_eq.
Qed.

(** Where a first render of the app component puts its bars: the bar of a
    record at the band of the record's category. *)
Lemma app_first_bar_positions (this : Component) (dataSet : list record) :
  let xs := app_xScale (sized this) dataSet in
  let cw := (width this - left (margins this) - right (margins this))%Q in
  (0 <= cw)%Q ->
  exists s0 z : Z,
    D3.bandwidth xs = Fin (inject_Z z)
    /\ (0 <= s0)%Z /\ (0 <= z)%Z
    /\ (inject_Z s0 + inject_Z (Z.of_nat (length (D3.band_domain xs))) * inject_Z z
        <= cw)%Q
    /\ forall d : record,
         d ∈ dataSet ->
         exists (i : nat) (c : value),
           D3.band_domain xs !! i = Some c
           /\ toString c = toString (get d (x this))
           /\ D3.band_call xs (get d (x this))
              = Some (Fin (inject_Z s0 + inject_Z z * inject_Z (Z.of_nat i))).
Proof.
  intros xs cw Hcw.
  assert (Hrange : D3.band_range xs = (Fin 0, Fin cw)).
  { unfold xs. rewrite app_xScale_eq. reflexivity. }
  assert (Hround : D3.band_round xs = true).
  { unfold xs. rewrite app_xScale_eq. reflexivity. }
  destruct (band_geometry xs cw Hrange Hround Hcw) as (Hrev & Hstep & Hbw & _).
  destruct (band_start_geometry xs cw Hrange Hround Hcw)
    as (s0 & Hstart & Hs0 & Hz & Hsum).
  exists s0, (Qfloor (cw / inject_Z (Z.max 1 (Z.of_nat (length (D3.band_domain xs)))))).
  split; [exact Hbw|]. split; [exact Hs0|]. split; [exact Hz|]. split; [exact Hsum|].
  intros d Hd.
  destruct (app_xScale_position (sized this) dataSet d Hd) as (i & c & Hi & Hkey).
  change (x (sized this)) with (x this) in Hkey. fold xs in Hi.
  exists i, c. split; [exact Hi|]. split; [exact Hkey|].
  rewrite <- (band_call_key xs c _ Hkey).
  rewrite (band_call_domain xs i c (app_xScale_indexed (sized this) dataSet) Hrev Hi).
  rewrite Hstart, Hstep. reflexivity.
Qed.

(** Property X4.  On a first render, when the plotting area has a width that is
    not negative, every bar lies within it: its left edge is at 0 or to the
    right of it and its right edge at chartWidth or to the left of it. *)
Theorem X4_bars_inside_plot_width (this : Component) (dataSet : list record) :
  data this = Some dataSet ->
  let cw := (width this - left (margins this) - right (margins this))%Q in
  (0 <= cw)%Q ->
  exists this',
    App.ngOnInit this = Ok tt this'
    /\ length (bars this') = length dataSet
    /\ Forall (fun n =>
                 exists a w : Q,
                   attrs n !! "x" = Some (ANum (Fin a))
                   /\ attrs n !! "width" = Some (ANum (Fin w))
                   /\ (0 <= a)%Q /\ (0 <= w)%Q /\ (a + w <= cw)%Q)
              (bars this').
Proof.
  intros Hd cw Hcw. exists (app_rendered dataSet this).
  split; [apply app_ngOnInit_ok; exact Hd|]. rewrite app_rendered_bars.
  split; [apply length_map|].
  apply List.Forall_forall. intros n Hn. apply in_map_iff in Hn as (d & <- & Hin).
  apply list_elem_of_In in Hin.
  destruct (app_first_bar_positions this dataSet Hcw)
    as (s0 & z & Hbw & Hs0 & Hz & Hsum & Hpos).
  destruct (Hpos d Hin) as (i & c & Hi & Hkey & Hcall).
  exists (inject_Z s0 + inject_Z z * inject_Z (Z.of_nat i))%Q, (inject_Z z).
  rewrite app_bar_x, app_bar_width. change (x (sized this)) with (x this).
  rewrite Hcall, Hbw. split; [reflexivity|]. split; [reflexivity|].
  apply lookup_lt_Some in Hi.
  set (n := Z.of_nat (length (D3.band_domain (app_xScale (sized this) dataSet)))) in *.
  assert (Hin' : (Z.of_nat i + 1 <= n)%Z) by (unfold n; lia).
  rewrite <- !inject_Z_mult, <- !inject_Z_plus in *.
  split; [|split].
  - change 0%Q with (inject_Z 0). rewrite <- Zle_Qle. nia.
  - change 0%Q with (inject_Z 0). rewrite <- Zle_Qle. exact Hz.
  - eapply Qle_trans; [|exact Hsum]. rewrite <- Zle_Qle. nia.
Qed.

(** Property X5.  On a first render two records of the same category get bars
    at the same x, one over the other; two records of different categories get
    bars that do not overlap. *)
Theorem X5_bars_by_category (this : Component) (dataSet : list record) :
  data this = Some dataSet ->
  let cw := (width this - left (margins this) - right (margins this))%Q in
  (0 <= cw)%Q ->
  exists this',
    App.ngOnInit this = Ok tt this'
    /\ forall (i j : nat) (di dj : record) (ni nj : Node),
         dataSet !! i = Some di -> dataSet !! j = Some dj ->
         bars this' !! i = Some ni -> bars this' !! j = Some nj ->
         (toString (get di (x this)) = toString (get dj (x this)) ->
          attrs ni !! "x" = attrs nj !! "x")
         /\ (toString (get di (x this)) <> toString (get dj (x this)) ->
             exists a b w : Q,
               attrs ni !! "x" = Some (ANum (Fin a))
               /\ attrs nj !! "x" = Some (ANum (Fin b))
               /\ attrs ni !! "width" = Some (ANum (Fin w))
               /\ attrs nj !! "width" = Some (ANum (Fin w))
               /\ (a + w <= b \/ b + w <= a)%Q).
Proof.
  intros Hd cw Hcw. exists (app_rendered dataSet this).
  split; [apply app_ngOnInit_ok; exact Hd|].
  intros i j di dj ni nj Hi Hj Hni Hnj.
  rewrite app_rendered_bars, map_fmap, list_lookup_fmap in Hni, Hnj.
  rewrite Hi in Hni. rewrite Hj in Hnj. cbn in Hni, Hnj.
  injection Hni as <-. injection Hnj as <-.
  rewrite !app_bar_x, !app_bar_width. change (x (sized this)) with (x this).
  split.
  - intros Hkey. rewrite (band_call_key _ _ _ Hkey). reflexivity.
  - intros Hkey.
    assert (Hini : di ∈ dataSet) by (apply list_elem_of_lookup; eauto).
    assert (Hinj : dj ∈ dataSet) by (apply list_elem_of_lookup; eauto).
    destruct (app_first_bar_positions this dataSet Hcw)
      as (s0 & z & Hbw & Hs0 & Hz & _ & Hpos).
    destruct (Hpos di Hini) as (p & c & Hp & Hkp & Hcall).
    destruct (Hpos dj Hinj) as (q & e & Hq & Hkq & Hcall').
    assert (Hpq : p <> q).
    { intros ->. rewrite Hp in Hq. injection Hq as ->. congruence. }
    exists (inject_Z s0 + inject_Z z * inject_Z (Z.of_nat p))%Q,
      (inject_Z s0 + inject_Z z * inject_Z (Z.of_nat q))%Q, (inject_Z z).
    rewrite Hcall, Hcall', Hbw.
    split; [reflexivity|]. split; [reflexivity|].
    split; [reflexivity|]. split; [reflexivity|].
    rewrite <- !inject_Z_mult, <- !inject_Z_plus, <- !Zle_Qle.
    destruct (Nat.lt_ge_cases p q); [left|right]; nia.
Qed.

(** Every distinct value is a value of the input. *)
Lemma distinct_sub (input : list value) (v : value) :
  v ∈ distinct input -> v ∈ input.
Proof.
  induction input as [|u rest IH]; intros Hv; [exact Hv|].
  cbn [distinct] in Hv. apply elem_of_cons in Hv as [->|Hv].
  - apply list_elem_of_here.
  - apply list_elem_of_further. apply IH.
    apply list_elem_of_filter in Hv as [_ Hv]. exact Hv.
Qed.

Lemma band_values_length (xs : D3.ScaleBand) :
  length (D3.band_values xs) = length (D3.band_domain xs).
Proof.
  unfold D3.band_values. destruct (D3.band_reverse xs).
  - rewrite length_rev, length_map, length_seq. reflexivity.
  - rewrite length_map, length_seq. reflexivity.
Qed.

(** A band scale whose index is that of its domain finds a band for a value
    exactly when the key of the value is a key of the domain. *)
Lemma band_call_defined (xs : D3.ScaleBand) (v : value) :
  indexed (D3.band_index xs) (D3.band_domain xs) ->
  (toString v ∈ toString <$> D3.band_domain xs ->
   exists a, D3.band_call xs v = Some a)
  /\ (toString v ∉ toString <$> D3.band_domain xs -> D3.band_call xs v = None).
Proof.
  intros (_ & Hpos & Hnone). unfold D3.band_call. split.
  - intros Hin. apply list_elem_of_fmap in Hin as (c & Hc & Hin).
    apply list_elem_of_lookup in Hin as (i & Hi).
    rewrite Hc, (Hpos i c Hi).
    assert (Hlt : (i < length (D3.band_domain xs))%nat)
      by (apply lookup_lt_is_Some; eauto).
    apply lookup_lt_is_Some. rewrite band_values_length.
    apply Nat.mod_upper_bound. lia.
  - intros Hout. rewrite (Hnone _ Hout). reflexivity.
Qed.

(** Property X20.  The band scale of a render knows exactly the categories
    of its data set.  Every record of the data set finds its band, so on a
    first render every bar gets an x attribute, whatever the width of the
    plotting area and even for a record without the X field (its category is
    "undefined"); a value whose string form is that of no X value of the
    data set finds no band: the scale returns undefined for it. *)
Theorem X20_band_lookup (this : Component) (dataSet : list record) :
  data this = Some dataSet ->
  exists first xs,
    App.ngOnInit this = Ok tt first
    /\ xScale first = Some xs
    /\ Forall2 (fun d n =>
                  exists a : number,
                    D3.band_call xs (get d (x this)) = Some a
                    /\ attrs n !! "x" = Some (ANum a))
               dataSet (bars first)
    /\ forall v : value,
         toString v ∉ toString <$> App.getData dataSet (x this) ->
         D3.band_call xs v = None.
Proof.
  intros Hd.
  exists (app_rendered dataSet this), (app_xScale (sized this) dataSet).
  split; [apply app_ngOnInit_ok; exact Hd|]. split; [reflexivity|].
  pose proof (app_xScale_indexed (sized this) dataSet) as Hinv.
  split.
  - rewrite app_rendered_bars.
    assert (Hall : forall d, d ∈ dataSet ->
              exists a, D3.band_call (app_xScale (sized this) dataSet)
                          (get d (x this)) = Some a).
    { intros d Hin.
      apply (proj1 (band_call_defined _ (get d (x this)) Hinv)).
      rewrite app_xScale_domain. change (x (sized this)) with (x this).
      apply distinct_covers. unfold App.getData. rewrite map_fmap.
      apply list_elem_of_fmap. exists d. split; [reflexivity|exact Hin]. }
    apply Forall2_map_r. intros d Hin. apply list_elem_of_In in Hin.
    destruct (Hall d Hin) as [a Ha]. exists a. split; [exact Ha|].
    rewrite app_bar_x. change (x (sized this)) with (x this). rewrite Ha.
    reflexivity.
  - intros v Hout.
    apply (proj2 (band_call_defined _ v Hinv)).
    rewrite app_xScale_domain. change (x (sized this)) with (x this).
    intros Hin. apply Hout. apply list_elem_of_fmap in Hin as (c & Hc & Hin).
    apply distinct_sub in Hin. apply list_elem_of_fmap. exists c.
    split; [exact Hc|exact Hin].
Qed.

End BarPlacement.

(** *** How high a first render makes the bars *)

Section BarHeights.
Context `{Coercions}.

(** The rounding scale from [0, m] onto [ch, 0], [m] not 0, at a number. *)
Lemma lin_call_number (ch m q : Q) :
  ~ (m == 0)%Q ->
  D3.lin_call (rounded (Fin 0, Fin m) (Fin ch, Fin 0)) (VNumber q)
  = Fin (inject_Z (Qfloor (ch - ch * (q / m) + (1 # 2)))).
Proof.
  intros Hm.
  unfold D3.lin_call, rounded, D3.bimap, D3.lin_domain, D3.lin_range, D3.lin_round,
    toNumber, lt.
  destruct (Qcompare m 0) eqn:E.
  - apply Qeq_alt in E. contradiction.
  - unfold D3.interpolateRound, D3.deinterpolateLinear, sub, lift2.
    assert (Ht : truthy (Fin (0 - m)) = true).
    { apply truthy_Fin. intros Hz. apply Hm. lra. }
    rewrite Ht. unfold truthy in Ht. apply negb_true_iff in Ht.
    unfold div. rewrite Ht. unfold mul, add, lift2, round.
    do 2 f_equal. apply Qfloor_comp. field.
    repeat split; intros Hz; apply Hm; lra.
  - unfold D3.interpolateRound, D3.deinterpolateLinear, sub, lift2.
    assert (Ht : truthy (Fin (m - 0)) = true).
    { apply truthy_Fin. intros Hz. apply Hm. lra. }
    rewrite Ht. unfold truthy in Ht. apply negb_true_iff in Ht.
    unfold div. rewrite Ht. unfold mul, add, lift2, round.
    do 2 f_equal. apply Qfloor_comp. field.
    repeat split; intros Hz; apply Hm; lra.
Qed.

Lemma map_eq_Forall2 {A B C : Type} (f : A -> C) (g : B -> C) (l : list A) :
  forall l' : list B,
    map f l = map g l' -> Forall2 (fun b a => f a = g b) l' l.
Proof.
  induction l as [|a l IH]; intros [|b l'] E; try discriminate; [constructor|].
  cbn [map] in E. injection E as E1 E2. constructor; [exact E1|apply IH; exact E2].
Qed.

Lemma Forall2_map_r2 {A B C : Type} (P : A -> C -> Prop) (f : B -> C)
    (l : list A) (l' : list B) :
  Forall2 (fun a b => P a (f b)) l l' -> Forall2 P l (map f l').
Proof. induction 1; constructor; assumption. Qed.

Lemma is_maximum_positive (m : Q) (qs : list Q) :
  is_maximum m qs -> Exists (fun q => 0 < q)%Q qs -> (0 < m)%Q.
Proof.
  intros [_ Hle] Hex. apply List.Exists_exists in Hex as (q & Hin & Hq).
  rewrite List.Forall_forall in Hle. specialize (Hle q Hin). lra.
Qed.

(** The linear scale of a first render on a series of numbers with a
    positive entry. *)
Lemma app_yScale_numbers (this : Component) (dataSet : list record) (qs : list Q) :
  App.getData dataSet (y this) = map VNumber qs ->
  Exists (fun q => 0 < q)%Q qs ->
  exists m : Q,
    is_maximum m qs /\ (0 < m)%Q
    /\ app_yScale (sized this) dataSet
       = rounded (Fin 0, Fin m)
           (Fin (height this - top (margins this) - bottom (margins this)), Fin 0).
Proof.
  intros Hqs Hex.
  assert (Hne : qs <> []) by (intros ->; inversion Hex).
  destruct (max_numbers qs Hne) as (m & Hm & Hmax).
  exists m. split; [exact Hmax|]. split; [eapply is_maximum_positive; eassumption|].
  rewrite app_yScale_eq. change (y (sized this)) with (y this).
  rewrite Hqs, Hm. reflexivity.
Qed.

(** Property X6.  On a first render of a series of numbers with a positive
    entry, in a plotting area whose height is a whole number that is not
    negative, every bar is animated to a y and a height that add up to
    chartHeight; the bar of a value that is not negative ends inside the
    plotting area, the bar of a negative value ends with its top edge at or
    below the bottom of the area and a height that is not positive. *)
Theorem X6_bars_inside_plot_height (this : Component) (dataSet : list record)
    (qs : list Q) (z : Z) :
  data this = Some dataSet ->
  App.getData dataSet (y this) = map VNumber qs ->
  Exists (fun q => 0 < q)%Q qs ->
  let ch := (height this - top (margins this) - bottom (margins this))%Q in
  (ch == inject_Z z)%Q ->
  (0 <= z)%Z ->
  exists this',
    App.ngOnInit this = Ok tt this'
    /\ Forall2 (fun q n =>
                  exists yy hh : Q,
                    animates n easeLinear 880 (Fin yy) (Fin hh)
                    /\ (yy + hh == ch)%Q
                    /\ ((0 <= q)%Q ->
                        (0 <= yy)%Q /\ (yy <= ch)%Q /\ (0 <= hh)%Q /\ (hh <= ch)%Q)
                    /\ ((q < 0)%Q -> (ch <= yy)%Q /\ (hh <= 0)%Q))
               qs (bars this').
Proof.
  intros Hd Hqs Hex ch Hch Hz. exists (app_rendered dataSet this).
  split; [apply app_ngOnInit_ok; exact Hd|]. rewrite app_rendered_bars.
  destruct (app_yScale_numbers this dataSet qs Hqs Hex) as (m & Hmax & Hm & Hys).
  rewrite Hys. fold ch.
  apply Forall2_map_r2.
  pose proof (map_eq_Forall2 _ _ dataSet qs Hqs) as Hval.
  assert (Hle : Forall (fun q => q <= m)%Q qs) by exact (proj2 Hmax).
  clear Hqs Hex Hys Hmax Hd.
  generalize (app_xScale (sized this) dataSet) as xs. intros xs.
  induction Hval as [|q d qs' ds Hq _ IH]; [constructor|].
  inversion Hle as [|? ? Hqm Hle']; subst.
  constructor; [|apply IH; exact Hle'].
  set (Y := Qfloor (ch - ch * (q / m) + (1 # 2))).
  exists (inject_Z Y), (ch - inject_Z Y)%Q.
  assert (Hchz : (0 <= ch)%Q).
  { rewrite Hch. change 0%Q with (inject_Z 0). rewrite <- Zle_Qle. exact Hz. }
  split; [|split; [ring|split]].
  - pose proof (app_bar_animates (sized this) xs
                  (rounded (Fin 0, Fin m) (Fin ch, Fin 0)) d) as Han.
    change (y (sized this)) with (y this) in Han. rewrite Hq in Han.
    rewrite lin_call_number in Han by lra.
    exact Han.
  - intros Hq0.
    assert (Ht0 : (0 <= q / m)%Q) by (apply Qle_shift_div_l; lra).
    assert (Ht1 : (q / m <= 1)%Q) by (apply Qle_shift_div_r; lra).
    assert (Hv0 : (0 <= ch * (q / m))%Q) by (apply Qmult_le_0_compat; assumption).
    assert (Hv1 : (ch * (q / m) <= ch)%Q) by nra.
    assert (HY0 : (0 <= Y)%Z).
    { change 0%Z with (Qfloor 0). apply Qfloor_resp_le. lra. }
    assert (HY1 : (Y <= z)%Z).
    { rewrite <- (Qfloor_half z). apply Qfloor_resp_le. lra. }
    rewrite Zle_Qle in HY0, HY1. change (inject_Z 0) with 0%Q in HY0.
    rewrite <- Hch in HY1. repeat split; lra.
  - intros Hq0.
    assert (Ht0 : (q / m <= 0)%Q) by (apply Qle_shift_div_r; lra).
    assert (Hv0 : (ch * (q / m) <= 0)%Q) by nra.
    assert (HY1 : (z <= Y)%Z).
    { rewrite <- (Qfloor_half z). apply Qfloor_resp_le. lra. }
    rewrite Zle_Qle in HY1. rewrite <- Hch in HY1. split; lra.
Qed.

(** Property X7.  On a first render of a series of numbers with a positive
    entry, in a plotting area whose height is not negative, a larger value
    never gets a shorter bar: the heights the bars are animated to are in the
    order of the values, and so are their top edges, the higher the larger. *)
Theorem X7_bar_heights_follow_values (this : Component) (dataSet : list record)
    (qs : list Q) :
  data this = Some dataSet ->
  App.getData dataSet (y this) = map VNumber qs ->
  Exists (fun q => 0 < q)%Q qs ->
  (0 <= height this - top (margins this) - bottom (margins this))%Q ->
  exists this',
    App.ngOnInit this = Ok tt this'
    /\ forall (i j : nat) (qi qj : Q) (ni nj : Node),
         qs !! i = Some qi -> qs !! j = Some qj ->
         bars this' !! i = Some ni -> bars this' !! j = Some nj ->
         (qi <= qj)%Q ->
         exists yi hi yj hj : Q,
           animates ni easeLinear 880 (Fin yi) (Fin hi)
           /\ animates nj easeLinear 880 (Fin yj) (Fin hj)
           /\ (hi <= hj)%Q /\ (yj <= yi)%Q.
Proof.
  intros Hd Hqs Hex Hch. exists (app_rendered dataSet this).
  split; [apply app_ngOnInit_ok; exact Hd|]. rewrite app_rendered_bars.
  destruct (app_yScale_numbers this dataSet qs Hqs Hex) as (m & Hmax & Hm & Hys).
  rewrite Hys.
  set (ch := (height this - top (margins this) - bottom (margins this))%Q) in *.
  pose proof (map_eq_Forall2 _ _ dataSet qs Hqs) as Hval.
  intros i j qi qj ni nj Hi Hj Hni Hnj Hij.
  rewrite map_fmap, list_lookup_fmap in Hni, Hnj.
  destruct (dataSet !! i) as [di|] eqn:Hdi; [|discriminate].
  destruct (dataSet !! j) as [dj|] eqn:Hdj; [|discriminate].
  cbn in Hni, Hnj. injection Hni as <-. injection Hnj as <-.
  assert (Hqi : get di (y this) = VNumber qi).
  { exact (Forall2_lookup_lr _ _ _ _ _ _ Hval Hi Hdi). }
  assert (Hqj : get dj (y this) = VNumber qj).
  { exact (Forall2_lookup_lr _ _ _ _ _ _ Hval Hj Hdj). }
  set (Yi := Qfloor (ch - ch * (qi / m) + (1 # 2))).
  set (Yj := Qfloor (ch - ch * (qj / m) + (1 # 2))).
  exists (inject_Z Yi), (ch - inject_Z Yi)%Q, (inject_Z Yj), (ch - inject_Z Yj)%Q.
  assert (HY : (Yj <= Yi)%Z).
  { apply Qfloor_resp_le.
    assert (Ht : (qi / m <= qj / m)%Q).
    { unfold Qdiv. apply Qmult_le_compat_r; [exact Hij|].
      apply Qlt_le_weak, Qinv_lt_0_compat. exact Hm. }
    nra. }
  rewrite Zle_Qle in HY.
  split; [|split; [|split; lra]].
  - pose proof (app_bar_animates (sized this) (app_xScale (sized this) dataSet)
                  (rounded (Fin 0, Fin m) (Fin ch, Fin 0)) di) as Han.
    change (y (sized this)) with (y this) in Han. rewrite Hqi in Han.
    rewrite lin_call_number in Han by lra. exact Han.
  - pose proof (app_bar_animates (sized this) (app_xScale (sized this) dataSet)
                  (rounded (Fin 0, Fin m) (Fin ch, Fin 0)) dj) as Han.
    change (y (sized this)) with (y this) in Han. rewrite Hqj in Han.
    rewrite lin_call_number in Han by lra. exact Han.
Qed.

(** When its domain is [0, 0] the rounding scale onto [ch, 0] sends
    everything to [ch] rounded. *)
Lemma lin_call_flat (ch m : Q) (v : value) :
  (m == 0)%Q ->
  D3.lin_call (rounded (Fin 0, Fin m) (Fin ch, Fin 0)) v = round (Fin ch).
Proof.
  intros Hm.
  unfold D3.lin_call, rounded, D3.bimap, D3.lin_domain, D3.lin_range, D3.lin_round, lt.
  assert (E : Qcompare m 0 = Eq) by (apply Qeq_alt; exact Hm).
  rewrite E.
  unfold D3.interpolateRound, D3.deinterpolateLinear, sub, lift2.
  assert (Ht : truthy (Fin (m - 0)) = false).
  { destruct (truthy (Fin (m - 0))) eqn:Ht; [|reflexivity].
    apply truthy_Fin in Ht. exfalso. apply Ht. lra. }
  rewrite Ht. unfold mul, add, lift2. apply round_same. rewrite Hm. ring.
Qed.

Lemma is_maximum_unique (m m' : Q) (qs : list Q) :
  is_maximum m qs -> is_maximum m' qs -> (m == m')%Q.
Proof.
  intros [Hin Hle] [Hin' Hle']. rewrite List.Forall_forall in Hle, Hle'.
  specialize (Hle m' Hin'). specialize (Hle' m Hin). lra.
Qed.

(** The linear scale of a first render on a series of numbers whose largest
    entry is [m]. *)
Lemma app_yScale_maximum (this : Component) (dataSet : list record) (qs : list Q)
    (m : Q) :
  App.getData dataSet (y this) = map VNumber qs ->
  is_maximum m qs ->
  exists m' : Q,
    (m' == m)%Q
    /\ Forall (fun q => q <= m')%Q qs
    /\ app_yScale (sized this) dataSet
       = rounded (Fin 0, Fin m')
           (Fin (height this - top (margins this) - bottom (margins this)), Fin 0).
Proof.
  intros Hqs Hmax.
  assert (Hne : qs <> []) by (intros ->; destruct Hmax as [[] _]).
  destruct (max_numbers qs Hne) as (m' & Hm' & Hmax').
  exists m'. split; [exact (is_maximum_unique m' m qs Hmax' Hmax)|].
  split; [exact (proj2 Hmax')|].
  rewrite app_yScale_eq. change (y (sized this)) with (y this).
  rewrite Hqs, Hm'. reflexivity.
Qed.

(** Property X8.  On a first render of a series of numbers whose largest
    value is negative, in a plotting area whose height is not negative,
    every bar is animated to a top edge at or above the top of the area and
    to a height of chartHeight or more: the bars fill the area or overflow
    it upward. *)
Theorem X8_bars_under_negative_maximum (this : Component) (dataSet : list record)
    (qs : list Q) (m : Q) :
  data this = Some dataSet ->
  App.getData dataSet (y this) = map VNumber qs ->
  is_maximum m qs ->
  (m < 0)%Q ->
  let ch := (height this - top (margins this) - bottom (margins this))%Q in
  (0 <= ch)%Q ->
  exists this',
    App.ngOnInit this = Ok tt this'
    /\ Forall2 (fun q n =>
                  exists yy hh : Q,
                    animates n easeLinear 880 (Fin yy) (Fin hh)
                    /\ (yy <= 0)%Q /\ (ch <= hh)%Q)
               qs (bars this').
Proof.
  intros Hd Hqs Hmax Hneg ch Hch.
  exists (app_rendered dataSet this).
  split; [apply app_ngOnInit_ok; exact Hd|]. rewrite app_rendered_bars.
  destruct (app_yScale_maximum this dataSet qs m Hqs Hmax) as (m' & Hm' & Hle & Hys).
  rewrite Hys. fold ch. apply Forall2_map_r2.
  pose proof (map_eq_Forall2 _ _ dataSet qs Hqs) as Hval.
  assert (Hneg' : (m' < 0)%Q) by lra.
  clear Hqs Hys Hmax Hd Hm' Hneg.
  generalize (app_xScale (sized this) dataSet) as xs. intros xs.
  induction Hval as [|q d qs' ds Hq _ IH]; [constructor|].
  inversion Hle as [|? ? Hqm Hle']; subst.
  constructor; [|apply IH; exact Hle'].
  pose proof (app_bar_animates (sized this) xs
                (rounded (Fin 0, Fin m') (Fin ch, Fin 0)) d) as Han.
  change (y (sized this)) with (y this) in Han. rewrite Hq in Han.
  assert (Hm0 : ~ (m' == 0)%Q) by lra.
  rewrite lin_call_number in Han by exact Hm0.
  set (Y := Qfloor (ch - ch * (q / m') + (1 # 2))) in *.
  exists (inject_Z Y), (ch - inject_Z Y)%Q. split; [exact Han|].
  assert (Ht : (1 <= q / m')%Q).
  { assert (Hq' : (q / m' * m' == q)%Q) by (field; exact Hm0).
    destruct (Qlt_le_dec (q / m') 1) as [Hc|Hc]; [|exact Hc].
    exfalso. nra. }
  assert (Hv : (ch <= ch * (q / m'))%Q) by nra.
  assert (HY : (Y <= 0)%Z).
  { change 0%Z with (Qfloor (1 # 2)). apply Qfloor_resp_le. lra. }
  rewrite Zle_Qle in HY. change (inject_Z 0) with 0%Q in HY. split; lra.
Qed.

(** Property X21.  On a first render of a series of numbers whose largest
    value is 0, in a plotting area whose height is a whole number, every
    bar, whatever its value, is animated to y = chartHeight and height = 0:
    the bars stay flat on the bottom of the area. *)
Theorem X21_bars_under_zero_maximum (this : Component) (dataSet : list record)
    (qs : list Q) (m : Q) (z : Z) :
  data this = Some dataSet ->
  App.getData dataSet (y this) = map VNumber qs ->
  is_maximum m qs ->
  (m == 0)%Q ->
  let ch := (height this - top (margins this) - bottom (margins this))%Q in
  (ch == inject_Z z)%Q ->
  exists this',
    App.ngOnInit this = Ok tt this'
    /\ Forall2 (fun q n =>
                  exists yy hh : Q,
                    animates n easeLinear 880 (Fin yy) (Fin hh)
                    /\ (yy == ch)%Q /\ (hh == 0)%Q)
               qs (bars this').
Proof.
  intros Hd Hqs Hmax Hzero ch Hch.
  exists (app_rendered dataSet this).
  split; [apply app_ngOnInit_ok; exact Hd|]. rewrite app_rendered_bars.
  destruct (app_yScale_maximum this dataSet qs m Hqs Hmax) as (m' & Hm' & _ & Hys).
  rewrite Hys. fold ch. apply Forall2_map_r2.
  pose proof (map_eq_Forall2 _ _ dataSet qs Hqs) as Hval.
  assert (Hzero' : (m' == 0)%Q) by lra.
  clear Hqs Hys Hmax Hd Hm' Hzero.
  generalize (app_xScale (sized this) dataSet) as xs. intros xs.
  induction Hval as [|q d qs' ds Hq _ IH]; [constructor|].
  constructor; [|exact IH].
  pose proof (app_bar_animates (sized this) xs
                (rounded (Fin 0, Fin m') (Fin ch, Fin 0)) d) as Han.
  change (y (sized this)) with (y this) in Han.
  rewrite (lin_call_flat ch m' _ Hzero'), (round_whole ch z Hch) in Han.
  exists (inject_Z z), (ch - inject_Z z)%Q.
  split; [exact Han|]. split; lra.
Qed.

(** [d3.max] passes over the entries that are undefined. *)
Lemma max_rest_defined (array : list value) :
  forall a : value,
    D3.max_rest a array = D3.max_rest a (List.filter notNull array).
Proof.
  induction array as [|b rest IH]; intros a; [reflexivity|].
  cbn [D3.max_rest List.filter]. destruct (notNull b) eqn:E.
  - cbn [D3.max_rest andb]. rewrite E. cbn [andb]. apply IH.
  - cbn [andb]. apply IH.
Qed.

Lemma max_defined (array : list value) :
  D3.max array = D3.max (List.filter notNull array).
Proof.
  induction array as [|b rest IH]; [reflexivity|].
  cbn [D3.max List.filter]. destruct (notNull b) eqn:E.
  - cbn [D3.max andb]. rewrite E. cbn [andb].
    destruct (geq b b); [apply max_rest_defined|exact IH].
  - cbn [andb]. exact IH.
Qed.

Lemma getData_having (key : string) (dataSet : list record) :
  App.getData (having key dataSet) key = List.filter notNull (App.getData dataSet key).
Proof.
  unfold App.getData, having.
  induction dataSet as [|d rest IH]; [reflexivity|].
  cbn [List.filter map]. destruct (notNull (get d key)); cbn [map]; rewrite IH;
    reflexivity.
Qed.

(** A scale whose domain ends at a number other than 0 sends undefined to
    NaN. *)
Lemma lin_call_undefined (m : Q) (r0 r1 : number) :
  ~ (m == 0)%Q ->
  D3.lin_call (rounded (Fin 0, Fin m) (r0, r1)) VUndefined = NaN.
Proof.
  intros Hm.
  unfold D3.lin_call, rounded, D3.bimap, D3.lin_domain, D3.lin_range, D3.lin_round,
    toNumber, lt.
  destruct (Qcompare m 0) eqn:E.
  - apply Qeq_alt in E. contradiction.
  - unfold D3.interpolateRound, D3.deinterpolateLinear, sub, lift2.
    assert (Ht : truthy (Fin (0 - m)) = true).
    { apply truthy_Fin. intros Hz. apply Hm. lra. }
    rewrite Ht. cbn [div mul add lift2 round]. destruct r0, r1; reflexivity.
  - unfold D3.interpolateRound, D3.deinterpolateLinear, sub, lift2.
    assert (Ht : truthy (Fin (m - 0)) = true).
    { apply truthy_Fin. intros Hz. apply Hm. lra. }
    rewrite Ht. cbn [div mul add lift2 round]. destruct r0, r1; reflexivity.
Qed.

(** Property X9.  A record without the Y field does not disturb the linear
    scale: a first render builds the scale it builds for the records that have
    the field.  The record still gets its bar; when the maximum is a number
    other than 0, that bar is animated to y = NaN and height = NaN. *)
Theorem X9_record_without_y (this : Component) (dataSet : list record) :
  data this = Some dataSet ->
  exists first only ys,
    App.ngOnInit this = Ok tt first
    /\ App.ngOnInit (set_data (Some (having (y this) dataSet)) this) = Ok tt only
    /\ yScale first = Some ys
    /\ yScale only = Some ys
    /\ length (bars first) = length dataSet
    /\ forall m : Q,
         D3.max (App.getData dataSet (y this)) = VNumber m ->
         ~ (m == 0)%Q ->
         Forall2 (fun d n =>
                    get d (y this) = VUndefined ->
                    animates n easeLinear 880 NaN NaN)
                 dataSet (bars first).
Proof.
  intros Hd.
  exists (app_rendered dataSet this),
    (app_rendered (having (y this) dataSet)
       (set_data (Some (having (y this) dataSet)) this)),
    (app_yScale (sized this) dataSet).
  split; [apply app_ngOnInit_ok; exact Hd|].
  split; [apply app_ngOnInit_ok; reflexivity|].
  split; [reflexivity|]. split.
  - unfold app_rendered. cbn [yScale set_chart set_yScale]. f_equal.
    rewrite !app_yScale_eq.
    change (y (sized (set_data _ this))) with (y this).
    change (y (sized this)) with (y this).
    rewrite getData_having, <- max_defined. reflexivity.
  - rewrite app_rendered_bars. split; [apply length_map|].
    intros m Hmax Hm. apply Forall2_map_r. intros d _ Hy.
    pose proof (app_bar_animates (sized this) (app_xScale (sized this) dataSet)
                  (app_yScale (sized this) dataSet) d) as Han.
    rewrite app_yScale_eq in Han. change (y (sized this)) with (y this) in Han.
    rewrite Hmax, Hy in Han. cbn [toNumber] in Han.
    rewrite lin_call_undefined in Han by exact Hm.
    rewrite app_yScale_eq. change (y (sized this)) with (y this). rewrite Hmax.
    exact Han.
Qed.

End BarHeights.

(** *** Sequences of hooks *)

Section HookSequences.
Context `{Coercions}.

Lemma data_join_nil (cls : string) (children : list Node) :
  data_join cls [] children = (children, []).
Proof.
  induction children as [|n rest IH]; [reflexivity|].
  cbn [data_join]. destruct (has_class cls n); [reflexivity|].
  rewrite IH. reflexivity.
Qed.

Lemma set_datum_same (d : record) (n : Node) :
  datum n = Some d -> set_datum (Some d) n = n.
Proof. destruct n. cbn. intros ->. reflexivity. Qed.

(** The join of a data set with the bars made for it, record by record,
    changes nothing and leaves nothing to enter. *)
Lemma data_join_same (cls : string) (f : record -> Node) (post : list Node) :
  (forall d, has_class cls (f d) = true /\ datum (f d) = Some d) ->
  forall dataSet : list record,
    data_join cls dataSet (map f dataSet ++ post) = (map f dataSet ++ post, []).
Proof.
  intros Hf. induction dataSet as [|d rest IH].
  - apply data_join_nil.
  - cbn [map app data_join]. destruct (Hf d) as [Hc Hd]. rewrite Hc, IH.
    rewrite (set_datum_same d _ Hd). reflexivity.
Qed.

Lemma data_join_prefix (cls : string) (pre : list Node) :
  Forall (fun n => has_class cls n = false) pre ->
  forall (dataSet : list record) (l : list Node),
    data_join cls dataSet (pre ++ l) =
    (pre ++ fst (data_join cls dataSet l), snd (data_join cls dataSet l)).
Proof.
  induction 1 as [|n pre Hn _ IH]; intros dataSet l.
  - cbn [app]. destruct (data_join cls dataSet l). reflexivity.
  - cbn [app data_join]. rewrite Hn, IH. reflexivity.
Qed.

Lemma concat_replicate_comm {A : Type} (l : list A) (j : nat) :
  concat (replicate j l) ++ l = l ++ concat (replicate j l).
Proof.
  induction j as [|j IH]; cbn [replicate concat].
  - rewrite app_nil_r. reflexivity.
  - rewrite <- app_assoc, IH. reflexivity.
Qed.

(** The sizes, the scales and the axis nodes computed from a component
    depend on its inputs only. *)
Lemma app_rendered_again (this : Component) (dataSet : list record)
    (nodes : option (list Node)) :
  let s := sized this in
  let again := sized (set_chart nodes (app_rendered dataSet this)) in
  app_xScale again dataSet = app_xScale s dataSet
  /\ app_yScale again dataSet = app_yScale s dataSet
  /\ (forall xs ys, axes again xs ys = axes s xs ys)
  /\ (forall xs ys d, app_bar again xs ys d = app_bar s xs ys d)
  /\ again = set_chart nodes (app_rendered dataSet this).
Proof.
  intros s again. repeat split.
Qed.

(** Drawing the same data again assigns the series and the scales the
    values they have. *)
Lemma app_rendered_refresh (this : Component) (dataSet : list record)
    (old new : option (list Node)) :
  set_chart new
    (set_yScale (Some (app_yScale (sized this) dataSet))
       (set_xScale (Some (app_xScale (sized this) dataSet))
          (set_yData
             (Some (App.getData dataSet
                      (y (set_chart old (app_rendered dataSet this)))))
             (set_xData
                (Some (App.getData dataSet
                         (x (set_chart old (app_rendered dataSet this)))))
                (set_chart old (app_rendered dataSet this))))))
  = set_chart new (app_rendered dataSet this).
Proof. unfold app_rendered. destruct this. fields. reflexivity. Qed.

(** The chart of the app component after a first render followed by [k]
    change notifications with nothing changed. *)
Lemma app_notified_ok (this : Component) (dataSet : list record) (k : nat) :
  data this = Some dataSet ->
  let s := sized this in
  let xs := app_xScale s dataSet in
  let ys := app_yScale s dataSet in
  forall j : nat,
    repeated k App.ngOnChanges
      (set_chart (Some (axes s xs ys ++ map (app_bar s xs ys) dataSet
                        ++ concat (replicate j (axes s xs ys))))
                 (app_rendered dataSet this))
    = Ok tt
        (set_chart (Some (axes s xs ys ++ map (app_bar s xs ys) dataSet
                          ++ concat (replicate (j + k) (axes s xs ys))))
                   (app_rendered dataSet this)).
Proof.
  intros Hd s xs ys. induction k as [|k IH]; intros j.
  - rewrite Nat.add_0_r. reflexivity.
  - cbn [repeated]. unfold bind at 1. rewrite app_ngOnChanges_ok.
    cbn [chart set_chart].
    replace (data (set_chart _ (app_rendered dataSet this))) with (Some dataSet)
      by (symmetry; exact Hd).
    replace (j + S k)%nat with (S j + k)%nat by lia.
    rewrite <- (IH (S j)). f_equal.
    set (nodes := axes s xs ys ++ map (app_bar s xs ys) dataSet
                  ++ concat (replicate j (axes s xs ys))).
    destruct (app_rendered_again this dataSet (Some nodes))
      as (Exs & Eys & Eaxes & _ & Es).
    unfold app_drawn. rewrite Exs, Eys, Eaxes. fold s xs ys.
    unfold nodes at 1. rewrite <- !app_assoc.
    rewrite (data_join_prefix "bar" _ (axes_no_bar s xs ys)).
    rewrite (data_join_same "bar" (app_bar s xs ys)).
    2:{ intros d. split; [apply app_bar_class|apply app_bar_shape]. }
    cbn [fst snd]. rewrite Es.
    unfold App.enter_bars, enter_append, attr_const, attr_fn, transition, t_ease,
      t_duration, t_attr_fn. cbn [map]. rewrite app_nil_r.
    rewrite concat_replicate_comm.
    cbn [replicate concat]. fold s xs ys. apply app_rendered_refresh.
Qed.

Lemma filter_rect_axes_copies (this : Component) (xs : D3.ScaleBand)
    (ys : D3.ScaleLinear) (k : nat) :
  List.filter is_rect (concat (replicate k (axes this xs ys))) = []
  /\ length (concat (replicate k (axes this xs ys))) = (4 * k)%nat.
Proof.
  induction k as [|k [IHf IHl]]; [split; reflexivity|].
  cbn [replicate concat]. rewrite List.filter_app, length_app, IHf, IHl, axes_no_rect.
  split; [reflexivity|]. change (length (axes this xs ys)) with 4%nat. lia.
Qed.

(** Property X10.  A change notification with nothing changed is not a no-op
    for the app component: after a first render, each notification appends the
    four axis nodes once more and leaves everything else, the bars included,
    as it is. *)
Theorem X10_notifications_pile_up_axes (this : Component) (dataSet : list record)
    (k : nat) :
  data this = Some dataSet ->
  exists first last xs ys nodes,
    App.ngOnInit this = Ok tt first
    /\ bind App.ngOnInit (fun _ => repeated k App.ngOnChanges) this = Ok tt last
    /\ xScale first = Some xs /\ yScale first = Some ys
    /\ chart first = Some nodes
    /\ last = set_chart (Some (nodes ++ concat (replicate k (axes first xs ys)))) first
    /\ length (concat (replicate k (axes first xs ys))) = (4 * k)%nat
    /\ bars last = bars first
    /\ length (bars last) = length dataSet.
Proof.
  intros Hd.
  set (s := sized this). set (xs := app_xScale s dataSet).
  set (ys := app_yScale s dataSet).
  exists (app_rendered dataSet this),
    (set_chart (Some (axes s xs ys ++ map (app_bar s xs ys) dataSet
                      ++ concat (replicate (0 + k) (axes s xs ys))))
               (app_rendered dataSet this)),
    xs, ys, (axes s xs ys ++ map (app_bar s xs ys) dataSet).
  split; [apply app_ngOnInit_ok; exact Hd|]. split.
  - unfold bind. rewrite (app_ngOnInit_ok this dataSet Hd).
    pose proof (app_notified_ok this dataSet k Hd 0%nat) as Hn.
    cbv zeta in Hn. fold s in Hn. fold xs in Hn. fold ys in Hn.
    rewrite <- Hn. f_equal.
    cbn [replicate concat]. rewrite app_nil_r.
    unfold app_rendered. fold s xs ys. rewrite set_chart_twice. reflexivity.
  - split; [reflexivity|]. split; [reflexivity|]. split; [reflexivity|].
    change (axes (app_rendered dataSet this) xs ys) with (axes s xs ys).
    split; [rewrite <- app_assoc; reflexivity|].
    split; [apply filter_rect_axes_copies|].
    rewrite app_rendered_bars. fold s xs ys.
    unfold bars. cbn [chart set_chart].
    rewrite !List.filter_app, axes_no_rect, filter_rect_app_bars.
    rewrite (proj1 (filter_rect_axes_copies s xs ys (0 + k))).
    cbn [app]. rewrite app_nil_r. split; [reflexivity|apply length_map].
Qed.

Lemma app_rendered_sized (this : Component) (dataSet : list record) :
  app_rendered dataSet (sized this) = app_rendered dataSet this.
Proof. unfold app_rendered. destruct this. fields. reflexivity. Qed.

Lemma lib_rendered_labelled (this : Component) (dataSet : list record) :
  lib_rendered dataSet (labelled this) = lib_rendered dataSet this.
Proof. unfold lib_rendered, labelled. destruct this. fields. reflexivity. Qed.

Lemma labelled_twice (this : Component) : labelled (labelled this) = labelled this.
Proof. unfold labelled. destruct this. fields. reflexivity. Qed.

Lemma legacy_rendered_sized (this : Component) (dataSet : list record) :
  legacy_rendered dataSet (sized this) = legacy_rendered dataSet this.
Proof. unfold legacy_rendered. destruct this. fields. reflexivity. Qed.

(** Property X11.  The host notifies a new component of its inputs before it
    initialises it.  That first notification, with no chart made yet, draws
    nothing, data or no data: it only computes the sizes.  The initial render
    that follows ends as the initial render alone does. *)
Theorem X11_notification_before_first_render (this : Component)
    (dataSet : list record) :
  chart this = None ->
  data this = Some dataSet ->
  (exists mid,
     App.ngOnChanges this = Ok tt mid
     /\ chart mid = None /\ xScale mid = xScale this /\ yScale mid = yScale this
     /\ App.ngOnInit mid = App.ngOnInit this)
  /\ (exists mid,
        Lib.ngOnChanges this = Ok tt mid
        /\ chart mid = None /\ xScale mid = xScale this /\ yScale mid = yScale this
        /\ Lib.ngOnInit mid = Lib.ngOnInit this)
  /\ (exists mid,
        Legacy.ngOnChanges this = Ok tt mid
        /\ chart mid = None /\ xScale mid = xScale this /\ yScale mid = yScale this
        /\ Legacy.ngOnInit mid = Legacy.ngOnInit this).
Proof.
  intros Hc Hd. split; [|split].
  - exists (sized this). split; [rewrite app_ngOnChanges_ok, Hc; reflexivity|].
    split; [exact Hc|]. split; [reflexivity|]. split; [reflexivity|].
    rewrite (app_ngOnInit_ok (sized this) dataSet Hd),
      (app_ngOnInit_ok this dataSet Hd), app_rendered_sized. reflexivity.
  - exists (labelled this). split; [rewrite lib_ngOnChanges_eq, Hc; reflexivity|].
    split; [exact Hc|]. split; [reflexivity|]. split; [reflexivity|].
    rewrite (lib_ngOnInit_eq (labelled this) dataSet Hd),
      (lib_ngOnInit_eq this dataSet Hd), labelled_twice. reflexivity.
  - exists (sized this). split; [reflexivity|].
    split; [exact Hc|]. split; [reflexivity|]. split; [reflexivity|].
    rewrite (legacy_ngOnInit_ok (sized this) dataSet Hd),
      (legacy_ngOnInit_ok this dataSet Hd), legacy_rendered_sized. reflexivity.
Qed.

Lemma app_drawn_inputs (dataSet : list record) (children : list Node)
    (this : Component) :
  inputs (app_drawn dataSet children this) = inputs this.
Proof.
  unfold app_drawn. destruct (data_join _ _ _) as [children' entering]. reflexivity.
Qed.

Lemma lib_drawn_inputs (dataSet : list record) (children : list Node)
    (this : Component) :
  inputs (lib_drawn dataSet children this) = inputs this.
Proof.
  unfold lib_drawn. destruct (data_join _ _ _) as [children' entering]. reflexivity.
Qed.

Lemma app_hooks_inputs (this : Component) :
  inputs (final (App.ngOnInit this)) = inputs this
  /\ inputs (final (App.ngOnChanges this)) = inputs this.
Proof.
  split.
  - destruct (data this) as [dataSet|] eqn:Hd.
    + rewrite (app_ngOnInit_ok this dataSet Hd). reflexivity.
    + unfold App.ngOnInit, bind, this_. rewrite Hd. reflexivity.
  - rewrite app_ngOnChanges_ok. cbn [final].
    destruct (chart this); [|reflexivity].
    destruct (data this); [|reflexivity]. rewrite app_drawn_inputs. reflexivity.
Qed.

Lemma lib_draws_inputs (dataSet : list record) (children : list Node)
    (this : Component) :
  inputs (final (lib_draws dataSet children this)) = inputs this.
Proof.
  unfold lib_draws.
  destruct (D3.max (DataService.getData dataSet (y this)));
    [reflexivity|apply lib_drawn_inputs|apply lib_drawn_inputs].
Qed.

Lemma lib_hooks_inputs (this : Component) :
  inputs (final (Lib.ngOnInit this)) = inputs this
  /\ inputs (final (Lib.ngOnChanges this)) = inputs this.
Proof.
  split.
  - destruct (data this) as [dataSet|] eqn:Hd.
    + rewrite (lib_ngOnInit_eq this dataSet Hd), lib_draws_inputs. reflexivity.
    + unfold Lib.ngOnInit, bind, this_. rewrite Hd. reflexivity.
  - rewrite lib_ngOnChanges_eq.
    destruct (chart this); [|reflexivity].
    destruct (data this); [|reflexivity]. rewrite lib_draws_inputs. reflexivity.
Qed.

Lemma legacy_hooks_inputs (this : Component) :
  inputs (final (Legacy.ngOnInit this)) = inputs this
  /\ inputs (final (Legacy.ngOnChanges this)) = inputs this.
Proof.
  split; [|reflexivity].
  destruct (data this) as [dataSet|] eqn:Hd.
  - rewrite (legacy_ngOnInit_ok this dataSet Hd). reflexivity.
  - unfold Legacy.ngOnInit, bind, this_. rewrite Hd. reflexivity.
Qed.

(** Property X12.  No hook assigns an input: whether it returns or throws, the
    width, the height, the margins, the data set and the two field names are
    what they were. *)
Theorem X12_hooks_keep_inputs (this : Component) :
  inputs (final (App.ngOnInit this)) = inputs this
  /\ inputs (final (App.ngOnChanges this)) = inputs this
  /\ inputs (final (Lib.ngOnInit this)) = inputs this
  /\ inputs (final (Lib.ngOnChanges this)) = inputs this
  /\ inputs (final (Legacy.ngOnInit this)) = inputs this
  /\ inputs (final (Legacy.ngOnChanges this)) = inputs this.
Proof.
  destruct (app_hooks_inputs this) as [Ha Hb].
  destruct (lib_hooks_inputs this) as [Hc Hd].
  destruct (legacy_hooks_inputs this) as [He Hf].
  repeat split; assumption.
Qed.

(** The join of a data set with a list of bars: bar and record are paired by
    position; the bars beyond the data stay as they are, the records beyond
    the bars enter. *)
Lemma data_join_all (cls : string) (nodes : list Node) :
  Forall (fun n => has_class cls n = true) nodes ->
  forall dataSet : list record,
    data_join cls dataSet nodes
    = (zip_with (fun n d => set_datum (Some d) n) nodes dataSet
       ++ drop (length dataSet) nodes,
       drop (length nodes) dataSet).
Proof.
  induction 1 as [|n rest Hn _ IH]; intros dataSet.
  - cbn [data_join zip_with length app]. rewrite drop_nil. reflexivity.
  - cbn [data_join]. rewrite Hn. destruct dataSet as [|d ds]; [reflexivity|].
    rewrite IH. reflexivity.
Qed.

Lemma filter_all {A : Type} (p : A -> bool) (l : list A) :
  Forall (fun a => p a = true) l -> List.filter p l = l.
Proof.
  induction 1 as [|a l Ha _ IH]; [reflexivity|].
  cbn [List.filter]. rewrite Ha, IH. reflexivity.
Qed.

Lemma app_bars_rect (this : Component) (xs : D3.ScaleBand) (ys : D3.ScaleLinear)
    (l : list record) :
  Forall (fun n => is_rect n = true) (map (app_bar this xs ys) l).
Proof.
  apply List.Forall_forall. intros n Hn. apply in_map_iff in Hn as (d & <- & _).
  unfold is_rect. rewrite (proj1 (app_bar_shape this xs ys d)). reflexivity.
Qed.

Lemma app_bars_class (this : Component) (xs : D3.ScaleBand) (ys : D3.ScaleLinear)
    (l : list record) :
  Forall (fun n => has_class "bar" n = true) (map (app_bar this xs ys) l).
Proof.
  apply List.Forall_forall. intros n Hn. apply in_map_iff in Hn as (d & <- & _).
  apply app_bar_class.
Qed.

Lemma rebind_rect (nodes : list Node) :
  Forall (fun n => is_rect n = true) nodes ->
  forall dataSet : list record,
    Forall (fun n => is_rect n = true)
           (zip_with (fun n d => set_datum (Some d) n) nodes dataSet).
Proof.
  induction 1 as [|n rest Hn _ IH]; intros [|d ds]; cbn [zip_with]; constructor.
  - exact Hn.
  - apply IH.
Qed.

(** Property X13.  What a change of the data set does to the bars of the app
    component.  After a first render of [old], the data set becomes [new] and
    the change is notified: every bar of the first render is still there, with
    the attributes and the transition it had; the i-th bar is bound to the
    i-th new record, if there is one; a bar is created, with the new scales,
    for each new record beyond the bars, and for no other. *)
Theorem X13_rerender_keeps_every_bar (this : Component) (old new : list record) :
  data this = Some old ->
  exists first last xs ys,
    App.ngOnInit this = Ok tt first
    /\ app_rerender (Some new) this = Ok tt last
    /\ xScale last = Some xs /\ yScale last = Some ys
    /\ bars last
       = zip_with (fun n d => set_datum (Some d) n) (bars first) new
         ++ drop (length new) (bars first)
         ++ map (app_bar (sized this) xs ys) (drop (length old) new)
    /\ length (bars last) = Nat.max (length old) (length new).
Proof.
  intros Hd.
  set (s := sized this).
  set (A := axes s (app_xScale s old) (app_yScale s old)).
  set (B := map (app_bar s (app_xScale s old) (app_yScale s old)) old).
  set (S := set_data (Some new) (app_rendered old this)).
  exists (app_rendered old this), (app_drawn new (A ++ B) (sized S)),
    (app_xScale s new), (app_yScale s new).
  split; [apply app_ngOnInit_ok; exact Hd|]. split.
  { unfold app_rerender, bind. rewrite (app_ngOnInit_ok this old Hd).
    unfold assign. fold S. rewrite app_ngOnChanges_ok. reflexivity. }
  split; [exact (proj1 (app_drawn_scales new (A ++ B) (sized S)))|].
  split; [exact (proj2 (app_drawn_scales new (A ++ B) (sized S)))|].
  assert (Hbars : bars (app_drawn new (A ++ B) (sized S))
                  = zip_with (fun n d => set_datum (Some d) n) B new
                    ++ drop (length new) B
                    ++ map (app_bar s (app_xScale s new) (app_yScale s new))
                           (drop (length old) new)).
  { assert (Hsel : length (selectAll "bar" (A ++ B)) = length old).
    { unfold selectAll. rewrite List.filter_app.
      rewrite (filter_all (has_class "bar") B (app_bars_class _ _ _ _)).
      fold (selectAll "bar" A). unfold A.
      rewrite (selectAll_none "bar" _ (axes_no_bar _ _ _)). cbn [app].
      unfold B. apply length_map. }
    unfold bars. rewrite app_drawn_chart, Hsel.
    rewrite (data_join_prefix "bar" A (axes_no_bar _ _ _)).
    rewrite (data_join_all "bar" B (app_bars_class _ _ _ _)). cbn [fst].
    rewrite !List.filter_app. unfold A. rewrite !axes_no_rect. cbn [app].
    rewrite (filter_all is_rect _ (rebind_rect B (app_bars_rect _ _ _ _) new)).
    rewrite (filter_all is_rect (drop (length new) B)).
    2:{ apply Forall_drop. apply app_bars_rect. }
    rewrite (filter_all is_rect _ (app_bars_rect _ _ _ _)).
    rewrite <- app_assoc. reflexivity. }
  rewrite app_rendered_bars. fold s. fold B. split; [exact Hbars|].
  rewrite Hbars, !length_app, length_zip_with, length_drop, length_map, length_drop.
  unfold B. rewrite length_map. lia.
Qed.

(** What a node keeps when it is rebound: everything but its datum. *)
Lemma rebound_keeps (old new : Node) :
  rebound old new ->
  tag new = tag old /\ attrs new = attrs old /\ styles new = styles old
  /\ text new = text old /\ axis new = axis old /\ schedule new = schedule old
  /\ tooltip new = tooltip old.
Proof. intros [->|[d ->]]; repeat split. Qed.

(** Property X14.  A change notification on a chart never removes a node and
    never restyles one: the nodes the chart held are still there, in their
    order, each with its tag, its attributes, its styles, its text, its axis,
    its transition and its tooltip; at most its datum has changed.  The
    nodes appended after them are the four axis nodes and one bar for each
    record beyond the bars the chart held. *)
Theorem X14_notification_only_appends (this : Component) (children : list Node)
    (dataSet : list record) :
  chart this = Some children ->
  data this = Some dataSet ->
  exists this' kept appended,
    App.ngOnChanges this = Ok tt this'
    /\ chart this' = Some (kept ++ appended)
    /\ Forall2 (fun o n =>
                  tag n = tag o /\ attrs n = attrs o /\ styles n = styles o
                  /\ text n = text o /\ axis n = axis o
                  /\ schedule n = schedule o /\ tooltip n = tooltip o)
               children kept
    /\ length appended
       = (4 + (length dataSet - length (selectAll "bar" children)))%nat
    /\ length (selectAll "bar" appended)
       = (length dataSet - length (selectAll "bar" children))%nat.
Proof.
  intros Hc Hd.
  exists (app_drawn dataSet children (sized this)),
    (fst (data_join "bar" dataSet children)),
    (axes (sized this) (app_xScale (sized this) dataSet)
          (app_yScale (sized this) dataSet)
     ++ map (app_bar (sized this) (app_xScale (sized this) dataSet)
                     (app_yScale (sized this) dataSet))
            (skipn (length (selectAll "bar" children)) dataSet)).
  split; [rewrite app_ngOnChanges_ok, Hc, Hd; reflexivity|].
  split; [apply app_drawn_chart|]. split.
  - pose proof (data_join_rebound "bar" children dataSet) as Hkept.
    eapply Forall2_impl; [exact Hkept|].
    intros o n Hr. apply rebound_keeps. exact Hr.
  - split.
    + rewrite length_app, length_map, length_skipn. reflexivity.
    + unfold selectAll at 1. rewrite List.filter_app, length_app.
      fold (selectAll "bar" (axes (sized this) (app_xScale (sized this) dataSet)
                                  (app_yScale (sized this) dataSet))).
      rewrite (selectAll_none "bar" _ (axes_no_bar _ _ _)).
      rewrite (filter_all (has_class "bar") _ (app_bars_class _ _ _ _)).
      rewrite length_map, length_skipn. reflexivity.
Qed.

(** Property X15.  Data that arrive after the initial render.  A component
    initialised with the empty data set and then notified of the data set
    [new] ends, in the app component, with the scales and the bars that an
    initial render of [new] makes; the chart holds them after the four axis
    nodes of the empty render, which stay.  In the earlier revision the
    notification draws nothing: the chart stays without a bar and the series
    stay empty. *)
Theorem X15_data_after_initial_render (this : Component) (new : list record) :
  data this = Some [] ->
  (exists last direct stale nodes,
     app_rerender (Some new) this = Ok tt last
     /\ App.ngOnInit (set_data (Some new) this) = Ok tt direct
     /\ xScale last = xScale direct /\ yScale last = yScale direct
     /\ bars last = bars direct
     /\ length (bars last) = length new
     /\ chart direct = Some nodes
     /\ chart last = Some (stale ++ nodes)
     /\ length stale = 4%nat)
  /\ (exists last,
        legacy_rerender (Some new) this = Ok tt last
        /\ data last = Some new
        /\ bars last = [] /\ xData last = Some [] /\ yData last = Some []).
Proof.
  intros Hd. split.
  - set (s := sized this).
    set (A0 := axes s (app_xScale s []) (app_yScale s [])).
    set (S := set_data (Some new) (app_rendered [] this)).
    set (A := axes s (app_xScale s new) (app_yScale s new)).
    set (B := map (app_bar s (app_xScale s new) (app_yScale s new)) new).
    assert (Hchart : chart (app_drawn new A0 (sized S)) = Some (A0 ++ A ++ B)).
    { rewrite app_drawn_chart.
      rewrite (data_join_no_bars "bar" A0 new (axes_no_bar _ _ _)).
      unfold A0 at 2. rewrite (selectAll_none "bar" _ (axes_no_bar _ _ _)).
      reflexivity. }
    exists (app_drawn new A0 (sized S)),
      (app_rendered new (set_data (Some new) this)), A0, (A ++ B).
    split.
    { unfold app_rerender, bind. rewrite (app_ngOnInit_ok this [] Hd).
      unfold assign. fold S. rewrite app_ngOnChanges_ok. reflexivity. }
    split; [apply app_ngOnInit_ok; reflexivity|].
    split; [exact (proj1 (app_drawn_scales new A0 (sized S)))|].
    split; [exact (proj2 (app_drawn_scales new A0 (sized S)))|].
    assert (Hbars : bars (app_drawn new A0 (sized S)) = B).
    { unfold bars. rewrite Hchart. rewrite !List.filter_app.
      unfold A0, A. rewrite !axes_no_rect. cbn [app].
      apply filter_all. apply app_bars_rect. }
    split; [rewrite Hbars, app_rendered_bars; reflexivity|].
    split; [rewrite Hbars; apply length_map|].
    split; [reflexivity|]. split; [exact Hchart|reflexivity].
  - exists (sized (set_data (Some new) (legacy_rendered [] this))).
    split.
    { unfold legacy_rerender, bind. rewrite (legacy_ngOnInit_ok this [] Hd).
      reflexivity. }
    repeat split.
Qed.

End HookSequences.

(** *** The two revisions of the app component *)

Section Revisions.
Context `{Coercions}.

Lemma legacy_bar_attrs (this : Component) (xs : D3.ScaleBand) (ys : D3.ScaleLinear)
    (d : record) (ch : Q) :
  chartHeight this = Some ch ->
  attrs (legacy_bar this xs ys d)
  = <["y" := ANum (Fin ch)]> (<["height" := ANum (Fin 0)]> ∅).
Proof. intros Hch. unfold legacy_bar. rewrite Hch. reflexivity. Qed.

Lemma legacy_bar_schedule (this : Component) (xs : D3.ScaleBand)
    (ys : D3.ScaleLinear) (d : record) :
  schedule (legacy_bar this xs ys d)
  = Some {| ease := easeLinear; duration := 1200;
            targets :=
              <["height" := ANum (sub (ofField (chartHeight this))
                                      (D3.lin_call ys (get d (y this))))]>
                (<["y" := ANum (D3.lin_call ys (get d (y this)))]>
                   (match D3.band_call xs (get d (x this)) with
                    | Some a => <["x" := ANum a]>
                    | None => delete "x"
                    end (<["width" := ANum (D3.bandwidth xs)]>
                           (<["class" := AStr "bar"]> ∅)))) |}.
Proof.
  unfold legacy_bar. destruct (D3.band_call xs (get d (x this))); reflexivity.
Qed.

Lemma app_bar_attrs (this : Component) (xs : D3.ScaleBand) (ys : D3.ScaleLinear)
    (d : record) :
  attrs (app_bar this xs ys d)
  = <["height" := ANum (sub (ofField (chartHeight this)) (D3.lin_call ys (VNumber 0)))]>
      (<["y" := ANum (D3.lin_call ys (VNumber 0))]>
         (match D3.band_call xs (get d (x this)) with
          | Some a => <["x" := ANum a]>
          | None => delete "x"
          end (<["width" := ANum (D3.bandwidth xs)]>
                 (<["class" := AStr "bar"]> ∅)))).
Proof.
  unfold app_bar. destruct (D3.band_call xs (get d (x this))); reflexivity.
Qed.

Lemma legacy_bar_no_class (this : Component) (xs : D3.ScaleBand)
    (ys : D3.ScaleLinear) (d : record) :
  has_class "bar" (legacy_bar this xs ys d) = false.
Proof.
  unfold has_class, legacy_bar, set_schedule. cbn [attrs].
  destruct (chartHeight this); cbn [fmap option_fmap option_map].
  - rewrite !attrs_attr1. rewrite !lookup_insert_ne by done. reflexivity.
  - unfold attr1 at 1. unfold set_attrs. cbn [attrs].
    rewrite lookup_delete_ne by done. rewrite attrs_attr1.
    rewrite lookup_insert_ne by done. reflexivity.
Qed.

(** Property X16.  In the earlier revision a bar enters with its height and its
    y only: its class, its width and its x are targets of the transition, so
    right after the render the selector [.bar] matches nothing.  In the app
    component the three are set at once and the selector matches every bar. *)
Theorem X16_class_width_x_animated_in_earlier_revision (this : Component)
    (dataSet : list record) :
  data this = Some dataSet ->
  (exists old nodes xs,
     Legacy.ngOnInit this = Ok tt old
     /\ chart old = Some nodes /\ xScale old = Some xs
     /\ selectAll "bar" nodes = []
     /\ Forall2 (fun d n =>
                   attrs n !! "class" = None /\ attrs n !! "width" = None
                   /\ attrs n !! "x" = None
                   /\ exists t,
                        schedule n = Some t
                        /\ ease t = easeLinear /\ duration t = 1200%Z
                        /\ targets t !! "class" = Some (AStr "bar")
                        /\ targets t !! "width" = Some (ANum (D3.bandwidth xs))
                        /\ targets t !! "x"
                           = ANum <$> D3.band_call xs (get d (x this)))
                dataSet (bars old))
  /\ (exists new nodes xs,
        App.ngOnInit this = Ok tt new
        /\ chart new = Some nodes /\ xScale new = Some xs
        /\ selectAll "bar" nodes = bars new
        /\ Forall2 (fun d n =>
                      attrs n !! "class" = Some (AStr "bar")
                      /\ attrs n !! "width" = Some (ANum (D3.bandwidth xs))
                      /\ attrs n !! "x" = ANum <$> D3.band_call xs (get d (x this)))
                   dataSet (bars new)).
Proof.
  intros Hd. split.
  - exists (legacy_rendered dataSet this). eexists. eexists.
    split; [apply legacy_ngOnInit_ok; exact Hd|].
    split; [reflexivity|]. split; [reflexivity|]. split.
    + unfold selectAll. rewrite List.filter_app.
      fold (selectAll "bar" (axes (sized this) (app_xScale (sized this) dataSet)
                               (app_yScale (sized this) dataSet))).
      rewrite (selectAll_none "bar" _ (axes_no_bar _ _ _)). cbn [app].
      apply (selectAll_none "bar").
      apply List.Forall_forall. intros n Hn. apply in_map_iff in Hn as (d & <- & _).
      apply legacy_bar_no_class.
    + rewrite legacy_rendered_bars. apply Forall2_map_r. intros d _.
      rewrite (legacy_bar_attrs (sized this) _ _ d
                 (height this - top (margins this) - bottom (margins this))%Q eq_refl).
      rewrite legacy_bar_schedule. change (x (sized this)) with (x this).
      split; [reflexivity|]. split; [reflexivity|]. split; [reflexivity|].
      eexists. split; [reflexivity|]. cbn [ease duration targets].
      split; [reflexivity|]. split; [reflexivity|].
      rewrite !lookup_insert_ne by done.
      destruct (D3.band_call _ (get d (x this))); cbn [fmap option_fmap option_map].
      * rewrite lookup_insert_eq. rewrite !lookup_insert_ne by done.
        rewrite lookup_insert_eq. rewrite lookup_insert_ne by done.
        rewrite lookup_insert_eq. repeat split.
      * rewrite lookup_delete_eq. rewrite !lookup_delete_ne by done.
        rewrite lookup_insert_eq. rewrite lookup_insert_ne by done.
        rewrite lookup_insert_eq. repeat split.
  - exists (app_rendered dataSet this). eexists. eexists.
    split; [apply app_ngOnInit_ok; exact Hd|].
    split; [reflexivity|]. split; [reflexivity|]. split.
    + rewrite app_rendered_bars.
      unfold selectAll. rewrite List.filter_app.
      fold (selectAll "bar" (axes (sized this) (app_xScale (sized this) dataSet)
                               (app_yScale (sized this) dataSet))).
      rewrite (selectAll_none "bar" _ (axes_no_bar _ _ _)). cbn [app].
      apply (selectAll_all "bar").
      apply List.Forall_forall. intros n Hn. apply in_map_iff in Hn as (d & <- & _).
      apply app_bar_class.
    + rewrite app_rendered_bars. apply Forall2_map_r. intros d _.
      rewrite app_bar_attrs. change (x (sized this)) with (x this).
      rewrite !lookup_insert_ne by done.
      destruct (D3.band_call _ (get d (x this))); cbn [fmap option_fmap option_map].
      * rewrite lookup_insert_eq. rewrite !lookup_insert_ne by done.
        rewrite lookup_insert_eq. rewrite lookup_insert_ne by done.
        rewrite lookup_insert_eq. repeat split.
      * rewrite lookup_delete_eq. rewrite !lookup_delete_ne by done.
        rewrite lookup_insert_eq. rewrite lookup_insert_ne by done.
        rewrite lookup_insert_eq. repeat split.
Qed.

Lemma settled_alike (this : Component) (xs : D3.ScaleBand) (ys : D3.ScaleLinear)
    (d : record) (ch : Q) :
  chartHeight this = Some ch ->
  settled (app_bar this xs ys d) = settled (legacy_bar this xs ys d).
Proof.
  intros Hch. unfold settled.
  rewrite legacy_bar_schedule, (legacy_bar_attrs this xs ys d ch Hch), app_bar_attrs.
  change (schedule (app_bar this xs ys d))
    with (Some {| ease := easeLinear; duration := 880;
                  targets :=
                    <["height" := ANum (sub (ofField (chartHeight this))
                                            (D3.lin_call ys (get d (y this))))]>
                      (<["y" := ANum (D3.lin_call ys (get d (y this)))]> ∅) |}).
  cbn [targets].
  apply map_eq. intros k. rewrite !lookup_union.
  destruct (decide (k = "height")) as [->|Hh].
  { repeat (rewrite lookup_insert_eq || rewrite lookup_insert_ne by done).
    reflexivity. }
  destruct (decide (k = "y")) as [->|Hy].
  { repeat (rewrite lookup_insert_eq || rewrite lookup_insert_ne by done).
    reflexivity. }
  repeat first [rewrite (lookup_insert_ne _ "height") by congruence
               |rewrite (lookup_insert_ne _ "y") by congruence].
  rewrite !lookup_empty.
  destruct (_ !! k); reflexivity.
Qed.

(** Property X17.  The two revisions of the app component render the same
    picture: a first render computes the same sizes, series and scales,
    appends the same axis nodes, and creates bars that, once their transitions
    have run, hold the same attributes. *)
Theorem X17_revisions_settle_alike (this : Component) (dataSet : list record) :
  data this = Some dataSet ->
  exists new old four,
    App.ngOnInit this = Ok tt new
    /\ Legacy.ngOnInit this = Ok tt old
    /\ chartWidth new = chartWidth old /\ chartHeight new = chartHeight old
    /\ xData new = xData old /\ yData new = yData old
    /\ xScale new = xScale old /\ yScale new = yScale old
    /\ chart new = Some (four ++ bars new)
    /\ chart old = Some (four ++ bars old)
    /\ Forall2 (fun n o =>
                  tag n = tag o /\ datum n = datum o /\ settled n = settled o)
               (bars new) (bars old).
Proof.
  intros Hd.
  exists (app_rendered dataSet this), (legacy_rendered dataSet this),
    (axes (sized this) (app_xScale (sized this) dataSet)
          (app_yScale (sized this) dataSet)).
  split; [apply app_ngOnInit_ok; exact Hd|].
  split; [apply legacy_ngOnInit_ok; exact Hd|].
  split; [reflexivity|]. split; [reflexivity|].
  split; [reflexivity|]. split; [reflexivity|].
  split; [reflexivity|]. split; [reflexivity|].
  rewrite app_rendered_bars, legacy_rendered_bars.
  split; [reflexivity|]. split; [reflexivity|].
  generalize (app_xScale (sized this) dataSet) as xs.
  generalize (app_yScale (sized this) dataSet) as ys.
  intros ys xs. clear Hd.
  induction dataSet as [|d rest IH]; [constructor|].
  cbn [map]. constructor; [|exact IH].
  destruct (app_bar_shape (sized this) xs ys d) as [Ht Hdat].
  destruct (legacy_bar_shape (sized this) xs ys d) as [Ht' Hdat'].
  split; [congruence|]. split; [congruence|].
  apply (settled_alike (sized this) xs ys d _ eq_refl).
Qed.

End Revisions.

(** *** [ngOnDestroy] *)

Section Destroy.
Context `{Coercions}.









End Destroy.

(** *** The claims on the scenarios of the spec *)

Import Sample.

(** The end-to-end scenario of the spec (section 8): a 400 x 400 chart with
    margins of 60 and the records A = 10, B = 20, C = 5.  The plotting area is
    280 x 280, the categories are A, B, C, the linear domain is [0, 20]; the
    bar of B ends with y = 0 and height = 280, the bar of C with y = 210 and
    height = 70.  The bandwidth is 93 and the bands start at 1, 94 and 187. *)
Example end_to_end_scenario :
  observe (fun c => (chartWidth c, chartHeight c,
                     D3.band_domain <$> xScale c, D3.lin_domain <$> yScale c,
                     map geometry (bars c)))
          (App.ngOnInit (component 400 400 60 (Some abc)))
  = Some (Some 280%Q, Some 280%Q,
          Some [VString "A"; VString "B"; VString "C"], Some (Fin 0, Fin 20),
          [([Some (ANum (Fin 1)); Some (ANum (Fin 93));
             Some (ANum (Fin 280)); Some (ANum (Fin 0))],
            [Some (ANum (Fin 140)); Some (ANum (Fin 140))]);
           ([Some (ANum (Fin 94)); Some (ANum (Fin 93));
             Some (ANum (Fin 280)); Some (ANum (Fin 0))],
            [Some (ANum (Fin 0)); Some (ANum (Fin 280))]);
           ([Some (ANum (Fin 187)); Some (ANum (Fin 93));
             Some (ANum (Fin 280)); Some (ANum (Fin 0))],
            [Some (ANum (Fin 210)); Some (ANum (Fin 70))])]).
Proof. vm_compute. reflexivity. Qed.

(** The example of claim C3: the Y values [-5, 10, 3] give the domain [0, 10]. *)
Example negative_minimum_domain :
  observe (fun c => D3.lin_domain <$> yScale c)
          (App.ngOnInit (component 400 400 60 (Some mixed)))
  = Some (Some (Fin 0, Fin 10)).
Proof. vm_compute. reflexivity. Qed.

(** Claim C1 read on every render invocation fails on the change path.
    [ngOnChanges] on a component whose data set is null returns, having
    computed the plotting area: so it is for the new component, which the
    framework notifies of its inputs before it calls [ngOnInit], and so it is
    when the data set becomes null after a render, whose seven nodes stay. *)
Lemma C1_counterexample :
  data (component 400 400 60 None) = None
  /\ observe (fun c => (chartWidth c, chartHeight c, chart c))
             (Lib.ngOnChanges (component 400 400 60 None))
     = Some (Some 280%Q, Some 280%Q, None)
  /\ ~ raisesMissingData (Lib.ngOnChanges (component 400 400 60 None))
  /\ observe (fun c => (data c, length (default [] (chart c))))
             (lib_rerender None (component 400 400 60 (Some abc)))
     = Some (None, 7%nat).
Proof.
  split; [reflexivity|]. split; [vm_compute; reflexivity|]. split.
  - intros [c Hc]. vm_compute in Hc. discriminate.
  - vm_compute. reflexivity.
Qed.

Lemma C1_witness :
  data (component 400 400 60 None) = None
  /\ Lib.ngOnInit (component 400 400 60 None)
     = Throw (mkError "Missing Data!") (component 400 400 60 None)
  /\ raisesMissingData (Lib.ngOnInit (component 400 400 60 None)).
Proof.
  split; [reflexivity|].
  destruct (C1_missing_data_on_init (component 400 400 60 None) eq_refl)
    as (HL & _ & _ & Hr).
  split; [exact HL|exact Hr].
Defined.

(** Claim C2 fails on the empty data set: the render returns, with the
    linear domain [0, NaN], four axis nodes and no bar. *)
Lemma C2_counterexample :
  observe (fun c => (D3.lin_domain <$> yScale c, length <$> chart c,
                     length (bars c)))
          (App.ngOnInit (component 400 400 60 (Some [])))
  = Some (Some (Fin 0, NaN), Some 4%nat, 0%nat).
Proof. vm_compute. reflexivity. Qed.

Lemma C2_witness :
  data (component 400 400 60 (Some [])) = Some []
  /\ D3.max (App.getData [] "val") = VUndefined
  /\ exists first ys,
       App.ngOnInit (component 400 400 60 (Some [])) = Ok tt first
       /\ yScale first = Some ys
       /\ D3.lin_domain ys = (Fin 0, NaN)
       /\ length (bars first) = 0%nat.
Proof.
  split; [reflexivity|]. split; [reflexivity|].
  destruct (C2_no_maximum_still_renders (component 400 400 60 (Some [])) []
              eq_refl eq_refl)
    as (first & again & xs & ys & Hok & _ & _ & Hys & _ & Hdom & _ & _ & Hlen).
  exists first, ys. repeat split; assumption.
Defined.

(** Claim C3 fails when max(Y) is 0: the scale sends max(Y) = 0 to
    chartHeight = 280, not to 0.  It also fails for a chartHeight that is no
    whole number: 280.5 gives linearScale(0) = 281. *)
Lemma C3_counterexample :
  observe (fun c => (D3.max <$> yData c, chartHeight c,
                     (fun ys => D3.lin_call ys (VNumber 0)) <$> yScale c))
          (App.ngOnInit (component 400 400 60 (Some zeros)))
  = Some (Some (VNumber 0), Some 280%Q, Some (Fin 280))
  /\ observe (fun c => (chartHeight c,
                        (fun ys => D3.lin_call ys (VNumber 0)) <$> yScale c))
             (App.ngOnInit (component 400 (801 # 2) 60 (Some abc)))
     = Some (Some (561 # 2)%Q, Some (Fin 281)).
Proof. split; vm_compute; reflexivity. Qed.

Lemma C3_witness :
  data (component 400 400 60 (Some mixed)) = Some mixed
  /\ App.getData mixed "val" = map VNumber [(-5)%Q; 10%Q; 3%Q]
  /\ exists first ys m,
       App.ngOnInit (component 400 400 60 (Some mixed)) = Ok tt first
       /\ yScale first = Some ys
       /\ is_maximum m [(-5)%Q; 10%Q; 3%Q]
       /\ D3.lin_domain ys = (Fin 0, Fin m)
       /\ D3.lin_range ys = (Fin 280, Fin 0)
       /\ D3.lin_call ys (VNumber 0) = Fin 280
       /\ (~ (m == 0)%Q -> D3.lin_call ys (VNumber m) = Fin 0).
Proof.
  split; [reflexivity|]. split; [reflexivity|].
  destruct (C3_linear_scale (component 400 400 60 (Some mixed)) mixed eq_refl)
    as (first & again & ys & Hok & _ & Hys & _ & _ & Hrange & Hnum).
  destruct (Hnum [(-5)%Q; 10%Q; 3%Q] eq_refl ltac:(discriminate))
    as (m & Hmax & Hdom & _ & Hzero & Htop).
  exists first, ys, m. repeat split; try assumption.
  - exact (proj1 Hmax).
  - exact (proj2 Hmax).
  - exact (Hzero 280%Z eq_refl).
Defined.

(** Claim C4 fails on the scenario of the spec: three categories in a width
    of 280 get the bandwidth 93, which is not 280 / 3. *)
Lemma C4_counterexample :
  observe (fun c => (chartWidth c, D3.band_domain <$> xScale c,
                     D3.bandwidth <$> xScale c))
          (App.ngOnInit (component 400 400 60 (Some abc)))
  = Some (Some 280%Q, Some [VString "A"; VString "B"; VString "C"], Some (Fin 93))
  /\ ~ same (Fin 93) (div (Fin 280) (Fin 3)).
Proof.
  split; [vm_compute; reflexivity|].
  intros Hs. vm_compute in Hs. discriminate.
Qed.

Lemma C4_witness :
  data (component 400 400 60 (Some abc)) = Some abc
  /\ (0 <= 400 - 60 - 60)%Q
  /\ exists first xs,
       App.ngOnInit (component 400 400 60 (Some abc)) = Ok tt first
       /\ xScale first = Some xs
       /\ D3.band_domain xs = [VString "A"; VString "B"; VString "C"]
       /\ List.NoDup (map toString (D3.band_domain xs))
       /\ D3.band_range xs = (Fin 0, Fin 280)
       /\ D3.bandwidth xs = Fin 93
       /\ D3.band_start xs = Fin 1
       /\ D3.band_call xs (VString "C") = Some (Fin 187)
       /\ (1 + 3 * 93 <= 400 - 60 - 60)%Q.
Proof.
  split; [reflexivity|]. split; [discriminate|].
  destruct (C4_band_scale (component 400 400 60 (Some abc)) abc eq_refl)
    as (first & again & xs & Hok & _ & Hxs & _ & Hdom & Hnd & Hrange & _ & Hgeo).
  destruct (Hgeo ltac:(discriminate))
    as (Hbw & _ & _ & Hcall & Hstart & _).
  assert (Hdom' : D3.band_domain xs = [VString "A"; VString "B"; VString "C"]).
  { rewrite Hdom. vm_compute. reflexivity. }
  assert (Hbw' : D3.bandwidth xs = Fin 93).
  { rewrite Hbw, Hdom'. vm_compute. reflexivity. }
  assert (Hstart' : D3.band_start xs = Fin 1).
  { rewrite Hstart, Hdom'. vm_compute. reflexivity. }
  exists first, xs. repeat split; try assumption.
  - rewrite (Hcall 2%nat (VString "C")) by (rewrite Hdom'; reflexivity).
    rewrite Hstart', Hbw'. vm_compute. reflexivity.
  - discriminate.
Defined.

(** Claim C5 fails for a record without the Y field (the scale has no
    maximum: y and height are NaN) and for a chartHeight that is no whole
    number (280.5 gives y = 281 and height = -0.5). *)
Lemma C5_counterexample :
  observe (fun c => map (fun n => (attrs n !! "y", attrs n !! "height")) (bars c))
          (App.ngOnInit (component 400 400 60 (Some no_val)))
  = Some [(Some (ANum NaN), Some (ANum NaN))]
  /\ observe (fun c => map (fun n => (attrs n !! "y", attrs n !! "height")) (bars c))
             (App.ngOnInit (component 400 (801 # 2) 60 (Some [rec "A" 10])))
     = Some [(Some (ANum (Fin 281)), Some (ANum (Fin (-1 # 2))))].
Proof. split; vm_compute; reflexivity. Qed.

Lemma C5_witness :
  data (component 400 400 60 (Some abc)) = Some abc
  /\ exists this' ys,
       App.ngOnInit (component 400 400 60 (Some abc)) = Ok tt this'
       /\ yScale this' = Some ys
       /\ Forall2 (fun d n =>
                     tag n = "rect" /\ datum n = Some d
                     /\ baseline n (D3.lin_call ys (VNumber 0))
                                   (sub (Fin 280) (D3.lin_call ys (VNumber 0))))
                  abc (bars this')
       /\ same (D3.lin_call ys (VNumber 0)) (Fin 280)
       /\ same (sub (Fin 280) (D3.lin_call ys (VNumber 0))) (Fin 0).
Proof.
  split; [reflexivity|].
  destruct (C5_baseline_on_first_render (component 400 400 60 (Some abc)) abc eq_refl)
    as ((this' & ys & Hok & Hys & Hbars & Hwhole) & _).
  destruct (Hwhole 20%Q 280%Z eq_refl eq_refl) as [Hy Hh].
  exists this', ys. repeat split; assumption.
Defined.

(** Claim C6 on the re-render scenario of the spec.  After a render of
    A = 10, B = 20, C = 5 the data become A = 30, B = 20, C = 5 and the change
    is notified.  The new linear scale sends 30, 20 and 5 to 0, 93 and 233, so
    the bars should be animated to y = 0, 93, 233 and height = 280, 187, 47;
    the bars bound to the three records still carry the transition of the
    first render, to y = 140, 0, 210 and height = 140, 280, 70. *)
Theorem C6_rerender_keeps_old_transition :
  observe (fun c => map datum (bars c))
          (app_rerender (Some changed) (component 400 400 60 (Some abc)))
  = Some (map Some changed)
  /\ observe (fun c => map (fun n => (target_y n, target_height n)) (bars c))
             (app_rerender (Some changed) (component 400 400 60 (Some abc)))
     = Some [(Some (ANum (Fin 140)), Some (ANum (Fin 140)));
             (Some (ANum (Fin 0)), Some (ANum (Fin 280)));
             (Some (ANum (Fin 210)), Some (ANum (Fin 70)))]
  /\ observe (fun c =>
                match yScale c with
                | Some ys =>
                    map (fun d => (D3.lin_call ys (get d "val"),
                                   sub (ofField (chartHeight c))
                                       (D3.lin_call ys (get d "val"))))
                        changed
                | None => []
                end)
             (app_rerender (Some changed) (component 400 400 60 (Some abc)))
     = Some [(Fin 0, Fin 280); (Fin 93, Fin 187); (Fin 233, Fin 47)].
Proof.
  split; [vm_compute; reflexivity|]. split; vm_compute; reflexivity.
Qed.

(** Claim C7 on the re-render scenario of the spec.  After a render of
    A = 10, B = 20, C = 5 the data become A = 30, B = 20, C = 5 and the change
    is notified: the three bars are the old ones, with the attributes and the
    transition targets of the first render, now bound to the new records, and
    the chart holds the four axis nodes twice (eleven nodes).  With the
    one-record data set the chart still holds three bars.  [lib_draw_keeps_bars]
    above is the general fact: a draw keeps every node and creates bars only
    for the records beyond the bars already there. *)
Theorem C7_rerender_keeps_old_bars :
  let old_bars :=
    [([Some (ANum (Fin 1)); Some (ANum (Fin 93));
       Some (ANum (Fin 280)); Some (ANum (Fin 0))],
      [Some (ANum (Fin 140)); Some (ANum (Fin 140))]);
     ([Some (ANum (Fin 94)); Some (ANum (Fin 93));
       Some (ANum (Fin 280)); Some (ANum (Fin 0))],
      [Some (ANum (Fin 0)); Some (ANum (Fin 280))]);
     ([Some (ANum (Fin 187)); Some (ANum (Fin 93));
       Some (ANum (Fin 280)); Some (ANum (Fin 0))],
      [Some (ANum (Fin 210)); Some (ANum (Fin 70))])] in
  observe (fun c => map geometry (bars c))
          (Lib.ngOnInit (component 400 400 60 (Some abc)))
  = Some old_bars
  /\ observe (fun c => map geometry (bars c))
             (lib_rerender (Some changed) (component 400 400 60 (Some abc)))
     = Some old_bars
  /\ observe (fun c => map datum (bars c))
             (lib_rerender (Some changed) (component 400 400 60 (Some abc)))
     = Some (map Some changed)
  /\ observe (fun c => length (default [] (chart c)))
             (lib_rerender (Some changed) (component 400 400 60 (Some abc)))
     = Some 11%nat
  /\ length shrunk = 1%nat
  /\ observe (fun c => length (bars c))
             (lib_rerender (Some shrunk) (component 400 400 60 (Some abc)))
     = Some 3%nat.
Proof.
  intros old_bars.
  split; [vm_compute; reflexivity|]. split; [vm_compute; reflexivity|].
  split; [vm_compute; reflexivity|]. split; [vm_compute; reflexivity|].
  split; [reflexivity|]. vm_compute. reflexivity.
Qed.


(** On the scenario of the spec the subtractions are exact in double
    precision too: 400 - 60 - 60 is 280, and adding the margins back gives
    400. *)
Example double_plotting_area_of_scenario :
  Double.chartWidth (Double.literal 400) (Double.literal 60) (Double.literal 60)
  = Double.literal 280
  /\ Double.chartHeight (Double.literal 400) (Double.literal 60) (Double.literal 60)
     = Double.literal 280
  /\ Double.add (Double.add (Double.literal 280) (Double.literal 60))
       (Double.literal 60)
     = Double.literal 400.
Proof. repeat split; vm_compute; reflexivity. Qed.


(** Claim C9 fails on a 100 x 100 chart with margins of 60: the render
    returns, with a plotting area of -20 x -20, the four axis nodes and three
    bars drawn. *)
Lemma C9_counterexample :
  (100 <= 60 + 60)%Q
  /\ observe (fun c => (chartWidth c, chartHeight c, length (bars c)))
             (Lib.ngOnInit (component 100 100 60 (Some abc)))
     = Some (Some (-20)%Q, Some (-20)%Q, 3%nat)
  /\ observe (fun c => (chartWidth c, chartHeight c, length (bars c),
                        length (default [] (chart c))))
             (App.ngOnInit (component 100 100 60 (Some abc)))
     = Some (Some (-20)%Q, Some (-20)%Q, 3%nat, 7%nat).
Proof.
  split; [discriminate|]. split; vm_compute; reflexivity.
Qed.

Lemma C9_witness :
  data (component 100 100 60 (Some abc)) = Some abc
  /\ ((100 <= 60 + 60) \/ (100 <= 60 + 60))%Q
  /\ has_maximum (component 100 100 60 (Some abc)) abc
  /\ (exists this' xs ys,
        App.ngOnInit (component 100 100 60 (Some abc)) = Ok tt this'
        /\ chartWidth this' = Some (-20)%Q /\ chartHeight this' = Some (-20)%Q
        /\ xScale this' = Some xs /\ D3.band_range xs = (Fin 0, Fin (-20))
        /\ yScale this' = Some ys /\ D3.lin_range ys = (Fin (-20), Fin 0)
        /\ chart this'
           = Some (axes (sized (component 100 100 60 (Some abc))) xs ys
                   ++ bars this')
        /\ length (bars this') = 3%nat)
  /\ (exists this' xs ys,
        Lib.ngOnInit (component 100 100 60 (Some abc)) = Ok tt this'
        /\ chartWidth this' = Some (-20)%Q /\ chartHeight this' = Some (-20)%Q
        /\ xScale this' = Some xs /\ D3.band_range xs = (Fin 0, Fin (-20))
        /\ yScale this' = Some ys /\ D3.lin_range ys = (Fin (-20), Fin 0)
        /\ chart this'
           = Some (axes (labelled (component 100 100 60 (Some abc))) xs ys
                   ++ bars this')
        /\ length (bars this') = 3%nat).
Proof.
  split; [reflexivity|]. split; [left; discriminate|].
  assert (Hmax : has_maximum (component 100 100 60 (Some abc)) abc).
  { unfold has_maximum. vm_compute. discriminate. }
  split; [exact Hmax|].
  destruct (C9_no_config_validation (component 100 100 60 (Some abc)) abc eq_refl
              ltac:(left; discriminate))
    as (_ & Happ & Hlib & _).
  split; [exact Happ|exact (Hlib Hmax)].
Defined.

Lemma C10_witness :
  data (set_data None (final (Lib.ngOnInit (component 400 400 60 (Some abc)))))
  = None
  /\ length (bars (set_data None
                     (final (Lib.ngOnInit (component 400 400 60 (Some abc))))))
     = 3%nat
  /\ exists this',
       Lib.ngOnChanges
         (set_data None (final (Lib.ngOnInit (component 400 400 60 (Some abc)))))
       = Ok tt this'
       /\ chartWidth this' = Some 280%Q /\ chartHeight this' = Some 280%Q
       /\ chart this'
          = chart (set_data None
                     (final (Lib.ngOnInit (component 400 400 60 (Some abc)))))
       /\ length (default [] (chart this')) = 7%nat
       /\ length (bars this') = 3%nat.
Proof.
  split; [reflexivity|]. split; [vm_compute; reflexivity|].
  destruct (C10_null_data_on_change
              (set_data None (final (Lib.ngOnInit (component 400 400 60 (Some abc)))))
              eq_refl)
    as ((this' & Hok & Hw & Hh & Hc) & _).
  exists this'. split; [exact Hok|].
  split; [rewrite Hw; vm_compute; reflexivity|].
  split; [rewrite Hh; vm_compute; reflexivity|].
  split; [exact Hc|].
  split; [rewrite Hc; vm_compute; reflexivity|].
  unfold bars. rewrite Hc. vm_compute. reflexivity.
Defined.

(** *** The properties on concrete inputs *)

Lemma X1_witness :
  "z" <> "x" /\ "z" <> "y"
  /\ App.makeAxis "z" (SLinear D3.scaleLinear) (component 400 400 60 (Some abc))
     = Ok tt (component 400 400 60 (Some abc))
  /\ chart (component 400 400 60 (Some abc)) = None
  /\ App.makeAxis "x" (SBand D3.scaleBand) (component 400 400 60 (Some abc))
     = Throw (TypeError "Cannot read property 'append' of undefined")
             (component 400 400 60 (Some abc)).
Proof.
  destruct (X1_makeAxis_guards "z" (SLinear D3.scaleLinear)
              (component 400 400 60 (Some abc))) as [Hz _].
  destruct (X1_makeAxis_guards "x" (SBand D3.scaleBand)
              (component 400 400 60 (Some abc))) as [_ Hx].
  split; [discriminate|]. split; [discriminate|].
  split; [exact (proj1 (Hz ltac:(discriminate) ltac:(discriminate)))|].
  split; [reflexivity|].
  exact (proj1 (Hx (or_introl eq_refl) eq_refl)).
Defined.

Lemma X2_witness :
  chart (set_chart (Some []) (component 400 400 60 (Some abc))) = Some []
  /\ exists group label,
       App.makeAxis "x" (SBand D3.scaleBand)
         (set_chart (Some []) (component 400 400 60 (Some abc)))
       = Ok tt (set_chart (Some [group; label])
                  (set_chart (Some []) (component 400 400 60 (Some abc))))
       /\ tag group = "g" /\ text label = Some "cat".
Proof.
  split; [reflexivity|].
  destruct (X2_makeAxis_appends "x" (SBand D3.scaleBand)
              (set_chart (Some []) (component 400 400 60 (Some abc))) []
              eq_refl (or_introl eq_refl))
    as (g & l & Hok & _ & _ & Hg & _ & _ & _ & Hl & _).
  exists g, l. split; [exact Hok|]. split; [exact Hg|exact Hl].
Defined.

Lemma X4_witness :
  data (component 400 400 60 (Some abc)) = Some abc
  /\ (0 <= 400 - 60 - 60)%Q
  /\ exists this',
       App.ngOnInit (component 400 400 60 (Some abc)) = Ok tt this'
       /\ length (bars this') = 3%nat
       /\ Forall (fun n =>
                    exists a w : Q,
                      attrs n !! "x" = Some (ANum (Fin a))
                      /\ attrs n !! "width" = Some (ANum (Fin w))
                      /\ (0 <= a)%Q /\ (0 <= w)%Q /\ (a + w <= 400 - 60 - 60)%Q)
                 (bars this').
Proof.
  split; [reflexivity|]. split; [discriminate|].
  apply (X4_bars_inside_plot_width (component 400 400 60 (Some abc)) abc eq_refl).
  discriminate.
Defined.

Lemma X5_witness :
  data (component 400 400 60 (Some abc)) = Some abc
  /\ (0 <= 400 - 60 - 60)%Q
  /\ exists this',
       App.ngOnInit (component 400 400 60 (Some abc)) = Ok tt this'
       /\ forall ni nj : Node,
            bars this' !! 0%nat = Some ni -> bars this' !! 1%nat = Some nj ->
            exists a b w : Q,
              attrs ni !! "x" = Some (ANum (Fin a))
              /\ attrs nj !! "x" = Some (ANum (Fin b))
              /\ attrs ni !! "width" = Some (ANum (Fin w))
              /\ attrs nj !! "width" = Some (ANum (Fin w))
              /\ (a + w <= b \/ b + w <= a)%Q.
Proof.
  split; [reflexivity|]. split; [discriminate|].
  destruct (X5_bars_by_category (component 400 400 60 (Some abc)) abc eq_refl
              ltac:(discriminate)) as (this' & Hok & Hbars).
  exists this'. split; [exact Hok|]. intros ni nj Hi Hj.
  apply (proj2 (Hbars 0%nat 1%nat (rec "A" 10) (rec "B" 20) ni nj
                  eq_refl eq_refl Hi Hj)).
  discriminate.
Defined.

Lemma X6_witness :
  data (component 400 400 60 (Some abc)) = Some abc
  /\ App.getData abc "val" = map VNumber [10%Q; 20%Q; 5%Q]
  /\ Exists (fun q => 0 < q)%Q [10%Q; 20%Q; 5%Q]
  /\ (400 - 60 - 60 == inject_Z 280)%Q
  /\ (0 <= 280)%Z
  /\ exists this',
       App.ngOnInit (component 400 400 60 (Some abc)) = Ok tt this'
       /\ Forall2 (fun q n =>
                     exists yy hh : Q,
                       animates n easeLinear 880 (Fin yy) (Fin hh)
                       /\ (yy + hh == 400 - 60 - 60)%Q
                       /\ ((0 <= q)%Q ->
                           (0 <= yy)%Q /\ (yy <= 400 - 60 - 60)%Q
                           /\ (0 <= hh)%Q /\ (hh <= 400 - 60 - 60)%Q)
                       /\ ((q < 0)%Q -> (400 - 60 - 60 <= yy)%Q /\ (hh <= 0)%Q))
                  [10%Q; 20%Q; 5%Q] (bars this').
Proof.
  assert (Hpos : Exists (fun q => 0 < q)%Q [10%Q; 20%Q; 5%Q])
    by (apply Exists_cons_hd; reflexivity).
  split; [reflexivity|]. split; [reflexivity|]. split; [exact Hpos|].
  split; [reflexivity|]. split; [discriminate|].
  apply (X6_bars_inside_plot_height (component 400 400 60 (Some abc)) abc
           [10%Q; 20%Q; 5%Q] 280 eq_refl eq_refl Hpos).
  - reflexivity.
  - discriminate.
Defined.

Lemma X7_witness :
  data (component 400 400 60 (Some abc)) = Some abc
  /\ App.getData abc "val" = map VNumber [10%Q; 20%Q; 5%Q]
  /\ Exists (fun q => 0 < q)%Q [10%Q; 20%Q; 5%Q]
  /\ (0 <= 400 - 60 - 60)%Q
  /\ exists this',
       App.ngOnInit (component 400 400 60 (Some abc)) = Ok tt this'
       /\ forall ni nj : Node,
            bars this' !! 2%nat = Some ni -> bars this' !! 0%nat = Some nj ->
            exists yi hi yj hj : Q,
              animates ni easeLinear 880 (Fin yi) (Fin hi)
              /\ animates nj easeLinear 880 (Fin yj) (Fin hj)
              /\ (hi <= hj)%Q /\ (yj <= yi)%Q.
Proof.
  assert (Hpos : Exists (fun q => 0 < q)%Q [10%Q; 20%Q; 5%Q])
    by (apply Exists_cons_hd; reflexivity).
  split; [reflexivity|]. split; [reflexivity|]. split; [exact Hpos|].
  split; [discriminate|].
  destruct (X7_bar_heights_follow_values (component 400 400 60 (Some abc)) abc
              [10%Q; 20%Q; 5%Q] eq_refl eq_refl Hpos ltac:(discriminate))
    as (this' & Hok & Hbars).
  exists this'. split; [exact Hok|]. intros ni nj Hi Hj.
  apply (Hbars 2%nat 0%nat 5%Q 10%Q ni nj eq_refl eq_refl Hi Hj).
  discriminate.
Defined.

Lemma X8_witness :
  data (component 400 400 60 (Some [rec "A" (-5); rec "B" (-10)]))
  = Some [rec "A" (-5); rec "B" (-10)]
  /\ App.getData [rec "A" (-5); rec "B" (-10)] "val"
     = map VNumber [(-5)%Q; (-10)%Q]
  /\ is_maximum (-5) [(-5)%Q; (-10)%Q]
  /\ (-5 < 0)%Q
  /\ (0 <= 400 - 60 - 60)%Q
  /\ exists this',
       App.ngOnInit (component 400 400 60 (Some [rec "A" (-5); rec "B" (-10)]))
       = Ok tt this'
       /\ Forall2 (fun q n =>
                     exists yy hh : Q,
                       animates n easeLinear 880 (Fin yy) (Fin hh)
                       /\ (yy <= 0)%Q /\ (400 - 60 - 60 <= hh)%Q)
                  [(-5)%Q; (-10)%Q] (bars this').
Proof.
  assert (Hmax : is_maximum (-5) [(-5)%Q; (-10)%Q]).
  { split; [left; reflexivity|]. repeat constructor; discriminate. }
  split; [reflexivity|]. split; [reflexivity|]. split; [exact Hmax|].
  split; [reflexivity|]. split; [discriminate|].
  apply (X8_bars_under_negative_maximum
           (component 400 400 60 (Some [rec "A" (-5); rec "B" (-10)]))
           [rec "A" (-5); rec "B" (-10)] [(-5)%Q; (-10)%Q] (-5)
           eq_refl eq_refl Hmax).
  - reflexivity.
  - discriminate.
Defined.

Lemma X9_witness :
  data (component 400 400 60 (Some (rec "A" 10 :: no_val)))
  = Some (rec "A" 10 :: no_val)
  /\ having "val" (rec "A" 10 :: no_val) = [rec "A" 10]
  /\ exists first only ys,
       App.ngOnInit (component 400 400 60 (Some (rec "A" 10 :: no_val)))
       = Ok tt first
       /\ App.ngOnInit (component 400 400 60 (Some [rec "A" 10])) = Ok tt only
       /\ yScale first = Some ys
       /\ yScale only = Some ys
       /\ length (bars first) = 2%nat.
Proof.
  split; [reflexivity|]. split; [reflexivity|].
  destruct (X9_record_without_y
              (component 400 400 60 (Some (rec "A" 10 :: no_val)))
              (rec "A" 10 :: no_val) eq_refl)
    as (first & only & ys & Hfirst & Honly & Hys & Hys' & Hlen & _).
  exists first, only, ys. repeat split; assumption.
Defined.

Lemma X10_witness :
  data (component 400 400 60 (Some abc)) = Some abc
  /\ exists first last,
       App.ngOnInit (component 400 400 60 (Some abc)) = Ok tt first
       /\ bind App.ngOnInit (fun _ => repeated 2 App.ngOnChanges)
            (component 400 400 60 (Some abc)) = Ok tt last
       /\ bars last = bars first
       /\ length (bars last) = 3%nat.
Proof.
  split; [reflexivity|].
  destruct (X10_notifications_pile_up_axes (component 400 400 60 (Some abc)) abc
              2 eq_refl)
    as (first & last & xs & ys & nodes & Hfirst & Hlast & _ & _ & _ & _ & _
        & Hbars & Hlen).
  exists first, last. repeat split; assumption.
Defined.

Lemma X11_witness :
  chart (component 400 400 60 (Some abc)) = None
  /\ data (component 400 400 60 (Some abc)) = Some abc
  /\ exists mid,
       App.ngOnChanges (component 400 400 60 (Some abc)) = Ok tt mid
       /\ chart mid = None
       /\ App.ngOnInit mid = App.ngOnInit (component 400 400 60 (Some abc)).
Proof.
  split; [reflexivity|]. split; [reflexivity|].
  destruct (X11_notification_before_first_render
              (component 400 400 60 (Some abc)) abc eq_refl eq_refl)
    as ((mid & Hmid & Hc & _ & _ & Hinit) & _).
  exists mid. repeat split; assumption.
Defined.

Lemma X13_witness :
  data (component 400 400 60 (Some abc)) = Some abc
  /\ exists first last,
       App.ngOnInit (component 400 400 60 (Some abc)) = Ok tt first
       /\ app_rerender (Some shrunk) (component 400 400 60 (Some abc)) = Ok tt last
       /\ length (bars last) = Nat.max 3 1.
Proof.
  split; [reflexivity|].
  destruct (X13_rerender_keeps_every_bar (component 400 400 60 (Some abc)) abc
              shrunk eq_refl)
    as (first & last & xs & ys & Hfirst & Hlast & _ & _ & _ & Hlen).
  exists first, last. repeat split; assumption.
Defined.

Lemma X14_witness :
  chart (set_data (Some (abc ++ [rec "D" 7]))
           (final (App.ngOnInit (component 400 400 60 (Some abc)))))
  = Some (default [] (chart (final (App.ngOnInit (component 400 400 60 (Some abc))))))
  /\ data (set_data (Some (abc ++ [rec "D" 7]))
             (final (App.ngOnInit (component 400 400 60 (Some abc)))))
     = Some (abc ++ [rec "D" 7])
  /\ length (default [] (chart (final (App.ngOnInit
                                         (component 400 400 60 (Some abc))))))
     = 7%nat
  /\ length (selectAll "bar"
               (default [] (chart (final (App.ngOnInit
                                            (component 400 400 60 (Some abc)))))))
     = 3%nat
  /\ exists this' kept appended,
       App.ngOnChanges
         (set_data (Some (abc ++ [rec "D" 7]))
            (final (App.ngOnInit (component 400 400 60 (Some abc)))))
       = Ok tt this'
       /\ chart this' = Some (kept ++ appended)
       /\ length kept = 7%nat
       /\ length appended = 5%nat
       /\ length (selectAll "bar" appended) = 1%nat.
Proof.
  assert (Hc : chart (set_data (Some (abc ++ [rec "D" 7]))
                        (final (App.ngOnInit (component 400 400 60 (Some abc)))))
               = Some (default [] (chart (final (App.ngOnInit
                                                   (component 400 400 60 (Some abc))))))).
  { vm_compute. reflexivity. }
  split; [exact Hc|]. split; [reflexivity|]. split; [vm_compute; reflexivity|].
  split; [vm_compute; reflexivity|].
  destruct (X14_notification_only_appends
              (set_data (Some (abc ++ [rec "D" 7]))
                 (final (App.ngOnInit (component 400 400 60 (Some abc)))))
              (default [] (chart (final (App.ngOnInit
                                           (component 400 400 60 (Some abc))))))
              (abc ++ [rec "D" 7]) Hc eq_refl)
    as (this' & kept & appended & Hok & Hchart & Hkept & Hlen & Hsel).
  exists this', kept, appended.
  split; [exact Hok|]. split; [exact Hchart|].
  split; [rewrite <- (Forall2_length _ _ _ Hkept); vm_compute; reflexivity|].
  split; [rewrite Hlen; vm_compute; reflexivity|].
  rewrite Hsel. vm_compute. reflexivity.
Defined.

Lemma X15_witness :
  data (component 400 400 60 (Some [])) = Some []
  /\ (exists last direct,
        app_rerender (Some abc) (component 400 400 60 (Some [])) = Ok tt last
        /\ App.ngOnInit (component 400 400 60 (Some abc)) = Ok tt direct
        /\ bars last = bars direct
        /\ length (bars last) = 3%nat)
  /\ (exists last,
        legacy_rerender (Some abc) (component 400 400 60 (Some [])) = Ok tt last
        /\ bars last = []).
Proof.
  split; [reflexivity|].
  destruct (X15_data_after_initial_render (component 400 400 60 (Some [])) abc
              eq_refl)
    as ((last & direct & stale & nodes & Hlast & Hdirect & _ & _ & Hbars & Hlen & _)
        & (old & Hold & _ & Hnone & _)).
  split.
  - exists last, direct. repeat split; assumption.
  - exists old. split; assumption.
Defined.

Lemma X16_witness :
  data (component 400 400 60 (Some abc)) = Some abc
  /\ (exists old nodes,
        Legacy.ngOnInit (component 400 400 60 (Some abc)) = Ok tt old
        /\ chart old = Some nodes /\ selectAll "bar" nodes = [])
  /\ (exists new nodes,
        App.ngOnInit (component 400 400 60 (Some abc)) = Ok tt new
        /\ chart new = Some nodes /\ selectAll "bar" nodes = bars new).
Proof.
  split; [reflexivity|].
  destruct (X16_class_width_x_animated_in_earlier_revision
              (component 400 400 60 (Some abc)) abc eq_refl)
    as ((old & nodes & xs & Hold & Hc & _ & Hsel & _)
        & (new & nodes' & xs' & Hnew & Hc' & _ & Hsel' & _)).
  split.
  - exists old, nodes. repeat split; assumption.
  - exists new, nodes'. repeat split; assumption.
Defined.

Lemma X17_witness :
  data (component 400 400 60 (Some abc)) = Some abc
  /\ exists new old,
       App.ngOnInit (component 400 400 60 (Some abc)) = Ok tt new
       /\ Legacy.ngOnInit (component 400 400 60 (Some abc)) = Ok tt old
       /\ xScale new = xScale old /\ yScale new = yScale old
       /\ Forall2 (fun n o =>
                     tag n = tag o /\ datum n = datum o /\ settled n = settled o)
                  (bars new) (bars old).
Proof.
  split; [reflexivity|].
  destruct (X17_revisions_settle_alike (component 400 400 60 (Some abc)) abc eq_refl)
    as (new & old & four & Hnew & Hold & _ & _ & _ & _ & Hxs & Hys & _ & _ & Hbars).
  exists new, old. repeat split; assumption.
Defined.

Lemma X19_witness :
  data (component 400 400 60 (Some abc)) = Some abc
  /\ exists first gx lx gy ly,
       App.ngOnInit (component 400 400 60 (Some abc)) = Ok tt first
       /\ chart first = Some ([gx; lx; gy; ly] ++ bars first)
       /\ attrs gx !! "transform" = Some (AStr "translate(0, 280)")
       /\ text lx = Some "cat" /\ text ly = Some "val".
Proof.
  split; [reflexivity|].
  destruct (X19_first_render_layout (component 400 400 60 (Some abc)) abc eq_refl)
    as (first & old & xs & ys & gx & lx & gy & ly & Hok & _ & _ & _ & Hchart & _
        & _ & Htr & Hlx & _ & Hly & _).
  exists first, gx, lx, gy, ly. repeat split; assumption.
Defined.

Lemma X20_witness :
  data (component 400 400 60 (Some abc)) = Some abc
  /\ exists first xs,
       App.ngOnInit (component 400 400 60 (Some abc)) = Ok tt first
       /\ xScale first = Some xs
       /\ D3.band_call xs (VString "D") = None.
Proof.
  split; [reflexivity|].
  destruct (X20_band_lookup (component 400 400 60 (Some abc)) abc eq_refl)
    as (first & xs & Hok & Hxs & _ & Hnone).
  exists first, xs. split; [exact Hok|]. split; [exact Hxs|].
  apply Hnone. vm_compute. intros Hin.
  repeat (apply elem_of_cons in Hin as [Hin|Hin]; [discriminate|]).
  apply elem_of_nil in Hin. exact Hin.
Defined.

Lemma X21_witness :
  data (component 400 400 60 (Some zeros)) = Some zeros
  /\ App.getData zeros "val" = map VNumber [0%Q; 0%Q]
  /\ is_maximum 0 [0%Q; 0%Q]
  /\ (400 - 60 - 60 == inject_Z 280)%Q
  /\ exists this',
       App.ngOnInit (component 400 400 60 (Some zeros)) = Ok tt this'
       /\ Forall2 (fun q n =>
                     exists yy hh : Q,
                       animates n easeLinear 880 (Fin yy) (Fin hh)
                       /\ (yy == 400 - 60 - 60)%Q /\ (hh == 0)%Q)
                  [0%Q; 0%Q] (bars this').
Proof.
  assert (Hmax : is_maximum 0 [0%Q; 0%Q]).
  { split; [left; reflexivity|]. repeat constructor; discriminate. }
  split; [reflexivity|]. split; [reflexivity|]. split; [exact Hmax|].
  split; [reflexivity|].
  apply (X21_bars_under_zero_maximum (component 400 400 60 (Some zeros)) zeros
           [0%Q; 0%Q] 0 280 eq_refl eq_refl Hmax); reflexivity.
Defined.
